(** * Activity invocation contract of the Cadence Go client

    A shallow embedding of [client/cadence/activity.go] and of the private
    helpers of the same package (argument validation, option chain,
    activity environment, heartbeat), with the properties of the
    specification stated over it.

    Conventions of the embedding:
    - a Go function returning [(T, error)] returns a pair whose second
      component is [option error] ([None] is the nil error);
    - a Go panic is an explicit outcome ([Pan] for code without state,
      [Panicked] for code that runs against a store);
    - [*executeActivityParameters] is a location in a store of parameter
      objects, so that two contexts holding the same pointer alias;
    - [int32] fields are integers of [Z]: the code compares them with
      zero, copies them, and obtains them from [int32(d.Seconds())], a
      conversion from [float64] modelled on IEEE 754 binary64 as the
      standard library specifies it ([SpecFloat]). *)

From Stdlib Require Import ZArith String List Bool Lia.
From Stdlib Require Strings.Byte.
From Stdlib Require Import Floats.SpecFloat.
From stdpp Require Import base list.
Import ListNotations.
Set Warnings "-register-all".
Open Scope string_scope.
Open Scope list_scope.
Open Scope Z_scope.

(** ** The part of package [reflect] the code uses *)

Module reflect.

Inductive Kind :=
| Invalid | Bool | Int | Int8 | Int16 | Int32 | Int64
| Uint | Uint8 | Uint16 | Uint32 | Uint64 | Uintptr
| Float32 | Float64 | Complex64 | Complex128
| Array | Chan | Func | Interface | Map | Ptr | Slice
| String | Struct | UnsafePointer.

Definition Kind_eqb (a b : Kind) : bool :=
  match a, b with
  | Invalid, Invalid | Bool, Bool | Int, Int | Int8, Int8 | Int16, Int16
  | Int32, Int32 | Int64, Int64 | Uint, Uint | Uint8, Uint8
  | Uint16, Uint16 | Uint32, Uint32 | Uint64, Uint64 | Uintptr, Uintptr
  | Float32, Float32 | Float64, Float64 | Complex64, Complex64
  | Complex128, Complex128 | Array, Array | Chan, Chan | Func, Func
  | Interface, Interface | Map, Map | Ptr, Ptr | Slice, Slice
  | String, String | Struct, Struct | UnsafePointer, UnsafePointer => true
  | _, _ => false
  end.

End reflect.

(** A type descriptor ([reflect.Type]): its printed name, its kind and,
    for a function type, the declared parameter and result types. *)
Inductive rtype :=
| MkType (name : string) (kind : reflect.Kind) (ins outs : list rtype).

Definition typeName (t : rtype) : string := let 'MkType n _ _ _ := t in n.
Definition typeKind (t : rtype) : reflect.Kind := let 'MkType _ k _ _ := t in k.
Definition typeIns (t : rtype) : list rtype := let 'MkType _ _ i _ := t in i.
Definition typeOuts (t : rtype) : list rtype := let 'MkType _ _ _ o := t in o.

(** A non-nil value held in an [interface{}]: its dynamic type and an
    opaque rendering of its contents. *)
Record GoValue := { dynType : rtype; repr : string }.

(** [interface{}]: [None] is the nil interface. *)
Definition iface := option GoValue.

Definition bytes := list Byte.byte.

(** [reflect.Value], as far as [IsNil] and [Interface] look at it. *)
Record Value := { vKind : reflect.Kind; vIsNil : bool; vInterface : iface }.

(** ** Errors and panics *)

Inductive fmtArg :=
| ArgInt (n : Z)
| ArgString (s : string)
| ArgType (t : rtype)
| ArgIface (v : iface)
| ArgValue (v : Value).

(** Error values: the package's sentinel, [errors.New], [fmt.Errorf] with
    its format and arguments, a value of a type that implements [error],
    and an error made by a collaborator. *)
Inductive error :=
| errActivityParamsBadRequest
| errorsNew (msg : string)
| fmtErrorf (format : string) (args : list fmtArg)
| errorValue (v : GoValue)
| externalError (tag : string).

(** What [panic] was called with, or the runtime error that panicked. *)
Inductive panicValue :=
| PanicString (s : string)
| PanicError (e : error)
| RuntimeError (s : string).

(** Code that may panic but touches no store. *)
Inductive res (A : Type) :=
| Val (a : A)
| Pan (v : panicValue).
Arguments Val {A} a.
Arguments Pan {A} v.

Definition res_bind {A B} (m : res A) (k : A -> res B) : res B :=
  match m with
  | Val a => k a
  | Pan v => Pan v
  end.

Notation "'let!' x ':=' m 'in' k" := (res_bind m (fun x => k))
  (at level 10, x name, m at level 100, k at level 200).

(** Code that runs against a store [S]; a panic keeps the store reached. *)
Inductive outcome (S A : Type) :=
| Done (a : A) (s : S)
| Panicked (v : panicValue) (s : S).
Arguments Done {S A} a s.
Arguments Panicked {S A} v s.

Definition M (S A : Type) := S -> outcome S A.

Definition ret {S A} (a : A) : M S A := fun s => Done a s.

Definition bind {S A B} (m : M S A) (k : A -> M S B) : M S B :=
  fun s => match m s with
           | Done a s' => k a s'
           | Panicked v s' => Panicked v s'
           end.

Definition panic {S A} (v : panicValue) : M S A := fun s => Panicked v s.

Definition lift {S A} (r : res A) : M S A :=
  fun s => match r with
           | Val a => Done a s
           | Pan v => Panicked v s
           end.

Notation "'let*' x ':=' m 'in' k" := (bind m (fun x => k))
  (at level 10, x name, m at level 100, k at level 200).

(** [reflect.TypeOf]: nil for the nil interface. *)
Definition TypeOf (v : iface) : option rtype := option_map dynType v.

(** A method called through a nil [reflect.Type]. *)
Definition nilDeref : panicValue :=
  RuntimeError "invalid memory address or nil pointer dereference".

Definition indexOutOfRange : panicValue :=
  RuntimeError "index out of range".

(** [t.NumIn()] and [t.In(i)] panic unless [t] is a function type. *)
Definition NumIn (t : rtype) : res nat :=
  if reflect.Kind_eqb (typeKind t) reflect.Func then Val (length (typeIns t))
  else Pan (PanicString "reflect: NumIn of non-func type").

Definition In (t : rtype) (i : nat) : res rtype :=
  if reflect.Kind_eqb (typeKind t) reflect.Func then
    match typeIns t !! i with
    | Some a => Val a
    | None => Pan (PanicString "reflect: Func index out of bounds")
    end
  else Pan (PanicString "reflect: In of non-func type").

(** [xs[i]] on a slice. *)
Definition index {A} (xs : list A) (i : nat) : res A :=
  match xs !! i with
  | Some a => Val a
  | None => Pan indexOutOfRange
  end.



(** The types [context.Context] and [error], as [reflect.TypeOf] of a nil
    pointer to them followed by [Elem] gives them. *)
Definition contextElem : rtype := MkType "context.Context" reflect.Interface [] [].
Definition errorElem : rtype := MkType "error" reflect.Interface [] [].

(** ** Collaborators outside the two source files *)

(** Package [reflect]'s relations between types. *)
Class Reflection := {
  AssignableTo : rtype -> rtype -> bool;
  Implements : rtype -> rtype -> bool
}.

(** Package-level helpers and the host environment's codec, declared in
    other files of the package. *)
Class Package := {
  isWorkflowContext : rtype -> bool;
  getFunctionName : iface -> string;
  encodeArg : iface -> bytes + error;
  encodeArgs : list iface -> bytes + error
}.

(** ** Data model of the package *)

Record ActivityType := { Name : string }.

Record WorkflowExecution := { ID : string; RunID : string }.

(** [ActivityInfo]; the fields are [TaskToken], [WorkflowExecution],
    [ActivityID] and [ActivityType] in the source. *)
Record ActivityInfo := {
  TaskToken : bytes;
  InfoWorkflowExecution : WorkflowExecution;
  InfoActivityID : string;
  InfoActivityType : ActivityType
}.

(** [executeActivityParameters]; [ActivityID] is a [*string], and
    [ParamActivityType] is the field [ActivityType] of the source. *)
Record executeActivityParameters := {
  ActivityID : option string;
  ParamActivityType : ActivityType;
  TaskListName : string;
  Input : bytes;
  ScheduleToCloseTimeoutSeconds : Z;
  ScheduleToStartTimeoutSeconds : Z;
  StartToCloseTimeoutSeconds : Z;
  HeartbeatTimeoutSeconds : Z;
  WaitForCancellation : bool
}.

(** [&executeActivityParameters{}]: every field at its zero value. *)
Definition zeroParameters : executeActivityParameters :=
  {| ActivityID := None;
     ParamActivityType := {| Name := "" |};
     TaskListName := "";
     Input := [];
     ScheduleToCloseTimeoutSeconds := 0;
     ScheduleToStartTimeoutSeconds := 0;
     StartToCloseTimeoutSeconds := 0;
     HeartbeatTimeoutSeconds := 0;
     WaitForCancellation := false |}.

(** [*zap.Logger], identified by a name. *)
Record Logger := { loggerName : string }.

(** [ServiceInvoker]: what [Heartbeat] answers on a payload. *)
Record ServiceInvoker := { Heartbeat : bytes -> option error }.

Record activityEnvironment := {
  taskToken : bytes;
  workflowExecution : WorkflowExecution;
  activityID : string;
  activityType : ActivityType;
  serviceInvoker : ServiceInvoker;
  logger : Logger
}.

(** [activityOptions], the builder: every field is a pointer, nil until
    the corresponding setter ran; [optActivityID] is the field
    [activityID] of the source. *)
Record activityOptions := {
  optActivityID : option string;
  taskListName : option string;
  scheduleToCloseTimeoutSeconds : option Z;
  scheduleToStartTimeoutSeconds : option Z;
  startToCloseTimeoutSeconds : option Z;
  heartbeatTimeoutSeconds : option Z;
  waitForCancellation : option bool
}.

(** [&activityOptions{}]. *)
Definition NewActivityOptions : activityOptions :=
  {| optActivityID := None; taskListName := None;
     scheduleToCloseTimeoutSeconds := None;
     scheduleToStartTimeoutSeconds := None;
     startToCloseTimeoutSeconds := None;
     heartbeatTimeoutSeconds := None;
     waitForCancellation := None |}.

(** ** Contexts *)

(** A pointer to a parameters object: an index in the store. *)
Definition loc := nat.

(** The store of [executeActivityParameters] objects allocated so far. *)
Abbreviation store := (list executeActivityParameters).

(** What a context binds to a key. *)
Inductive ctxValue :=
| VParams (p : loc)
| VEnv (env : activityEnvironment)
| VOther (v : GoValue).

(** A context is its chain of [WithValue] nodes. *)
Inductive Context :=
| Background
| WithValue (parent : Context) (key : string) (val : ctxValue).

Definition activityEnvContextKey : string := "activityEnv".
Definition activityOptionsContextKey : string := "activityOptions".

(** [ctx.Value(key)]: the nearest binding of [key], nil when there is none. *)
Fixpoint ctxLookup (ctx : Context) (key : string) : option ctxValue :=
  match ctx with
  | Background => None
  | WithValue parent k v =>
      if String.eqb k key then Some v else ctxLookup parent key
  end.

Definition typeAssertion : panicValue :=
  RuntimeError "interface conversion: interface {} is of another type".

(** ** Private helpers: environment and options lookup *)

Definition getActivityEnv (ctx : Context) : res activityEnvironment :=
  match ctxLookup ctx activityEnvContextKey with
  | None => Pan (PanicString "getActivityEnv: Not an activity context")
  | Some (VEnv env) => Val env
  | Some _ => Pan typeAssertion
  end.

(** Returns the pointer bound in the context, nil when there is none. *)
Definition getActivityOptions (ctx : Context) : res (option loc) :=
  match ctxLookup ctx activityOptionsContextKey with
  | None => Val None
  | Some (VParams p) => Val (Some p)
  | Some _ => Pan typeAssertion
  end.

(** Reading through a pointer handed out by [getActivityOptions]. *)
Definition deref (p : option loc) : M store executeActivityParameters :=
  fun h => match p with
           | None => Panicked nilDeref h
           | Some l => match h !! l with
                       | Some v => Done v h
                       | None => Panicked nilDeref h
                       end
           end.

(** [p.field = v], written as an update of the object [p] points to. *)
Definition assign (p : option loc)
    (upd : executeActivityParameters -> executeActivityParameters) : M store unit :=
  fun h => match p with
           | None => Panicked nilDeref h
           | Some l => match h !! l with
                       | Some v => Done tt (<[l := upd v]> h)
                       | None => Panicked nilDeref h
                       end
           end.

(** [&executeActivityParameters{}]: a fresh object at the end of the store. *)
Definition new (v : executeActivityParameters) : M store loc :=
  fun h => Done (length h) (h ++ [v]).

Definition getValidatedActivityOptions (ctx : Context)
  : M store (option loc * option error) :=
  let* p := lift (getActivityOptions ctx) in
  match p with
  | None => ret (None, Some errActivityParamsBadRequest)
  | Some _ =>
      let* v := deref p in
      if ScheduleToStartTimeoutSeconds v <=? 0 then
        ret (None, Some (errorsNew "missing or negative ScheduleToStartTimeoutSeconds"))
      else if ScheduleToCloseTimeoutSeconds v <=? 0 then
        ret (None, Some (errorsNew "missing or negative ScheduleToCloseTimeoutSeconds"))
      else if StartToCloseTimeoutSeconds v <=? 0 then
        ret (None, Some (errorsNew "missing or negative StartToCloseTimeoutSeconds"))
      else ret (p, None)
  end.

Definition setActivityParametersIfNotExist (ctx : Context) : M store Context :=
  let* valCtx := lift (getActivityOptions ctx) in
  match valCtx with
  | None =>
      let* p := new zeroParameters in
      ret (WithValue ctx activityOptionsContextKey (VParams p))
  | Some _ => ret ctx
  end.

(** Field updates of a parameters object. *)
Definition setActivityID (x : option string) (p : executeActivityParameters) :=
  {| ActivityID := x;
     ParamActivityType := ParamActivityType p;
     TaskListName := TaskListName p;
     Input := Input p;
     ScheduleToCloseTimeoutSeconds := ScheduleToCloseTimeoutSeconds p;
     ScheduleToStartTimeoutSeconds := ScheduleToStartTimeoutSeconds p;
     StartToCloseTimeoutSeconds := StartToCloseTimeoutSeconds p;
     HeartbeatTimeoutSeconds := HeartbeatTimeoutSeconds p;
     WaitForCancellation := WaitForCancellation p |}.

Definition setTaskListName (x : string) (p : executeActivityParameters) :=
  {| ActivityID := ActivityID p;
     ParamActivityType := ParamActivityType p;
     TaskListName := x;
     Input := Input p;
     ScheduleToCloseTimeoutSeconds := ScheduleToCloseTimeoutSeconds p;
     ScheduleToStartTimeoutSeconds := ScheduleToStartTimeoutSeconds p;
     StartToCloseTimeoutSeconds := StartToCloseTimeoutSeconds p;
     HeartbeatTimeoutSeconds := HeartbeatTimeoutSeconds p;
     WaitForCancellation := WaitForCancellation p |}.

Definition setScheduleToCloseTimeoutSeconds (x : Z) (p : executeActivityParameters) :=
  {| ActivityID := ActivityID p;
     ParamActivityType := ParamActivityType p;
     TaskListName := TaskListName p;
     Input := Input p;
     ScheduleToCloseTimeoutSeconds := x;
     ScheduleToStartTimeoutSeconds := ScheduleToStartTimeoutSeconds p;
     StartToCloseTimeoutSeconds := StartToCloseTimeoutSeconds p;
     HeartbeatTimeoutSeconds := HeartbeatTimeoutSeconds p;
     WaitForCancellation := WaitForCancellation p |}.

Definition setScheduleToStartTimeoutSeconds (x : Z) (p : executeActivityParameters) :=
  {| ActivityID := ActivityID p;
     ParamActivityType := ParamActivityType p;
     TaskListName := TaskListName p;
     Input := Input p;
     ScheduleToCloseTimeoutSeconds := ScheduleToCloseTimeoutSeconds p;
     ScheduleToStartTimeoutSeconds := x;
     StartToCloseTimeoutSeconds := StartToCloseTimeoutSeconds p;
     HeartbeatTimeoutSeconds := HeartbeatTimeoutSeconds p;
     WaitForCancellation := WaitForCancellation p |}.

Definition setStartToCloseTimeoutSeconds (x : Z) (p : executeActivityParameters) :=
  {| ActivityID := ActivityID p;
     ParamActivityType := ParamActivityType p;
     TaskListName := TaskListName p;
     Input := Input p;
     ScheduleToCloseTimeoutSeconds := ScheduleToCloseTimeoutSeconds p;
     ScheduleToStartTimeoutSeconds := ScheduleToStartTimeoutSeconds p;
     StartToCloseTimeoutSeconds := x;
     HeartbeatTimeoutSeconds := HeartbeatTimeoutSeconds p;
     WaitForCancellation := WaitForCancellation p |}.

Definition setHeartbeatTimeoutSeconds (x : Z) (p : executeActivityParameters) :=
  {| ActivityID := ActivityID p;
     ParamActivityType := ParamActivityType p;
     TaskListName := TaskListName p;
     Input := Input p;
     ScheduleToCloseTimeoutSeconds := ScheduleToCloseTimeoutSeconds p;
     ScheduleToStartTimeoutSeconds := ScheduleToStartTimeoutSeconds p;
     StartToCloseTimeoutSeconds := StartToCloseTimeoutSeconds p;
     HeartbeatTimeoutSeconds := x;
     WaitForCancellation := WaitForCancellation p |}.

Definition setWaitForCancellation (x : bool) (p : executeActivityParameters) :=
  {| ActivityID := ActivityID p;
     ParamActivityType := ParamActivityType p;
     TaskListName := TaskListName p;
     Input := Input p;
     ScheduleToCloseTimeoutSeconds := ScheduleToCloseTimeoutSeconds p;
     ScheduleToStartTimeoutSeconds := ScheduleToStartTimeoutSeconds p;
     StartToCloseTimeoutSeconds := StartToCloseTimeoutSeconds p;
     HeartbeatTimeoutSeconds := HeartbeatTimeoutSeconds p;
     WaitForCancellation := x |}.

(** [if ao.field != nil] then [eap.Field] takes the value [ao.field]
    points to. *)
Definition assignIfSet {A} (field : option A)
    (upd : A -> executeActivityParameters -> executeActivityParameters)
    (eap : option loc) : M store unit :=
  match field with
  | Some x => assign eap (upd x)
  | None => ret tt
  end.

(** ** activity.go: the option chain *)

(** The type assertion on [options] selects the package's only
    implementation of [ActivityOptions]; [ao] is the builder it points to. *)
Definition WithActivityOptions (ctx : Context) (ao : activityOptions) : M store Context :=
  let* ctx1 := setActivityParametersIfNotExist ctx in
  let* eap := lift (getActivityOptions ctx1) in
  let* _ := assignIfSet (taskListName ao) setTaskListName eap in
  let* _ := assignIfSet (scheduleToCloseTimeoutSeconds ao) setScheduleToCloseTimeoutSeconds eap in
  let* _ := assignIfSet (startToCloseTimeoutSeconds ao) setStartToCloseTimeoutSeconds eap in
  let* _ := assignIfSet (scheduleToStartTimeoutSeconds ao) setScheduleToStartTimeoutSeconds eap in
  let* _ := assignIfSet (heartbeatTimeoutSeconds ao) setHeartbeatTimeoutSeconds eap in
  let* _ := assignIfSet (waitForCancellation ao) setWaitForCancellation eap in
  let* _ := assignIfSet (optActivityID ao) (fun x => setActivityID (Some x)) eap in
  ret ctx1.

Definition WithTaskList (ctx : Context) (name : string) : M store Context :=
  let* ctx1 := setActivityParametersIfNotExist ctx in
  let* eap := lift (getActivityOptions ctx1) in
  let* _ := assign eap (setTaskListName name) in
  ret ctx1.

Definition WithWaitForCancellation (ctx : Context) (wait : bool) : M store Context :=
  let* ctx1 := setActivityParametersIfNotExist ctx in
  let* eap := lift (getActivityOptions ctx1) in
  let* _ := assign eap (setWaitForCancellation wait) in
  ret ctx1.

(** Reading the configuration a context resolves to. *)
Definition resolve (ctx : Context) : M store executeActivityParameters :=
  let* eap := lift (getActivityOptions ctx) in
  deref eap.

(** ** activity.go: the activity environment *)

Definition GetActivityInfo (ctx : Context) : res ActivityInfo :=
  let! env := getActivityEnv ctx in
  Val {| InfoActivityID := activityID env;
         InfoActivityType := activityType env;
         TaskToken := taskToken env;
         InfoWorkflowExecution := workflowExecution env |}.

Definition GetActivityLogger (ctx : Context) : res Logger :=
  let! env := getActivityEnv ctx in
  Val (logger env).

(** What a heartbeat does to the outside: calls of the invoker and lines
    written to a logger, in order. *)
Inductive event :=
| InvokerHeartbeat (data : bytes)
| LogDebug (log : Logger) (msg : string) (err : error).

Abbreviation world := (list event).

Definition callHeartbeat (inv : ServiceInvoker) (data : bytes) : M world (option error) :=
  fun w => Done (Heartbeat inv data) (w ++ [InvokerHeartbeat data]).

Definition logDebug (log : Logger) (msg : string) (err : error) : M world unit :=
  fun w => Done tt (w ++ [LogDebug log msg err]).

(** The poll response [WithActivityTask] reads; every pointer field may
    be nil. *)
Record PollForActivityTaskResponse := {
  respTaskToken : bytes;
  respActivityId : option string;
  respActivityTypeName : option (option string);
  respWorkflowExecution : option (option string * option string)
}.

Definition derefPtr {A} (p : option A) : res A :=
  match p with
  | Some a => Val a
  | None => Pan nilDeref
  end.

(** [respWorkflowExecution] holds [(WorkflowId, RunId)]. *)
Definition WithActivityTask (ctx : Context) (task : option PollForActivityTaskResponse)
    (invoker : ServiceInvoker) (log : Logger) : res Context :=
  let! t := derefPtr task in
  let! typ := derefPtr (respActivityTypeName t) in
  let! name := derefPtr typ in
  let! aid := derefPtr (respActivityId t) in
  let! we := derefPtr (respWorkflowExecution t) in
  let! runID := derefPtr (snd we) in
  let! wid := derefPtr (fst we) in
  Val (WithValue ctx activityEnvContextKey (VEnv
    {| taskToken := respTaskToken t;
       serviceInvoker := invoker;
       activityType := {| Name := name |};
       activityID := aid;
       workflowExecution := {| RunID := runID; ID := wid |};
       logger := log |})).

(** ** Functions that go through [reflect] and the host environment *)

Section WithCollaborators.

Context `{Reflection} `{Package}.

Definition isActivityContext (inType : rtype) : bool :=
  Implements inType contextElem.


(** The loop of [validateFunctionArgs]: it runs while
    [fnArgIndex < fType.NumIn()], that is [remaining] more times, with
    [remaining = fType.NumIn() - fnArgIndex]. *)
Fixpoint validateArgTypes (fType : rtype) (args : list iface)
    (remaining fnArgIndex i : nat) : res (option error) :=
  match remaining with
  | O => Val None
  | S remaining' =>
      let! fnArgType := In fType fnArgIndex in
      let! arg := index args i in
      match TypeOf arg with
      | None => Pan nilDeref
      | Some argType =>
          if negb (AssignableTo argType fnArgType) then
            Val (Some (fmtErrorf
              "cannot assign function argument: %d from type: %s to type: %s"
              [ArgInt (Z.of_nat fnArgIndex + 1); ArgType argType; ArgType fnArgType]))
          else validateArgTypes fType args remaining' (S fnArgIndex) (S i)
      end
  end.

(** The index of the first declared parameter that is matched against
    [args]: 1 when the leading parameter is the context of the expected
    flavor, 0 otherwise. *)
Definition skipContext (fType : rtype) (isWorkflow : bool) : res nat :=
  let fnArgIndex := 0%nat in
  let! numIn := NumIn fType in
  if (0 <? numIn)%nat then
    let! fnArgIndex :=
      if isWorkflow then
        let! in0 := In fType 0 in
        Val (if isWorkflowContext in0 then S fnArgIndex else fnArgIndex)
      else Val fnArgIndex in
    if negb isWorkflow then
      let! in0 := In fType 0 in
      Val (if isActivityContext in0 then S fnArgIndex else fnArgIndex)
    else Val fnArgIndex
  else Val fnArgIndex.

Definition validateFunctionArgs (f : iface) (args : list iface) (isWorkflow : bool)
  : res (option error) :=
  match TypeOf f with
  | None => Pan nilDeref
  | Some fType =>
      if negb (reflect.Kind_eqb (typeKind fType) reflect.Func) then
        Val (Some (fmtErrorf "Provided type: %v is not a function type" [ArgIface f]))
      else
        let fnName := getFunctionName f in
        let! fnArgIndex := skipContext fType isWorkflow in
        let! numIn := NumIn fType in
        if negb (numIn - fnArgIndex =? length args)%nat then
          Val (Some (fmtErrorf "expected %d args for function: %v but found %v"
            [ArgInt (Z.of_nat (numIn - fnArgIndex)); ArgString fnName;
             ArgInt (Z.of_nat (length args))]))
        else validateArgTypes fType args (numIn - fnArgIndex) fnArgIndex 0
  end.


Definition RecordActivityHeartbeat (ctx : Context) (details : list iface) : M world unit :=
  match encodeArgs details with
  | inr err => panic (PanicError err)
  | inl data =>
      let* env := lift (getActivityEnv ctx) in
      let* err := callHeartbeat (serviceInvoker env) data in
      match err with
      | Some e =>
          let* log := lift (GetActivityLogger ctx) in
          logDebug log "RecordActivityHeartbeat With Error:" e
      | None => ret tt
      end
  end.

End WithCollaborators.

(** ** Durations and the timeout setters *)

(** [time.Duration]: a count of nanoseconds. *)
Definition Duration := Z.

Definition Second : Duration := 1000000000.

(** [float64] is IEEE 754 binary64, rounding to nearest even. *)
Definition float64 := spec_float.

(** [float64(n)] for an integer [n]. *)
Definition float64OfInt (n : Z) : float64 := binary_normalize 53 1024 n 0 false.

(** [d.Seconds()] of package [time]:
    [float64(d / Second) + float64(d % Second) / 1e9], with Go's integer
    division and remainder, which truncate toward zero. *)
Definition Seconds (d : Duration) : float64 :=
  let sec := Z.quot d Second in
  let nsec := Z.rem d Second in
  SFadd 53 1024 (float64OfInt sec)
    (SFdiv 53 1024 (float64OfInt nsec) (float64OfInt 1000000000)).

(** The integer part of a finite [float64], toward zero. *)
Definition truncate (x : float64) : option Z :=
  match x with
  | S754_zero _ => Some 0
  | S754_finite s m e =>
      Some (cond_Zopp s
        (match e with
         | Zneg k => Z.pos m / 2 ^ Z.pos k
         | _ => Z.pos m * 2 ^ e
         end))
  | _ => None
  end.

(** The 53-bit mantissa of a positive integer below [2 ^ 53]. *)
Definition normalise (p : positive) : positive :=
  Z.to_pos (Z.pos p * 2 ^ (53 - Z.pos (digits2_pos p))).

(** The constant [1e9] as a [float64]. *)
Definition billion : float64 := S754_finite false 8388608000000000 (-23).

(** The conversion [int32(x)] is fixed by the language only when the
    integer part of [x] fits 32 bits; elsewhere the machine decides. *)
Class Machine := { int32OfUnrepresentable : float64 -> Z }.

Definition int32OfFloat64 `{Machine} (x : float64) : Z :=
  match truncate x with
  | Some z =>
      if (- 2 ^ 31 <=? z) && (z <? 2 ^ 31) then z
      else int32OfUnrepresentable x
  | None => int32OfUnrepresentable x
  end.

Section TimeoutSetters.

Context `{Machine}.

Definition WithScheduleToCloseTimeout (ctx : Context) (d : Duration) : M store Context :=
  let* ctx1 := setActivityParametersIfNotExist ctx in
  let* eap := lift (getActivityOptions ctx1) in
  let* _ := assign eap (setScheduleToCloseTimeoutSeconds (int32OfFloat64 (Seconds d))) in
  ret ctx1.

Definition WithScheduleToStartTimeout (ctx : Context) (d : Duration) : M store Context :=
  let* ctx1 := setActivityParametersIfNotExist ctx in
  let* eap := lift (getActivityOptions ctx1) in
  let* _ := assign eap (setScheduleToStartTimeoutSeconds (int32OfFloat64 (Seconds d))) in
  ret ctx1.

Definition WithStartToCloseTimeout (ctx : Context) (d : Duration) : M store Context :=
  let* ctx1 := setActivityParametersIfNotExist ctx in
  let* eap := lift (getActivityOptions ctx1) in
  let* _ := assign eap (setStartToCloseTimeoutSeconds (int32OfFloat64 (Seconds d))) in
  ret ctx1.

Definition WithHeartbeatTimeout (ctx : Context) (d : Duration) : M store Context :=
  let* ctx1 := setActivityParametersIfNotExist ctx in
  let* eap := lift (getActivityOptions ctx1) in
  let* _ := assign eap (setHeartbeatTimeoutSeconds (int32OfFloat64 (Seconds d))) in
  ret ctx1.

(** The builder's methods update the receiver and return it; here they
    map the builder's state before the call to its state after it. *)
Definition ab_WithScheduleToCloseTimeout (ab : activityOptions) (d : Duration) : activityOptions :=
  {| optActivityID := optActivityID ab;
     taskListName := taskListName ab;
     scheduleToCloseTimeoutSeconds := Some (int32OfFloat64 (Seconds d));
     scheduleToStartTimeoutSeconds := scheduleToStartTimeoutSeconds ab;
     startToCloseTimeoutSeconds := startToCloseTimeoutSeconds ab;
     heartbeatTimeoutSeconds := heartbeatTimeoutSeconds ab;
     waitForCancellation := waitForCancellation ab |}.

Definition ab_WithScheduleToStartTimeout (ab : activityOptions) (d : Duration) : activityOptions :=
  {| optActivityID := optActivityID ab;
     taskListName := taskListName ab;
     scheduleToCloseTimeoutSeconds := scheduleToCloseTimeoutSeconds ab;
     scheduleToStartTimeoutSeconds := Some (int32OfFloat64 (Seconds d));
     startToCloseTimeoutSeconds := startToCloseTimeoutSeconds ab;
     heartbeatTimeoutSeconds := heartbeatTimeoutSeconds ab;
     waitForCancellation := waitForCancellation ab |}.

Definition ab_WithStartToCloseTimeout (ab : activityOptions) (d : Duration) : activityOptions :=
  {| optActivityID := optActivityID ab;
     taskListName := taskListName ab;
     scheduleToCloseTimeoutSeconds := scheduleToCloseTimeoutSeconds ab;
     scheduleToStartTimeoutSeconds := scheduleToStartTimeoutSeconds ab;
     startToCloseTimeoutSeconds := Some (int32OfFloat64 (Seconds d));
     heartbeatTimeoutSeconds := heartbeatTimeoutSeconds ab;
     waitForCancellation := waitForCancellation ab |}.

Definition ab_WithHeartbeatTimeout (ab : activityOptions) (d : Duration) : activityOptions :=
  {| optActivityID := optActivityID ab;
     taskListName := taskListName ab;
     scheduleToCloseTimeoutSeconds := scheduleToCloseTimeoutSeconds ab;
     scheduleToStartTimeoutSeconds := scheduleToStartTimeoutSeconds ab;
     startToCloseTimeoutSeconds := startToCloseTimeoutSeconds ab;
     heartbeatTimeoutSeconds := Some (int32OfFloat64 (Seconds d));
     waitForCancellation := waitForCancellation ab |}.

End TimeoutSetters.

Definition ab_WithTaskList (ab : activityOptions) (name : string) : activityOptions :=
  {| optActivityID := optActivityID ab;
     taskListName := Some name;
     scheduleToCloseTimeoutSeconds := scheduleToCloseTimeoutSeconds ab;
     scheduleToStartTimeoutSeconds := scheduleToStartTimeoutSeconds ab;
     startToCloseTimeoutSeconds := startToCloseTimeoutSeconds ab;
     heartbeatTimeoutSeconds := heartbeatTimeoutSeconds ab;
     waitForCancellation := waitForCancellation ab |}.

Definition ab_WithWaitForCancellation (ab : activityOptions) (wait : bool) : activityOptions :=
  {| optActivityID := optActivityID ab;
     taskListName := taskListName ab;
     scheduleToCloseTimeoutSeconds := scheduleToCloseTimeoutSeconds ab;
     scheduleToStartTimeoutSeconds := scheduleToStartTimeoutSeconds ab;
     startToCloseTimeoutSeconds := startToCloseTimeoutSeconds ab;
     heartbeatTimeoutSeconds := heartbeatTimeoutSeconds ab;
     waitForCancellation := Some wait |}.

Definition ab_WithActivityID (ab : activityOptions) (id : string) : activityOptions :=
  {| optActivityID := Some id;
     taskListName := taskListName ab;
     scheduleToCloseTimeoutSeconds := scheduleToCloseTimeoutSeconds ab;
     scheduleToStartTimeoutSeconds := scheduleToStartTimeoutSeconds ab;
     startToCloseTimeoutSeconds := startToCloseTimeoutSeconds ab;
     heartbeatTimeoutSeconds := heartbeatTimeoutSeconds ab;
     waitForCancellation := waitForCancellation ab |}.

(** ** The acceptance contract of the validator, in the specification's words *)

Section Contract.

Context `{Reflection} `{Package}.

(** The context type a call of the given flavor expects in front. *)
Definition expectsContext (isWorkflow : bool) (t : rtype) : bool :=
  if isWorkflow then isWorkflowContext t else isActivityContext t.

Definition leadingContext (fType : rtype) (isWorkflow : bool) : bool :=
  match typeIns fType with
  | t :: _ => expectsContext isWorkflow t
  | [] => false
  end.

(** The declared parameters that are matched against the arguments. *)
Definition nonContextParams (fType : rtype) (isWorkflow : bool) : list rtype :=
  if leadingContext fType isWorkflow then drop 1 (typeIns fType) else typeIns fType.

(** The argument has a runtime type, and it is assignable to [t]. *)
Definition assignableArg (arg : iface) (t : rtype) : Prop :=
  exists argType, TypeOf arg = Some argType /\ AssignableTo argType t = true.

Definition arityError (expected : nat) (f : iface) (args : list iface) : error :=
  fmtErrorf "expected %d args for function: %v but found %v"
    [ArgInt (Z.of_nat expected); ArgString (getFunctionName f);
     ArgInt (Z.of_nat (length args))].

Definition assignError (position : nat) (argType fnArgType : rtype) : error :=
  fmtErrorf "cannot assign function argument: %d from type: %s to type: %s"
    [ArgInt (Z.of_nat position + 1); ArgType argType; ArgType fnArgType].





(** The argument loop, read over the two lists it walks in step;
    [position] is the index of the head of [params] among the declared
    parameters. *)
Fixpoint checkArgs (params : list rtype) (args : list iface) (position : nat)
  : res (option error) :=
  match params, args with
  | t :: params', arg :: args' =>
      match TypeOf arg with
      | None => Pan nilDeref
      | Some argType =>
          if negb (AssignableTo argType t) then Val (Some (assignError position argType t))
          else checkArgs params' args' (S position)
      end
  | _, _ => Val None
  end.

End Contract.

(** The shape shared by the single-field setters of activity.go: make
    sure an object is bound, then write one field through the pointer. *)
Definition withField (upd : executeActivityParameters -> executeActivityParameters)
    (ctx : Context) : M store Context :=
  let* ctx1 := setActivityParametersIfNotExist ctx in
  let* eap := lift (getActivityOptions ctx1) in
  let* _ := assign eap upd in
  ret ctx1.

(** ** The overlay of a builder on a configuration, in the specification's words *)

(** The value a field takes: the builder's when it is set, the accumulated
    one otherwise. *)
Definition overlayField {A} (field : option A) (accumulated : A) : A :=
  match field with
  | Some x => x
  | None => accumulated
  end.

Definition overlay (ao : activityOptions) (p : executeActivityParameters)
  : executeActivityParameters :=
  {| ActivityID := match optActivityID ao with
                   | Some x => Some x
                   | None => ActivityID p
                   end;
     ParamActivityType := ParamActivityType p;
     TaskListName := overlayField (taskListName ao) (TaskListName p);
     Input := Input p;
     ScheduleToCloseTimeoutSeconds :=
       overlayField (scheduleToCloseTimeoutSeconds ao) (ScheduleToCloseTimeoutSeconds p);
     ScheduleToStartTimeoutSeconds :=
       overlayField (scheduleToStartTimeoutSeconds ao) (ScheduleToStartTimeoutSeconds p);
     StartToCloseTimeoutSeconds :=
       overlayField (startToCloseTimeoutSeconds ao) (StartToCloseTimeoutSeconds p);
     HeartbeatTimeoutSeconds :=
       overlayField (heartbeatTimeoutSeconds ao) (HeartbeatTimeoutSeconds p);
     WaitForCancellation :=
       overlayField (waitForCancellation ao) (WaitForCancellation p) |}.

(** The task list a context resolves to in a store, when it resolves. *)
Definition resolvedTaskList (ctx : Context) (h : store) : option string :=
  match resolve ctx h with
  | Done p _ => Some (TaskListName p)
  | Panicked _ _ => None
  end.

(** What [getValidatedActivityOptions] answers on the object [p] that
    the pointer [l] leads to. *)
Definition timeoutVerdict (l : loc) (p : executeActivityParameters)
  : option loc * option error :=
  if ScheduleToStartTimeoutSeconds p <=? 0 then
    (None, Some (errorsNew "missing or negative ScheduleToStartTimeoutSeconds"))
  else if ScheduleToCloseTimeoutSeconds p <=? 0 then
    (None, Some (errorsNew "missing or negative ScheduleToCloseTimeoutSeconds"))
  else if StartToCloseTimeoutSeconds p <=? 0 then
    (None, Some (errorsNew "missing or negative StartToCloseTimeoutSeconds"))
  else (Some l, None).

(** The binding of the options key is absent or a pointer to an object of
    the store: what the functions of this package leave in a context. *)
Definition optionsWellFormed (ctx : Context) (h : store) : Prop :=
  match ctxLookup ctx activityOptionsContextKey with
  | None => True
  | Some (VParams l) => is_Some (h !! l)
  | Some _ => False
  end.

(** ** The remaining private helpers: activity by name or by function,
       results and their decoding *)

(** What the host environment and the registration file of the package
    provide to these helpers: the check of a function's declared shape,
    the decoder, which writes through the pointer [to] into a store of
    target cells, the registry of activity functions by name, and the
    host's own registration. *)
Class Host := {
  validateFnFormat : rtype -> bool -> option error;
  decodeArg : option bytes -> nat -> M (list iface) (option error);
  getActivityFn : string -> option iface;
  hostRegisterActivity : iface -> option error
}.

(** [t.NumOut()] panics unless [t] is a function type. *)
Definition NumOut (t : rtype) : res nat :=
  if reflect.Kind_eqb (typeKind t) reflect.Func then Val (length (typeOuts t))
  else Pan (PanicString "reflect: NumOut of non-func type").

(** [reflect.ValueOf(f).String()] on a value of kind [String]: the string
    itself, which is the rendering of a string value. *)
Definition stringOf (f : iface) : string :=
  match f with
  | Some gv => repr gv
  | None => "<invalid Value>"
  end.

Definition invalidActivityError (f : iface) : error :=
  fmtErrorf
    "Invalid type 'f' parameter provided, it can be either activity function or name of the activity: %v"
    [ArgIface f].

Section MoreHelpers.

Context `{Reflection} `{Package} `{Host}.

Definition validateFunctionResults (f : iface) (result : iface)
  : res (bytes * option error) :=
  match TypeOf f with
  | None => Pan nilDeref
  | Some fType =>
      let checked :=
        match typeKind fType with
        | reflect.String => None
        | reflect.Func => validateFnFormat fType false
        | _ => Some (invalidActivityError f)
        end in
      match checked with
      | Some err => Val ([], Some err)
      | None =>
          match result with
          | None => Val ([], None)
          | Some _ =>
              match encodeArg result with
              | inr err => Val ([], Some err)
              | inl data => Val (data, None)
              end
          end
      end
  end.

Definition getValidatedActivityFunction (f : iface) (args : list iface)
  : res (option ActivityType * bytes * option error) :=
  match TypeOf f with
  | None => Pan nilDeref
  | Some fType =>
      let! named :=
        match typeKind fType with
        | reflect.String => Val (inl (stringOf f))
        | reflect.Func =>
            let! err := validateFunctionArgs f args false in
            match err with
            | Some e => Val (inr e)
            | None => Val (inl (getFunctionName f))
            end
        | _ => Val (inr (invalidActivityError f))
        end in
      match named with
      | inr err => Val (None, [], Some err)
      | inl fnName =>
          match encodeArgs args with
          | inr err => Val (None, [], Some err)
          | inl input => Val (Some {| Name := fnName |}, input, None)
          end
      end
  end.

(** [result] is a [[]byte] compared with nil: [None] is the nil slice.
    [fnType] is a [reflect.Type], nil for the type of a nil interface. *)
Definition deSerializeFnResultFromFnType (fnType : option rtype)
    (result : option bytes) (to : nat) : M (list iface) (option error) :=
  match fnType with
  | None => panic nilDeref
  | Some t =>
      if negb (reflect.Kind_eqb (typeKind t) reflect.Func) then
        ret (Some (fmtErrorf "expecting only function type but got type: %v" [ArgType t]))
      else
        let* numOut := lift (NumOut t) in
        if (numOut <=? 1)%nat then ret None
        else if (numOut =? 2)%nat then
          match result with
          | None => ret None
          | Some _ =>
              let* err := decodeArg result to in
              match err with
              | Some e => ret (Some e)
              | None => ret None
              end
          end
        else ret None
  end.

Definition deSerializeFunctionResult (f : iface) (result : option bytes) (to : nat)
  : M (list iface) (option error) :=
  match TypeOf f with
  | None => panic nilDeref
  | Some fType =>
      match typeKind fType with
      | reflect.Func => deSerializeFnResultFromFnType (Some fType) result to
      | reflect.String =>
          match getActivityFn (stringOf f) with
          | Some fnRegistered =>
              deSerializeFnResultFromFnType (TypeOf fnRegistered) result to
          | None => decodeArg result to
          end
      | _ => decodeArg result to
      end
  end.

(** [RegisterActivity] of activity.go: the host's answer, raised as a
    panic when it is an error. *)
Definition RegisterActivity (activityFunc : iface) : res unit :=
  match hostRegisterActivity activityFunc with
  | Some err => Pan (PanicError err)
  | None => Val tt
  end.

End MoreHelpers.

(** The trace a heartbeat adds to the world it started from. *)
Definition outcomeWorld {A} (o : outcome (list event) A) : list event :=
  match o with
  | Done _ w => w
  | Panicked _ w => w
  end.

(** What every option setter does to a chain: it ends with a context whose
    options binding is well formed; the other keys are bound as before;
    a context that had an object is returned as it is and no object is
    allocated, otherwise one node and one object are added; and every
    object but the one the result points to is as before. *)
Definition chainStep (ctx : Context) (h : store) (o : outcome store Context) : Prop :=
  exists (ctx1 : Context) (h1 : store),
    o = Done ctx1 h1 /\
    optionsWellFormed ctx1 h1 /\
    (forall key : string,
       key <> activityOptionsContextKey -> ctxLookup ctx1 key = ctxLookup ctx key) /\
    (getActivityOptions ctx <> Val None -> ctx1 = ctx /\ length h1 = length h) /\
    (getActivityOptions ctx = Val None ->
     ctx1 = WithValue ctx activityOptionsContextKey (VParams (length h)) /\
     length h1 = S (length h)) /\
    (forall l : loc, getActivityOptions ctx1 <> Val (Some l) -> h1 !! l = h !! l).

(** ** Sample collaborators and inputs *)

Module Fixtures.

Definition tInt : rtype := MkType "int" reflect.Int [] [].
Definition tString : rtype := MkType "string" reflect.String [] [].
Definition tChan : rtype := MkType "chan int" reflect.Chan [] [].
Definition tWorkflowContext : rtype := MkType "cadence.Context" reflect.Interface [] [].
Definition tValueCtx : rtype := MkType "*context.valueCtx" reflect.Ptr [] [].

(** Implementation of the two interfaces the code asks about, decided on
    the names of the types. *)
Definition implementsByName (t i : rtype) : bool :=
  if String.eqb (typeName i) "context.Context" then
    String.eqb (typeName t) "context.Context" || String.eqb (typeName t) "*context.valueCtx"
  else if String.eqb (typeName i) "error" then
    String.eqb (typeName t) "error" || String.eqb (typeName t) "*errors.errorString"
  else false.

(** Identical types, or a type that implements the interface assigned to. *)
Definition assignableByName (t u : rtype) : bool :=
  String.eqb (typeName t) (typeName u)
  || (reflect.Kind_eqb (typeKind u) reflect.Interface && implementsByName t u).

Definition sampleReflection : Reflection :=
  {| AssignableTo := assignableByName; Implements := implementsByName |}.

(** A codec that refuses channels, functions and unsafe pointers. *)
Definition sampleEncodeArg (v : iface) : bytes + error :=
  match v with
  | None => inl []
  | Some gv =>
      match typeKind (dynType gv) with
      | reflect.Chan | reflect.Func | reflect.UnsafePointer =>
          inr (externalError "unsupported type")
      | _ => inl (list_byte_of_string (repr gv))
      end
  end.

Fixpoint sampleEncodeArgs (vs : list iface) : bytes + error :=
  match vs with
  | [] => inl []
  | v :: vs' =>
      match sampleEncodeArg v, sampleEncodeArgs vs' with
      | inl b, inl bs => inl (b ++ bs)
      | inr e, _ => inr e
      | _, inr e => inr e
      end
  end.

Definition samplePackage : Package :=
  {| isWorkflowContext := fun t => String.eqb (typeName t) "cadence.Context";
     getFunctionName := fun f => match f with Some v => repr v | None => "" end;
     encodeArg := sampleEncodeArg;
     encodeArgs := sampleEncodeArgs |}.

(** [func sampleActivity(ctx context.Context, arg1 int, arg2 string) (string, error)] *)
Definition sampleActivity : iface :=
  Some {| dynType := MkType "func(context.Context, int, string) (string, error)"
                       reflect.Func [contextElem; tInt; tString] [tString; errorElem];
          repr := "sampleActivity" |}.

(** [func plainActivity(arg1 int) error] *)
Definition plainActivity : iface :=
  Some {| dynType := MkType "func(int) error" reflect.Func [tInt] [errorElem];
          repr := "plainActivity" |}.

(** [func sampleWorkflow(ctx cadence.Context, arg1 int) error] *)
Definition sampleWorkflow : iface :=
  Some {| dynType := MkType "func(cadence.Context, int) error"
                       reflect.Func [tWorkflowContext; tInt] [errorElem];
          repr := "sampleWorkflow" |}.

Definition int42 : iface := Some {| dynType := tInt; repr := "42" |}.
Definition strQ : iface := Some {| dynType := tString; repr := "q" |}.
Definition aChannel : iface := Some {| dynType := tChan; repr := "ch" |}.

Definition sampleLogger : Logger := {| loggerName := "activity" |}.

(** An invoker whose transport is down. *)
Definition failingInvoker : ServiceInvoker :=
  {| Heartbeat := fun _ => Some (externalError "transport unavailable") |}.

Definition sampleTask : PollForActivityTaskResponse :=
  {| respTaskToken := list_byte_of_string "token";
     respActivityId := Some "7";
     respActivityTypeName := Some (Some "sampleActivity");
     respWorkflowExecution := Some (Some "wf", Some "run") |}.

Definition sampleEnv : activityEnvironment :=
  {| taskToken := list_byte_of_string "token";
     workflowExecution := {| ID := "wf"; RunID := "run" |};
     activityID := "7";
     activityType := {| Name := "sampleActivity" |};
     serviceInvoker := failingInvoker;
     logger := sampleLogger |}.

(** The context [WithActivityTask] builds for [sampleTask]. *)
Definition activityCtx : Context :=
  WithValue Background activityEnvContextKey (VEnv sampleEnv).


(** A machine whose conversion instruction answers the smallest [int32]
    on a value that does not fit. *)
Definition amd64 : Machine := {| int32OfUnrepresentable := fun _ => - 2 ^ 31 |}.

(** A host whose registry knows [sampleActivity], whose format check
    wants one or two results, and whose decoder stores a string. *)
Definition sampleDecodeArg (result : option bytes) (to : nat)
  : M (list iface) (option error) :=
  fun cells =>
    match result with
    | Some b =>
        Done None (<[to := Some {| dynType := tString; repr := string_of_list_byte b |}]> cells)
    | None => Done (Some (externalError "EOF")) cells
    end.

Definition sampleHost : Host :=
  {| validateFnFormat := fun t _ =>
       match typeOuts t with
       | [_] | [_; _] => None
       | _ => Some (externalError "expected function to return result or error")
       end;
     decodeArg := sampleDecodeArg;
     getActivityFn := fun name =>
       if String.eqb name "sampleActivity" then Some sampleActivity else None;
     hostRegisterActivity := fun _ => None |}.

(** The name of [sampleActivity], as a string value. *)
Definition sampleName : iface := Some {| dynType := tString; repr := "sampleActivity" |}.

End Fixtures.

(** * Properties *)

(** ** The signature validator *)

Section ValidatorProperties.

Context `{Reflection} `{Package}.

Lemma Kind_eqb_eq (a b : reflect.Kind) : reflect.Kind_eqb a b = true <-> a = b.
Proof. split; [destruct a, b; simpl; congruence | intros ->; destruct b; reflexivity]. Qed.

Lemma NumIn_func (t : rtype) :
  typeKind t = reflect.Func -> NumIn t = Val (length (typeIns t)).
Proof. intros Hk. unfold NumIn. rewrite Hk. reflexivity. Qed.

Lemma In_func (t : rtype) (i : nat) (a : rtype) :
  typeKind t = reflect.Func -> typeIns t !! i = Some a -> In t i = Val a.
Proof. intros Hk Hi. unfold In. rewrite Hk, Hi. reflexivity. Qed.

(** The skipped prefix is the leading context parameter, when there is one. *)
Lemma skipContext_spec (fType : rtype) (isWorkflow : bool) :
  typeKind fType = reflect.Func ->
  skipContext fType isWorkflow
  = Val (if leadingContext fType isWorkflow then 1%nat else 0%nat).
Proof.
  intros Hk. unfold skipContext, leadingContext, expectsContext.
  rewrite (NumIn_func _ Hk).
  destruct (typeIns fType) as [|t rest] eqn:Hins; simpl; [reflexivity|].
  assert (Hin : In fType 0 = Val t) by (apply In_func; [assumption | rewrite Hins; reflexivity]).
  destruct isWorkflow; simpl; rewrite Hin; simpl.
  - destruct (isWorkflowContext t); reflexivity.
  - destruct (isActivityContext t); reflexivity.
Qed.

Lemma nonContextParams_drop (fType : rtype) (isWorkflow : bool) :
  nonContextParams fType isWorkflow
  = drop (if leadingContext fType isWorkflow then 1 else 0) (typeIns fType).
Proof. unfold nonContextParams. destruct (leadingContext fType isWorkflow); reflexivity. Qed.

Lemma skip_le_NumIn (fType : rtype) (isWorkflow : bool) :
  ((if leadingContext fType isWorkflow then 1 else 0) <= length (typeIns fType))%nat.
Proof.
  unfold leadingContext. destruct (typeIns fType); simpl; [lia|].
  destruct (expectsContext isWorkflow r); lia.
Qed.

(** The loop walks the declared parameters from [fnArgIndex] and the
    arguments from [i] in step. *)
Lemma validateArgTypes_checkArgs (fType : rtype) (args : list iface) :
  typeKind fType = reflect.Func ->
  forall (remaining fnArgIndex i : nat),
    length (drop fnArgIndex (typeIns fType)) = remaining ->
    length (drop i args) = remaining ->
    validateArgTypes fType args remaining fnArgIndex i
    = checkArgs (drop fnArgIndex (typeIns fType)) (drop i args) fnArgIndex.
Proof.
  intros Hk. induction remaining as [|n IH]; intros k i Hp Ha.
  - apply nil_length_inv in Hp. rewrite Hp. reflexivity.
  - destruct (drop k (typeIns fType)) as [|t ps] eqn:Hps; [discriminate|].
    destruct (drop i args) as [|a rest] eqn:Has; [discriminate|].
    assert (Hk' : typeIns fType !! k = Some t).
    { rewrite <- (Nat.add_0_r k), <- lookup_drop, Hps. reflexivity. }
    assert (Hi' : args !! i = Some a).
    { rewrite <- (Nat.add_0_r i), <- lookup_drop, Has. reflexivity. }
    assert (Hps' : drop (S k) (typeIns fType) = ps).
    { rewrite (drop_S _ _ _ Hk') in Hps. congruence. }
    assert (Has' : drop (S i) args = rest).
    { rewrite (drop_S _ _ _ Hi') in Has. congruence. }
    simpl. rewrite (In_func _ _ _ Hk Hk'). unfold index. rewrite Hi'. simpl.
    destruct (TypeOf a) as [argType|]; [|reflexivity].
    destruct (AssignableTo argType t); simpl; [|reflexivity].
    rewrite IH.
    + rewrite Hps', Has'. reflexivity.
    + rewrite Hps'. simpl in Hp. lia.
    + rewrite Has'. simpl in Ha. lia.
Qed.

(** What [validateFunctionArgs] computes on a function value. *)
Lemma validateFunctionArgs_func (gv : GoValue) (args : list iface) (isWorkflow : bool) :
  typeKind (dynType gv) = reflect.Func ->
  validateFunctionArgs (Some gv) args isWorkflow
  = if (length (nonContextParams (dynType gv) isWorkflow) =? length args)%nat
    then checkArgs (nonContextParams (dynType gv) isWorkflow) args
           (if leadingContext (dynType gv) isWorkflow then 1 else 0)
    else Val (Some (arityError (length (nonContextParams (dynType gv) isWorkflow))
                      (Some gv) args)).
Proof.
  intros Hk. unfold validateFunctionArgs. simpl.
  rewrite Hk. simpl. rewrite (skipContext_spec _ _ Hk). simpl.
  rewrite (NumIn_func _ Hk). simpl.
  rewrite nonContextParams_drop, length_drop.
  set (k := if leadingContext (dynType gv) isWorkflow then 1%nat else 0%nat).
  destruct (length (typeIns (dynType gv)) - k =? length args)%nat eqn:Hlen; simpl.
  - apply Nat.eqb_eq in Hlen.
    rewrite (validateArgTypes_checkArgs _ _ Hk).
    + rewrite drop_0. reflexivity.
    + apply length_drop.
    + rewrite drop_0. symmetry. exact Hlen.
  - reflexivity.
Qed.

Lemma checkArgs_ok_iff (params : list rtype) :
  forall (args : list iface) (position : nat),
    length params = length args ->
    (checkArgs params args position = Val None <-> Forall2 assignableArg args params).
Proof.
  induction params as [|t ps IH]; intros [|a rest] k Hlen; try discriminate.
  - simpl. split; [constructor | reflexivity].
  - simpl in Hlen. injection Hlen as Hlen. simpl. split.
    + destruct (TypeOf a) as [argType|] eqn:Ha; [|discriminate].
      destruct (AssignableTo argType t) eqn:Hassign; simpl; [|discriminate].
      intros Hrest. constructor.
      * exists argType. split; assumption.
      * apply (IH rest (S k) Hlen). exact Hrest.
    + intros Hall. inversion Hall as [|? ? ? ? (argType & Ha & Hassign) Hrest]; subst.
      rewrite Ha, Hassign. simpl. apply (IH rest (S k) Hlen). exact Hrest.
Qed.

Lemma checkArgs_first_mismatch (params : list rtype) :
  forall (args : list iface) (position i : nat) (gv : GoValue) (t : rtype),
    Forall2 assignableArg (take i args) (take i params) ->
    args !! i = Some (Some gv) ->
    params !! i = Some t ->
    AssignableTo (dynType gv) t = false ->
    checkArgs params args position
    = Val (Some (assignError (position + i) (dynType gv) t)).
Proof.
  induction params as [|t0 ps IH]; intros [|a rest] k i gv t Hpre Ha Hp Hno;
    try discriminate.
  destruct i as [|i].
  - simpl in Ha, Hp. injection Ha as ->. injection Hp as ->.
    simpl. rewrite Hno. simpl. rewrite Nat.add_0_r. reflexivity.
  - simpl in Ha, Hp, Hpre.
    inversion Hpre as [|? ? ? ? (argType & Hty & Hassign) Hrest]; subst.
    simpl. rewrite Hty, Hassign. simpl.
    rewrite (IH rest (S k) i gv t Hrest Ha Hp Hno).
    replace (S k + i)%nat with (k + S i)%nat by lia. reflexivity.
Qed.

(** An argument that is the nil interface has no runtime type: reaching
    it, the loop calls [AssignableTo] through a nil [reflect.Type]. *)
Lemma checkArgs_untyped_nil (params : list rtype) :
  forall (args : list iface) (position i : nat) (t : rtype),
    Forall2 assignableArg (take i args) (take i params) ->
    args !! i = Some None ->
    params !! i = Some t ->
    checkArgs params args position = Pan nilDeref.
Proof.
  induction params as [|t0 ps IH]; intros [|a rest] k i t Hpre Ha Hp; try discriminate.
  destruct i as [|i].
  - simpl in Ha. injection Ha as ->. reflexivity.
  - simpl in Ha, Hp, Hpre.
    inversion Hpre as [|? ? ? ? (argType & Hty & Hassign) Hrest]; subst.
    simpl. rewrite Hty, Hassign. simpl. exact (IH rest (S k) i t Hrest Ha Hp).
Qed.

(** C2. [validateFunctionArgs] succeeds exactly when [f] is a function whose
    declared non-context parameters are as many as the arguments and every
    argument's runtime type is assignable to the parameter at its position;
    a call that was accepted is refused once an argument is added or
    removed; and the first argument whose type is not assignable is
    reported with its index and the two types. *)
Theorem validateFunctionArgs_contract (f : iface) (args : list iface) (isWorkflow : bool) :
  (validateFunctionArgs f args isWorkflow = Val None <->
   exists fType,
     TypeOf f = Some fType /\ typeKind fType = reflect.Func /\
     length (nonContextParams fType isWorkflow) = length args /\
     Forall2 assignableArg args (nonContextParams fType isWorkflow))
  /\ (validateFunctionArgs f args isWorkflow = Val None ->
      forall args' : list iface,
        length args' = S (length args) \/ S (length args') = length args ->
        validateFunctionArgs f args' isWorkflow
        = Val (Some (arityError (length args) f args')))
  /\ (forall (fType : rtype) (i : nat) (gv : GoValue) (t : rtype),
        TypeOf f = Some fType -> typeKind fType = reflect.Func ->
        length (nonContextParams fType isWorkflow) = length args ->
        Forall2 assignableArg (take i args) (take i (nonContextParams fType isWorkflow)) ->
        args !! i = Some (Some gv) ->
        nonContextParams fType isWorkflow !! i = Some t ->
        AssignableTo (dynType gv) t = false ->
        validateFunctionArgs f args isWorkflow
        = Val (Some (assignError
                 ((if leadingContext fType isWorkflow then 1 else 0) + i)
                 (dynType gv) t))).
Proof.
  assert (Hiff : validateFunctionArgs f args isWorkflow = Val None <->
    exists fType,
      TypeOf f = Some fType /\ typeKind fType = reflect.Func /\
      length (nonContextParams fType isWorkflow) = length args /\
      Forall2 assignableArg args (nonContextParams fType isWorkflow)).
  { destruct f as [gv|].
    - destruct (reflect.Kind_eqb (typeKind (dynType gv)) reflect.Func) eqn:Hk.
      + apply Kind_eqb_eq in Hk. rewrite (validateFunctionArgs_func _ _ _ Hk).
        destruct (length (nonContextParams (dynType gv) isWorkflow) =? length args)%nat
          eqn:Hlen.
        * apply Nat.eqb_eq in Hlen. rewrite (checkArgs_ok_iff _ _ _ Hlen). split.
          -- intros Hall. exists (dynType gv). repeat split; assumption.
          -- intros (fType & Hty & _ & _ & Hall). simpl in Hty.
             injection Hty as <-. exact Hall.
        * apply Nat.eqb_neq in Hlen. split; [discriminate|].
          intros (fType & Hty & _ & Hlen' & _). simpl in Hty.
          injection Hty as <-. contradiction.
      + split.
        * unfold validateFunctionArgs. simpl. rewrite Hk. discriminate.
        * intros (fType & Hty & Hfunc & _). simpl in Hty. injection Hty as <-.
          apply Kind_eqb_eq in Hfunc. congruence.
    - split; [discriminate|]. intros (fType & Hty & _). discriminate. }
  split; [exact Hiff|]. split.
  - intros Hok args' Hlen'. apply Hiff in Hok.
    destruct Hok as (fType & Hty & Hk & Hlen & _).
    destruct f as [gv|]; [|discriminate]. simpl in Hty. injection Hty as <-.
    rewrite (validateFunctionArgs_func _ _ _ Hk). rewrite Hlen.
    destruct (length args =? length args')%nat eqn:Hcmp; [|reflexivity].
    apply Nat.eqb_eq in Hcmp. lia.
  - intros fType i gv t Hty Hk Hlen Hpre Ha Hp Hno.
    destruct f as [fv|]; [|discriminate]. simpl in Hty. injection Hty as <-.
    rewrite (validateFunctionArgs_func _ _ _ Hk).
    apply Nat.eqb_eq in Hlen. rewrite Hlen.
    apply checkArgs_first_mismatch; assumption.
Qed.

(** C3. For a function whose first declared parameter is [t], that
    parameter is left out of the arity count exactly when [t] is the
    context type of the expected flavor (the workflow context when
    [isWorkflow], a type implementing [context.Context] otherwise): the
    call is then measured, and its arguments are matched, against the
    remaining parameters; otherwise [t] counts, and is matched, as an
    ordinary parameter. *)
Theorem leading_context_excluded_from_arity
    (gv : GoValue) (t : rtype) (rest : list rtype) (args : list iface) (isWorkflow : bool) :
  typeKind (dynType gv) = reflect.Func ->
  typeIns (dynType gv) = t :: rest ->
  let isContext := if isWorkflow then isWorkflowContext t else Implements t contextElem in
  let counted := if isContext then rest else t :: rest in
  (length args <> length counted ->
   validateFunctionArgs (Some gv) args isWorkflow
   = Val (Some (arityError (length counted) (Some gv) args)))
  /\ (length args = length counted ->
      validateFunctionArgs (Some gv) args isWorkflow
      = checkArgs counted args (if isContext then 1 else 0)).
Proof.
  intros Hk Hins isContext counted.
  assert (Hlead : leadingContext (dynType gv) isWorkflow = isContext).
  { unfold leadingContext. rewrite Hins. reflexivity. }
  assert (Hparams : nonContextParams (dynType gv) isWorkflow = counted).
  { unfold nonContextParams, counted. rewrite Hlead, Hins.
    destruct isContext; reflexivity. }
  rewrite (validateFunctionArgs_func _ _ _ Hk), Hparams, Hlead. split; intros Hlen.
  - destruct (length counted =? length args)%nat eqn:Hcmp; [|reflexivity].
    apply Nat.eqb_eq in Hcmp. congruence.
  - rewrite <- Hlen, Nat.eqb_refl. reflexivity.
Qed.

End ValidatorProperties.

Lemma validateFunctionArgs_contract_witness :
  let validate := @validateFunctionArgs Fixtures.sampleReflection Fixtures.samplePackage in
  validate Fixtures.sampleActivity [Fixtures.int42; Fixtures.strQ] false = Val None
  /\ (exists e, validate Fixtures.sampleActivity [Fixtures.int42] false = Val (Some e))
  /\ validate Fixtures.sampleActivity [Fixtures.int42; Fixtures.int42] false
     = Val (Some (fmtErrorf
         "cannot assign function argument: %d from type: %s to type: %s"
         [ArgInt 3; ArgType Fixtures.tInt; ArgType Fixtures.tString])).
Proof.
  intros validate.
  destruct (@validateFunctionArgs_contract Fixtures.sampleReflection Fixtures.samplePackage
              Fixtures.sampleActivity [Fixtures.int42; Fixtures.strQ] false)
    as (Hiff & Hflip & _).
  assert (Hok : validate Fixtures.sampleActivity [Fixtures.int42; Fixtures.strQ] false
                = Val None).
  { apply Hiff. eexists. split; [reflexivity|]. split; [reflexivity|].
    split; [reflexivity|].
    repeat constructor; eexists; split; reflexivity. }
  split; [exact Hok|]. split.
  - eexists. apply (Hflip Hok [Fixtures.int42]). right. reflexivity.
  - destruct (@validateFunctionArgs_contract Fixtures.sampleReflection Fixtures.samplePackage
                Fixtures.sampleActivity [Fixtures.int42; Fixtures.int42] false)
      as (_ & _ & Hfirst).
    assert (Hprefix : Forall2 (@assignableArg Fixtures.sampleReflection)
              (take 1 [Fixtures.int42; Fixtures.int42])
              (take 1 [Fixtures.tInt; Fixtures.tString])).
    { repeat constructor. eexists. split; reflexivity. }
    exact (Hfirst (MkType "func(context.Context, int, string) (string, error)"
                     reflect.Func [contextElem; Fixtures.tInt; Fixtures.tString]
                     [Fixtures.tString; errorElem])
                  1%nat {| dynType := Fixtures.tInt; repr := "42" |} Fixtures.tString
                  eq_refl eq_refl eq_refl Hprefix eq_refl eq_refl eq_refl).
Defined.

Lemma leading_context_excluded_from_arity_witness :
  let validate := @validateFunctionArgs Fixtures.sampleReflection Fixtures.samplePackage in
  (* an activity call skips the leading context.Context *)
  validate Fixtures.sampleActivity [Fixtures.int42; Fixtures.strQ] false = Val None
  (* a workflow call counts it as an ordinary parameter *)
  /\ (exists name, validate Fixtures.sampleActivity [Fixtures.int42; Fixtures.strQ] true
       = Val (Some (fmtErrorf "expected %d args for function: %v but found %v"
                      [ArgInt 3; ArgString name; ArgInt 2])))
  (* and skips the leading cadence.Context of a workflow function *)
  /\ validate Fixtures.sampleWorkflow [Fixtures.int42] true = Val None.
Proof.
  intros validate. split; [|split].
  - apply (proj2 (@leading_context_excluded_from_arity
                    Fixtures.sampleReflection Fixtures.samplePackage
                    {| dynType := MkType "func(context.Context, int, string) (string, error)"
                         reflect.Func [contextElem; Fixtures.tInt; Fixtures.tString]
                         [Fixtures.tString; errorElem];
                       repr := "sampleActivity" |}
                    contextElem [Fixtures.tInt; Fixtures.tString]
                    [Fixtures.int42; Fixtures.strQ] false eq_refl eq_refl)).
    reflexivity.
  - eexists.
    apply (proj1 (@leading_context_excluded_from_arity
                    Fixtures.sampleReflection Fixtures.samplePackage
                    {| dynType := MkType "func(context.Context, int, string) (string, error)"
                         reflect.Func [contextElem; Fixtures.tInt; Fixtures.tString]
                         [Fixtures.tString; errorElem];
                       repr := "sampleActivity" |}
                    contextElem [Fixtures.tInt; Fixtures.tString]
                    [Fixtures.int42; Fixtures.strQ] true eq_refl eq_refl)).
    simpl. lia.
  - apply (proj2 (@leading_context_excluded_from_arity
                    Fixtures.sampleReflection Fixtures.samplePackage
                    {| dynType := MkType "func(cadence.Context, int) error"
                         reflect.Func [Fixtures.tWorkflowContext; Fixtures.tInt]
                         [errorElem];
                       repr := "sampleWorkflow" |}
                    Fixtures.tWorkflowContext [Fixtures.tInt]
                    [Fixtures.int42] true eq_refl eq_refl)).
    reflexivity.
Defined.

(** A call that passes an untyped nil panics in the validator. *)
Example validateFunctionArgs_nil_argument :
  @validateFunctionArgs Fixtures.sampleReflection Fixtures.samplePackage
    Fixtures.plainActivity [None] false
  = Pan nilDeref.
Proof. reflexivity. Qed.

(** ** The option chain *)

Section OptionChain.

Lemma ctxLookup_WithValue (ctx : Context) (key : string) (v : ctxValue) :
  ctxLookup (WithValue ctx key v) key = Some v.
Proof. simpl. rewrite String.eqb_refl. reflexivity. Qed.

Lemma getActivityOptions_bound (ctx : Context) (l : loc) :
  getActivityOptions (WithValue ctx activityOptionsContextKey (VParams l)) = Val (Some l).
Proof. reflexivity. Qed.

Lemma getActivityOptions_absent (ctx : Context) :
  ctxLookup ctx activityOptionsContextKey = None -> getActivityOptions ctx = Val None.
Proof. intros Hno. unfold getActivityOptions. rewrite Hno. reflexivity. Qed.

Lemma getActivityOptions_Some (ctx : Context) (l : loc) :
  getActivityOptions ctx = Val (Some l) <->
  ctxLookup ctx activityOptionsContextKey = Some (VParams l).
Proof.
  unfold getActivityOptions.
  destruct (ctxLookup ctx activityOptionsContextKey) as [[p|env|v]|];
    split; intros Heq; try discriminate; congruence.
Qed.

Lemma assign_bound (h : store) (l : loc) (p : executeActivityParameters)
    (upd : executeActivityParameters -> executeActivityParameters) :
  h !! l = Some p -> assign (Some l) upd h = Done tt (<[l := upd p]> h).
Proof. intros Hl. unfold assign. rewrite Hl. reflexivity. Qed.

Lemma assignIfSet_bound {A} (h : store) (l : loc) (p : executeActivityParameters)
    (field : option A) (upd : A -> executeActivityParameters -> executeActivityParameters) :
  h !! l = Some p ->
  assignIfSet field upd (Some l) h
  = Done tt (<[l := match field with Some x => upd x p | None => p end]> h).
Proof.
  intros Hl. destruct field as [x|]; unfold assignIfSet.
  - apply assign_bound. exact Hl.
  - unfold ret. rewrite list_insert_id by exact Hl. reflexivity.
Qed.

Lemma lookup_after_insert (h : store) (l : loc) (p q : executeActivityParameters) :
  h !! l = Some p -> <[l := q]> h !! l = Some q.
Proof.
  intros Hl. apply list_lookup_insert_eq. apply lookup_lt_Some in Hl. exact Hl.
Qed.

(** On a context that already holds a pointer, the object it points to is
    overlaid in place and the context itself is returned. *)
Lemma WithActivityOptions_bound (ctx : Context) (ao : activityOptions) (h : store)
    (l : loc) (p : executeActivityParameters) :
  getActivityOptions ctx = Val (Some l) -> h !! l = Some p ->
  WithActivityOptions ctx ao h = Done ctx (<[l := overlay ao p]> h).
Proof.
  intros Hctx Hl. unfold WithActivityOptions, setActivityParametersIfNotExist, bind, lift, ret.
  rewrite Hctx. simpl. rewrite Hctx.
  rewrite (assignIfSet_bound _ _ _ _ _ Hl).
  repeat (erewrite assignIfSet_bound by (eapply lookup_after_insert; eassumption);
          rewrite list_insert_insert_eq).
  f_equal. f_equal.
  destruct ao as [aid tl s2c s2s stc hb wfc], p.
  destruct aid, tl, s2c, s2s, stc, hb, wfc; reflexivity.
Qed.

Lemma store_snoc_lookup (h : store) (p : executeActivityParameters) :
  (h ++ [p]) !! length h = Some p.
Proof. apply list_lookup_middle. reflexivity. Qed.

Lemma store_snoc_insert (h : store) (p q : executeActivityParameters) :
  <[length h := q]> (h ++ [p]) = h ++ [q].
Proof.
  rewrite insert_app_r_alt by lia. rewrite Nat.sub_diag. reflexivity.
Qed.

(** On a context without options, a fresh object is allocated, bound in a
    new node and overlaid. *)
Lemma WithActivityOptions_absent (ctx : Context) (ao : activityOptions) (h : store) :
  getActivityOptions ctx = Val None ->
  WithActivityOptions ctx ao h
  = Done (WithValue ctx activityOptionsContextKey (VParams (length h)))
         (h ++ [overlay ao zeroParameters]).
Proof.
  intros Hctx.
  pose proof (WithActivityOptions_bound
                (WithValue ctx activityOptionsContextKey (VParams (length h)))
                ao (h ++ [zeroParameters]) (length h) zeroParameters
                (getActivityOptions_bound _ _) (store_snoc_lookup _ _)) as Hb.
  rewrite store_snoc_insert in Hb. rewrite <- Hb.
  unfold WithActivityOptions, setActivityParametersIfNotExist, bind, lift, ret, new.
  rewrite Hctx. simpl. reflexivity.
Qed.

Lemma WithTaskList_bound (ctx : Context) (name : string) (h : store)
    (l : loc) (p : executeActivityParameters) :
  getActivityOptions ctx = Val (Some l) -> h !! l = Some p ->
  WithTaskList ctx name h = Done ctx (<[l := setTaskListName name p]> h).
Proof.
  intros Hctx Hl. unfold WithTaskList, setActivityParametersIfNotExist, bind, lift, ret.
  rewrite Hctx. simpl. rewrite Hctx. rewrite (assign_bound _ _ _ _ Hl). reflexivity.
Qed.

Lemma WithTaskList_absent (ctx : Context) (name : string) (h : store) :
  getActivityOptions ctx = Val None ->
  WithTaskList ctx name h
  = Done (WithValue ctx activityOptionsContextKey (VParams (length h)))
         (h ++ [setTaskListName name zeroParameters]).
Proof.
  intros Hctx.
  pose proof (WithTaskList_bound
                (WithValue ctx activityOptionsContextKey (VParams (length h)))
                name (h ++ [zeroParameters]) (length h) zeroParameters
                (getActivityOptions_bound _ _) (store_snoc_lookup _ _)) as Hb.
  rewrite store_snoc_insert in Hb. rewrite <- Hb.
  unfold WithTaskList, setActivityParametersIfNotExist, bind, lift, ret, new.
  rewrite Hctx. simpl. reflexivity.
Qed.

Lemma resolve_bound (ctx : Context) (h : store) (l : loc) (p : executeActivityParameters) :
  getActivityOptions ctx = Val (Some l) -> h !! l = Some p -> resolve ctx h = Done p h.
Proof.
  intros Hctx Hl. unfold resolve, bind, lift, deref. rewrite Hctx, Hl. reflexivity.
Qed.

Lemma resolvedTaskList_bound (ctx : Context) (h : store) (l : loc)
    (p : executeActivityParameters) :
  getActivityOptions ctx = Val (Some l) -> h !! l = Some p ->
  resolvedTaskList ctx h = Some (TaskListName p).
Proof.
  intros Hctx Hl. unfold resolvedTaskList. rewrite (resolve_bound _ _ _ _ Hctx Hl).
  reflexivity.
Qed.

(** C1, as amended. From a context [C0] without options,
    [WithTaskList C0 a] binds a fresh parameters object with task list [a]
    in a new node [C1]; [WithTaskList C1 b] returns [C1] itself and
    overwrites that same object, so that afterwards [C1], which is also
    the result [C2], resolves to [b]. [C0] still has no options and the
    objects allocated before are untouched. *)
Theorem WithTaskList_reuses_bound_parameters
    (C0 : Context) (h0 : store) (a b : string) :
  ctxLookup C0 activityOptionsContextKey = None ->
  exists (C1 : Context) (h1 h2 : store),
    WithTaskList C0 a h0 = Done C1 h1 /\
    resolvedTaskList C1 h1 = Some a /\
    WithTaskList C1 b h1 = Done C1 h2 /\
    resolvedTaskList C1 h2 = Some b /\
    getActivityOptions C0 = Val None /\
    take (length h0) h2 = h0.
Proof.
  intros Hno. apply getActivityOptions_absent in Hno.
  exists (WithValue C0 activityOptionsContextKey (VParams (length h0))),
         (h0 ++ [setTaskListName a zeroParameters]),
         (h0 ++ [setTaskListName b zeroParameters]).
  split; [apply WithTaskList_absent; exact Hno|].
  split.
  { rewrite (resolvedTaskList_bound _ _ _ _ (getActivityOptions_bound _ _)
               (store_snoc_lookup _ _)). reflexivity. }
  split.
  { rewrite (WithTaskList_bound _ _ _ _ _ (getActivityOptions_bound _ _)
               (store_snoc_lookup _ _)).
    rewrite store_snoc_insert. reflexivity. }
  split.
  { rewrite (resolvedTaskList_bound _ _ _ _ (getActivityOptions_bound _ _)
               (store_snoc_lookup _ _)). reflexivity. }
  split; [exact Hno|].
  rewrite take_app_length. reflexivity.
Qed.

Lemma WithTaskList_reuses_bound_parameters_witness :
  exists (C1 : Context) (h1 h2 : store),
    WithTaskList Background "A" [] = Done C1 h1 /\
    resolvedTaskList C1 h1 = Some "A" /\
    WithTaskList C1 "B" h1 = Done C1 h2 /\
    resolvedTaskList C1 h2 = Some "B" /\
    getActivityOptions Background = Val None /\
    take 0 h2 = [].
Proof.
  exact (WithTaskList_reuses_bound_parameters Background [] "A" "B" eq_refl).
Defined.

(** C1, as stated, fails from the empty context: after the two calls the
    first result does not resolve to ["A"] any more. *)
Lemma WithTaskList_ancestor_overwritten :
  ~ (forall (C1 C2 : Context) (h1 h2 : store),
       WithTaskList Background "A" [] = Done C1 h1 ->
       WithTaskList C1 "B" h1 = Done C2 h2 ->
       resolvedTaskList C2 h2 = Some "B" /\ resolvedTaskList C1 h2 = Some "A").
Proof.
  intros Hall.
  destruct (Hall (WithValue Background activityOptionsContextKey (VParams 0%nat))
                   (WithValue Background activityOptionsContextKey (VParams 0%nat))
                   [setTaskListName "A" zeroParameters]
                   [setTaskListName "B" zeroParameters]
                   eq_refl eq_refl) as [_ Hancestor].
  vm_compute in Hancestor. discriminate Hancestor.
Qed.

Lemma getValidatedActivityOptions_bound (ctx : Context) (h : store) (l : loc)
    (p : executeActivityParameters) :
  getActivityOptions ctx = Val (Some l) -> h !! l = Some p ->
  getValidatedActivityOptions ctx h = Done (timeoutVerdict l p) h.
Proof.
  intros Hopt Hl. unfold getValidatedActivityOptions, bind, lift, deref, ret, timeoutVerdict.
  rewrite Hopt, Hl.
  destruct (ScheduleToStartTimeoutSeconds p <=? 0); [reflexivity|].
  destruct (ScheduleToCloseTimeoutSeconds p <=? 0); [reflexivity|].
  destruct (StartToCloseTimeoutSeconds p <=? 0); reflexivity.
Qed.

Lemma getValidatedActivityOptions_absent (ctx : Context) (h : store) :
  getActivityOptions ctx = Val None ->
  getValidatedActivityOptions ctx h = Done (None, Some errActivityParamsBadRequest) h.
Proof.
  intros Hopt. unfold getValidatedActivityOptions, bind, lift, ret. rewrite Hopt.
  reflexivity.
Qed.

Lemma resolve_absent (ctx : Context) (h : store) (p : executeActivityParameters) :
  getActivityOptions ctx = Val None -> resolve ctx h <> Done p h.
Proof.
  intros Hopt. unfold resolve, bind, lift, deref. rewrite Hopt. discriminate.
Qed.

(** C4. [getValidatedActivityOptions] reads the binding of the options key
    in the context and the object it points to in the store, and leaves
    the store as it is. When the key is not bound the answer is the error
    [errActivityParamsBadRequest]. When it is bound to a pointer to an
    object, the error names the first timeout that is not strictly
    positive in the order schedule-to-start, schedule-to-close,
    start-to-close, a later one going unreported while an earlier one is
    at fault; and when the three are strictly positive the answer is that
    very pointer and no error. So, on a context whose binding is well
    formed, an error is returned exactly when no object is bound or one of
    the three timeouts is not strictly positive. *)
Theorem getValidatedActivityOptions_contract (ctx : Context) (h : store) :
  (ctxLookup ctx activityOptionsContextKey = None ->
     getValidatedActivityOptions ctx h
     = Done (None, Some errActivityParamsBadRequest) h) /\
  (forall (l : loc) (p : executeActivityParameters),
     ctxLookup ctx activityOptionsContextKey = Some (VParams l) ->
     h !! l = Some p ->
     (ScheduleToStartTimeoutSeconds p <= 0 ->
        getValidatedActivityOptions ctx h
        = Done (None,
                Some (errorsNew "missing or negative ScheduleToStartTimeoutSeconds")) h) /\
     (0 < ScheduleToStartTimeoutSeconds p -> ScheduleToCloseTimeoutSeconds p <= 0 ->
        getValidatedActivityOptions ctx h
        = Done (None,
                Some (errorsNew "missing or negative ScheduleToCloseTimeoutSeconds")) h) /\
     (0 < ScheduleToStartTimeoutSeconds p -> 0 < ScheduleToCloseTimeoutSeconds p ->
      StartToCloseTimeoutSeconds p <= 0 ->
        getValidatedActivityOptions ctx h
        = Done (None,
                Some (errorsNew "missing or negative StartToCloseTimeoutSeconds")) h) /\
     (0 < ScheduleToStartTimeoutSeconds p -> 0 < ScheduleToCloseTimeoutSeconds p ->
      0 < StartToCloseTimeoutSeconds p ->
        getValidatedActivityOptions ctx h = Done (Some l, None) h)) /\
  (optionsWellFormed ctx h ->
   exists (ptr : option loc) (err : option error),
     getValidatedActivityOptions ctx h = Done (ptr, err) h /\
     (err <> None <->
        ctxLookup ctx activityOptionsContextKey = None \/
        exists (l : loc) (p : executeActivityParameters),
          ctxLookup ctx activityOptionsContextKey = Some (VParams l) /\
          h !! l = Some p /\
          (ScheduleToStartTimeoutSeconds p <= 0 \/
           ScheduleToCloseTimeoutSeconds p <= 0 \/
           StartToCloseTimeoutSeconds p <= 0)) /\
     (err <> None -> ptr = None) /\
     (err = None ->
        exists (l : loc) (p : executeActivityParameters),
          ptr = Some l /\
          ctxLookup ctx activityOptionsContextKey = Some (VParams l) /\
          h !! l = Some p /\
          0 < ScheduleToStartTimeoutSeconds p /\
          0 < ScheduleToCloseTimeoutSeconds p /\
          0 < StartToCloseTimeoutSeconds p)).
Proof.
  assert (Hbound : forall l p,
            ctxLookup ctx activityOptionsContextKey = Some (VParams l) ->
            h !! l = Some p ->
            getValidatedActivityOptions ctx h = Done (timeoutVerdict l p) h).
  { intros l p Hctx Hl.
    apply getValidatedActivityOptions_bound; [|exact Hl].
    apply getActivityOptions_Some; exact Hctx. }
  assert (Habsent : ctxLookup ctx activityOptionsContextKey = None ->
            getValidatedActivityOptions ctx h
            = Done (None, Some errActivityParamsBadRequest) h).
  { intros Hctx. apply getValidatedActivityOptions_absent.
    apply getActivityOptions_absent; exact Hctx. }
  split; [exact Habsent|]. split.
  - intros l p Hctx Hl. rewrite (Hbound l p Hctx Hl). unfold timeoutVerdict.
    destruct (Z.leb_spec (ScheduleToStartTimeoutSeconds p) 0) as [H1|H1];
      [|destruct (Z.leb_spec (ScheduleToCloseTimeoutSeconds p) 0) as [H2|H2];
        [|destruct (Z.leb_spec (StartToCloseTimeoutSeconds p) 0) as [H3|H3]]];
      repeat split; intros; first [reflexivity | lia].
  - unfold optionsWellFormed. intros Hwf.
    destruct (ctxLookup ctx activityOptionsContextKey) as [[l|env|v]|] eqn:Hctx;
      try contradiction.
    + destruct Hwf as [p Hl].
      exists (fst (timeoutVerdict l p)), (snd (timeoutVerdict l p)).
      split.
      { rewrite (Hbound l p eq_refl Hl). destruct (timeoutVerdict l p). reflexivity. }
      assert (Hsame : forall l' q,
                Some (VParams l) = Some (VParams l') -> h !! l' = Some q -> q = p).
      { intros l' q Hll Hq. injection Hll as <-. congruence. }
      unfold timeoutVerdict.
      destruct (Z.leb_spec (ScheduleToStartTimeoutSeconds p) 0) as [H1|H1];
        [|destruct (Z.leb_spec (ScheduleToCloseTimeoutSeconds p) 0) as [H2|H2];
          [|destruct (Z.leb_spec (StartToCloseTimeoutSeconds p) 0) as [H3|H3]]];
        cbn [fst snd].
      1-3: split;
        [split; [intros _; right; exists l, p; split; [reflexivity|split; [exact Hl|lia]]
                | discriminate]
        | split; [intros _; reflexivity | discriminate]].
      split.
      { split; [intros Hne; exfalso; apply Hne; reflexivity|].
        intros [Habs|(l' & q & Hll & Hq & Hbad)]; [discriminate Habs|].
        rewrite (Hsame l' q Hll Hq) in Hbad. lia. }
      split; [intros Hne; exfalso; apply Hne; reflexivity|].
      intros _. exists l, p. repeat split; first [reflexivity | assumption].
    + exists None, (Some errActivityParamsBadRequest).
      split; [apply Habsent; reflexivity|].
      split; [split; [intros _; left; reflexivity | discriminate]|].
      split; [intros _; reflexivity | discriminate].
Qed.

Lemma getValidatedActivityOptions_contract_witness :
  let ctx := WithValue Background activityOptionsContextKey (VParams 0%nat) in
  let configured := [setScheduleToStartTimeoutSeconds 5
                       (setScheduleToCloseTimeoutSeconds 5
                          (setStartToCloseTimeoutSeconds 5
                             (setTaskListName "q" zeroParameters)))] in
  let incomplete := [setScheduleToStartTimeoutSeconds 5
                       (setStartToCloseTimeoutSeconds 5
                          (setTaskListName "q" zeroParameters))] in
  (* the three timeouts set: accepted, with the pointer bound in the context *)
  getValidatedActivityOptions ctx configured = Done (Some 0%nat, None) configured
  (* the schedule-to-close timeout left out: refused, naming it *)
  /\ getValidatedActivityOptions ctx incomplete
     = Done (None,
             Some (errorsNew "missing or negative ScheduleToCloseTimeoutSeconds"))
            incomplete
  (* nothing bound: refused as a bad request *)
  /\ getValidatedActivityOptions Background configured
     = Done (None, Some errActivityParamsBadRequest) configured.
Proof.
  intros ctx configured incomplete. split; [|split].
  - destruct (getValidatedActivityOptions_contract ctx configured) as (_ & Hbound & _).
    destruct (Hbound 0%nat
                (setScheduleToStartTimeoutSeconds 5
                   (setScheduleToCloseTimeoutSeconds 5
                      (setStartToCloseTimeoutSeconds 5
                         (setTaskListName "q" zeroParameters))))
                eq_refl eq_refl) as (_ & _ & _ & Hok).
    apply Hok; reflexivity.
  - destruct (getValidatedActivityOptions_contract ctx incomplete) as (_ & Hbound & _).
    destruct (Hbound 0%nat
                (setScheduleToStartTimeoutSeconds 5
                   (setStartToCloseTimeoutSeconds 5
                      (setTaskListName "q" zeroParameters)))
                eq_refl eq_refl) as (_ & Hclose & _).
    apply Hclose; [reflexivity | discriminate].
  - destruct (getValidatedActivityOptions_contract Background configured) as (Habsent & _).
    apply Habsent. reflexivity.
Defined.

(** The order of the checks shows: it does not hold that every timeout
    at fault is named. With the schedule-to-start and the start-to-close
    timeouts both left at zero, the error names the schedule-to-start
    timeout only. *)
Theorem getValidatedActivityOptions_names_first_violation_only :
  ~ (forall (ctx : Context) (h : store) (l : loc) (p : executeActivityParameters),
       ctxLookup ctx activityOptionsContextKey = Some (VParams l) ->
       h !! l = Some p ->
       (ScheduleToStartTimeoutSeconds p <= 0 ->
          getValidatedActivityOptions ctx h
          = Done (None,
                  Some (errorsNew "missing or negative ScheduleToStartTimeoutSeconds")) h) /\
       (ScheduleToCloseTimeoutSeconds p <= 0 ->
          getValidatedActivityOptions ctx h
          = Done (None,
                  Some (errorsNew "missing or negative ScheduleToCloseTimeoutSeconds")) h) /\
       (StartToCloseTimeoutSeconds p <= 0 ->
          getValidatedActivityOptions ctx h
          = Done (None,
                  Some (errorsNew "missing or negative StartToCloseTimeoutSeconds")) h)).
Proof.
  intros Hall.
  destruct (Hall (WithValue Background activityOptionsContextKey (VParams 0%nat))
                 [setScheduleToCloseTimeoutSeconds 5 zeroParameters]
                 0%nat (setScheduleToCloseTimeoutSeconds 5 zeroParameters)
                 eq_refl eq_refl) as (_ & _ & Hstart).
  specialize (Hstart ltac:(vm_compute; discriminate)).
  vm_compute in Hstart. discriminate Hstart.
Qed.

(** The same input run: the object has the schedule-to-start and the
    start-to-close timeouts at zero and the error names the first. *)
Example getValidatedActivityOptions_two_violations :
  getValidatedActivityOptions
    (WithValue Background activityOptionsContextKey (VParams 0%nat))
    [setScheduleToCloseTimeoutSeconds 5 zeroParameters]
  = Done (None, Some (errorsNew "missing or negative ScheduleToStartTimeoutSeconds"))
         [setScheduleToCloseTimeoutSeconds 5 zeroParameters].
Proof. reflexivity. Qed.

(** A configuration with the three timeouts set passes; with the
    schedule-to-start timeout left out it is refused with the error that
    names it; and a context without options is refused as a bad request. *)
Example getValidatedActivityOptions_samples :
  getValidatedActivityOptions
    (WithValue Background activityOptionsContextKey (VParams 0%nat))
    [setScheduleToStartTimeoutSeconds 5
       (setScheduleToCloseTimeoutSeconds 5
          (setStartToCloseTimeoutSeconds 5 (setTaskListName "q" zeroParameters)))]
  = Done (Some 0%nat, None)
      [setScheduleToStartTimeoutSeconds 5
         (setScheduleToCloseTimeoutSeconds 5
            (setStartToCloseTimeoutSeconds 5 (setTaskListName "q" zeroParameters)))]
  /\ getValidatedActivityOptions
       (WithValue Background activityOptionsContextKey (VParams 0%nat))
       [setScheduleToCloseTimeoutSeconds 5
          (setStartToCloseTimeoutSeconds 5 (setTaskListName "q" zeroParameters))]
     = Done (None, Some (errorsNew "missing or negative ScheduleToStartTimeoutSeconds"))
         [setScheduleToCloseTimeoutSeconds 5
            (setStartToCloseTimeoutSeconds 5 (setTaskListName "q" zeroParameters))]
  /\ getValidatedActivityOptions Background []
     = Done (None, Some errActivityParamsBadRequest) [].
Proof. repeat split. Qed.

(** C8. [WithActivityOptions] overlays the builder on the configuration
    accumulated so far (the object bound in the context, or a fresh zero
    object when there is none): in the configuration the resulting context
    resolves to, each of the seven fields has the builder's value when the
    builder's field is set and its accumulated value otherwise, and the
    activity type and the input are as before. *)
Theorem WithActivityOptions_partial_overlay
    (ctx : Context) (ao : activityOptions) (h : store) :
  optionsWellFormed ctx h ->
  exists (ctx1 : Context) (h1 : store) (before after : executeActivityParameters),
    WithActivityOptions ctx ao h = Done ctx1 h1 /\
    (resolve ctx h = Done before h \/
     getActivityOptions ctx = Val None /\ before = zeroParameters) /\
    resolve ctx1 h1 = Done after h1 /\
    TaskListName after = overlayField (taskListName ao) (TaskListName before) /\
    ScheduleToCloseTimeoutSeconds after
    = overlayField (scheduleToCloseTimeoutSeconds ao) (ScheduleToCloseTimeoutSeconds before) /\
    ScheduleToStartTimeoutSeconds after
    = overlayField (scheduleToStartTimeoutSeconds ao) (ScheduleToStartTimeoutSeconds before) /\
    StartToCloseTimeoutSeconds after
    = overlayField (startToCloseTimeoutSeconds ao) (StartToCloseTimeoutSeconds before) /\
    HeartbeatTimeoutSeconds after
    = overlayField (heartbeatTimeoutSeconds ao) (HeartbeatTimeoutSeconds before) /\
    WaitForCancellation after
    = overlayField (waitForCancellation ao) (WaitForCancellation before) /\
    ActivityID after
    = match optActivityID ao with
      | Some x => Some x
      | None => ActivityID before
      end /\
    ParamActivityType after = ParamActivityType before /\
    Input after = Input before.
Proof.
  unfold optionsWellFormed. intros Hwf.
  destruct (ctxLookup ctx activityOptionsContextKey) as [[l|env|v]|] eqn:Hctx;
    try contradiction.
  - destruct Hwf as [p Hl].
    assert (Hopt : getActivityOptions ctx = Val (Some l))
      by (apply getActivityOptions_Some; exact Hctx).
    exists ctx, (<[l := overlay ao p]> h), p, (overlay ao p).
    split; [apply WithActivityOptions_bound; assumption|].
    split; [left; apply (resolve_bound _ _ _ _ Hopt Hl)|].
    split; [apply (resolve_bound _ _ _ _ Hopt); eapply lookup_after_insert; exact Hl|].
    repeat split.
  - assert (Hopt : getActivityOptions ctx = Val None)
      by (apply getActivityOptions_absent; exact Hctx).
    exists (WithValue ctx activityOptionsContextKey (VParams (length h))),
           (h ++ [overlay ao zeroParameters]), zeroParameters, (overlay ao zeroParameters).
    split; [apply WithActivityOptions_absent; exact Hopt|].
    split; [right; split; [exact Hopt | reflexivity]|].
    split; [apply (resolve_bound _ _ _ _ (getActivityOptions_bound _ _));
            apply store_snoc_lookup|].
    repeat split.
Qed.

Lemma WithActivityOptions_partial_overlay_witness :
  let ctx := WithValue Background activityOptionsContextKey (VParams 0%nat) in
  let h := [setScheduleToStartTimeoutSeconds 5 (setTaskListName "q" zeroParameters)] in
  let ao := ab_WithWaitForCancellation (ab_WithTaskList NewActivityOptions "r") true in
  optionsWellFormed ctx h /\
  exists (ctx1 : Context) (h1 : store), WithActivityOptions ctx ao h = Done ctx1 h1.
Proof.
  intros ctx h ao.
  assert (Hwf : optionsWellFormed ctx h) by (eexists; reflexivity).
  split; [exact Hwf|].
  destruct (WithActivityOptions_partial_overlay ctx ao h Hwf)
    as (ctx1 & h1 & _ & _ & Hrun & _).
  exists ctx1, h1. exact Hrun.
Defined.

End OptionChain.

(** ** The activity environment and the heartbeat *)

Section Environment.

Context `{Package}.

(** C7. In a context without an activity environment, looking the
    environment up panics, and so do [GetActivityInfo] and
    [GetActivityLogger]; in a context with one, [GetActivityInfo] returns
    the environment's activity ID, activity type, task token and workflow
    execution. *)
Theorem environment_lookup_contract (ctx : Context) :
  (ctxLookup ctx activityEnvContextKey = None ->
   getActivityEnv ctx = Pan (PanicString "getActivityEnv: Not an activity context") /\
   GetActivityInfo ctx = Pan (PanicString "getActivityEnv: Not an activity context") /\
   GetActivityLogger ctx = Pan (PanicString "getActivityEnv: Not an activity context"))
  /\ (forall env : activityEnvironment,
        ctxLookup ctx activityEnvContextKey = Some (VEnv env) ->
        GetActivityInfo ctx
        = Val {| TaskToken := taskToken env;
                 InfoWorkflowExecution := workflowExecution env;
                 InfoActivityID := activityID env;
                 InfoActivityType := activityType env |}).
Proof.
  split.
  - intros Hno. unfold GetActivityInfo, GetActivityLogger, getActivityEnv.
    rewrite Hno. repeat split.
  - intros env Henv. unfold GetActivityInfo, getActivityEnv. rewrite Henv. reflexivity.
Qed.

(** C5. When the details encode and the invoker answers the heartbeat
    with an error, whatever the error, [RecordActivityHeartbeat] returns
    normally: the invoker was called once with the payload and the error
    went to the environment's logger. *)
Theorem heartbeat_invoker_error_swallowed
    (ctx : Context) (env : activityEnvironment) (details : list iface)
    (data : bytes) (e : error) (w : world) :
  encodeArgs details = inl data ->
  ctxLookup ctx activityEnvContextKey = Some (VEnv env) ->
  Heartbeat (serviceInvoker env) data = Some e ->
  RecordActivityHeartbeat ctx details w
  = Done tt (w ++ [InvokerHeartbeat data;
                   LogDebug (logger env) "RecordActivityHeartbeat With Error:" e]).
Proof.
  intros Henc Henv Hhb.
  assert (Hget : getActivityEnv ctx = Val env)
    by (unfold getActivityEnv; rewrite Henv; reflexivity).
  unfold RecordActivityHeartbeat, GetActivityLogger. rewrite Henc.
  unfold bind, lift, callHeartbeat, logDebug. rewrite Hget, Hhb.
  cbn [res_bind]. rewrite <- app_assoc. reflexivity.
Qed.

(** C10. When the details do not encode, [RecordActivityHeartbeat] panics
    with the encoding error in the world it started from: the invoker has
    not been called and nothing has been logged. *)
Theorem heartbeat_encoding_failure_panics
    (ctx : Context) (details : list iface) (err : error) (w : world) :
  encodeArgs details = inr err ->
  RecordActivityHeartbeat ctx details w = Panicked (PanicError err) w.
Proof.
  intros Henc. unfold RecordActivityHeartbeat. rewrite Henc. reflexivity.
Qed.

End Environment.

Lemma environment_lookup_contract_witness :
  getActivityEnv Background = Pan (PanicString "getActivityEnv: Not an activity context")
  /\ GetActivityInfo Fixtures.activityCtx
     = Val {| TaskToken := list_byte_of_string "token";
              InfoWorkflowExecution := {| ID := "wf"; RunID := "run" |};
              InfoActivityID := "7";
              InfoActivityType := {| Name := "sampleActivity" |} |}.
Proof.
  split.
  - exact (proj1 (proj1 (environment_lookup_contract Background) eq_refl)).
  - exact (proj2 (environment_lookup_contract Fixtures.activityCtx)
             Fixtures.sampleEnv eq_refl).
Defined.

(** The sample context is the one [WithActivityTask] builds. *)
Example WithActivityTask_sample :
  WithActivityTask Background (Some Fixtures.sampleTask)
    Fixtures.failingInvoker Fixtures.sampleLogger
  = Val Fixtures.activityCtx.
Proof. reflexivity. Qed.

Lemma heartbeat_invoker_error_swallowed_witness :
  @RecordActivityHeartbeat Fixtures.samplePackage Fixtures.activityCtx [Fixtures.int42] []
  = Done tt [InvokerHeartbeat (list_byte_of_string "42");
             LogDebug Fixtures.sampleLogger "RecordActivityHeartbeat With Error:"
               (externalError "transport unavailable")].
Proof.
  exact (@heartbeat_invoker_error_swallowed Fixtures.samplePackage
           Fixtures.activityCtx Fixtures.sampleEnv [Fixtures.int42]
           (list_byte_of_string "42") (externalError "transport unavailable") []
           eq_refl eq_refl eq_refl).
Defined.

Lemma heartbeat_encoding_failure_panics_witness :
  @RecordActivityHeartbeat Fixtures.samplePackage Fixtures.activityCtx [Fixtures.aChannel] []
  = Panicked (PanicError (externalError "unsupported type")) [].
Proof.
  exact (@heartbeat_encoding_failure_panics Fixtures.samplePackage
           Fixtures.activityCtx [Fixtures.aChannel] (externalError "unsupported type") []
           eq_refl).
Defined.

(** ** The return-shape check *)

Section ReturnShape.

Context `{Reflection} `{Package}.


End ReturnShape.


(** ** Seconds of a duration

    [d.Seconds()] is computed in binary64. The lemmas below follow the
    operations of [SpecFloat] on the two operands: the conversion of an
    integer below [2 ^ 53] is exact, the quotient of the nanoseconds by
    [1e9] is a normal number below [1 - 2 ^ -30], and the sum of less
    than [2 ^ 24] whole seconds and such a fraction rounds to a number
    whose integer part is the whole seconds. *)

Section FloatRounding.

(** *** Digits and shifts *)

Lemma pow2_pred (d : Z) : 0 < d -> 2 ^ d = 2 * 2 ^ (d - 1).
Proof. intros Hd. rewrite <- Z.pow_succ_r by lia. f_equal. lia. Qed.

Lemma digits2_pos_bounds (p : positive) :
  2 ^ (Z.pos (digits2_pos p) - 1) <= Z.pos p < 2 ^ Z.pos (digits2_pos p).
Proof.
  induction p as [p IH|p IH|]; cbn [digits2_pos].
  - rewrite Pos2Z.inj_succ. change (Z.pos p~1) with (2 * Z.pos p + 1).
    replace (Z.succ (Z.pos (digits2_pos p)) - 1) with (Z.pos (digits2_pos p)) by lia.
    rewrite Z.pow_succ_r by lia.
    pose proof (pow2_pred (Z.pos (digits2_pos p)) ltac:(lia)). lia.
  - rewrite Pos2Z.inj_succ. change (Z.pos p~0) with (2 * Z.pos p).
    replace (Z.succ (Z.pos (digits2_pos p)) - 1) with (Z.pos (digits2_pos p)) by lia.
    rewrite Z.pow_succ_r by lia.
    pose proof (pow2_pred (Z.pos (digits2_pos p)) ltac:(lia)). lia.
  - simpl. lia.
Qed.

Lemma digits2_pos_unique (p : positive) (d : Z) :
  2 ^ (d - 1) <= Z.pos p < 2 ^ d -> Z.pos (digits2_pos p) = d.
Proof.
  intros [Hlo Hhi]. pose proof (digits2_pos_bounds p) as [Hlo' Hhi'].
  assert (0 < d).
  { destruct (Z.ltb_spec 0 d); [assumption|].
    destruct (Z.eqb_spec d 0) as [->|]; [simpl in Hhi; lia|].
    rewrite Z.pow_neg_r in Hhi by lia. lia. }
  destruct (Z.lt_trichotomy (Z.pos (digits2_pos p)) d) as [Hlt|[Heq|Hgt]]; [|assumption|].
  - assert (2 ^ Z.pos (digits2_pos p) <= 2 ^ (d - 1)) by (apply Z.pow_le_mono_r; lia). lia.
  - assert (2 ^ d <= 2 ^ (Z.pos (digits2_pos p) - 1)) by (apply Z.pow_le_mono_r; lia). lia.
Qed.

Lemma Zdigits2_unique (m d : Z) :
  2 ^ (d - 1) <= m < 2 ^ d -> 0 < m -> Zdigits2 m = d.
Proof.
  intros Hb Hpos. destruct m as [|p|p]; try lia. simpl. apply digits2_pos_unique. exact Hb.
Qed.

Lemma iter_xO (d m : positive) : Z.pos (Pos.iter xO m d) = Z.pos m * 2 ^ Z.pos d.
Proof.
  induction d as [|d IH] using Pos.peano_ind.
  - simpl. lia.
  - rewrite Pos.iter_succ, Pos2Z.inj_succ, Z.pow_succ_r by lia.
    change (Z.pos (Pos.iter xO m d)~0) with (2 * Z.pos (Pos.iter xO m d)).
    rewrite IH. lia.
Qed.

Lemma iter_pos_nat {A} (f : A -> A) (p : positive) :
  forall x, SpecFloat.iter_pos f p x = Nat.iter (Pos.to_nat p) f x.
Proof.
  induction p as [p IH|p IH|]; intros x; cbn [SpecFloat.iter_pos].
  - rewrite !IH. rewrite Pos2Nat.inj_xI.
    replace (S (2 * Pos.to_nat p))%nat with (Pos.to_nat p + (Pos.to_nat p + 1))%nat by lia.
    rewrite !Nat.iter_add. reflexivity.
  - rewrite !IH. rewrite Pos2Nat.inj_xO.
    replace (2 * Pos.to_nat p)%nat with (Pos.to_nat p + Pos.to_nat p)%nat by lia.
    rewrite Nat.iter_add. reflexivity.
  - reflexivity.
Qed.

Lemma shr_1_m (mrs : shr_record) :
  0 <= shr_m mrs -> shr_m (shr_1 mrs) = shr_m mrs / 2 /\ shr_r (shr_1 mrs) = Z.odd (shr_m mrs).
Proof.
  destruct mrs as [m r s]. cbn [shr_m]. intros Hm.
  destruct m as [|[p|p|]|p]; try lia; cbn [shr_1 shr_m shr_r]; split; try reflexivity.
  - change (Z.pos p~1) with (2 * Z.pos p + 1). apply Z.div_unique with 1; lia.
  - change (Z.pos p~0) with (2 * Z.pos p). apply Z.div_unique with 0; lia.
Qed.

Lemma iter_shr_1 (n : nat) (mrs : shr_record) :
  0 <= shr_m mrs ->
  shr_m (Nat.iter n shr_1 mrs) = shr_m mrs / 2 ^ Z.of_nat n
  /\ (forall k, n = S k -> shr_r (Nat.iter n shr_1 mrs) = Z.odd (shr_m mrs / 2 ^ Z.of_nat k)).
Proof.
  intros Hm. induction n as [|n [IHm IHr]].
  - simpl. split; [rewrite Z.div_1_r; reflexivity | discriminate].
  - change (Nat.iter (S n) shr_1 mrs) with (shr_1 (Nat.iter n shr_1 mrs)).
    assert (Hpos : 0 <= shr_m (Nat.iter n shr_1 mrs)).
    { rewrite IHm. apply Z.div_pos; [assumption | apply Z.pow_pos_nonneg; lia]. }
    destruct (shr_1_m _ Hpos) as [H1 H2]. split.
    + rewrite H1, IHm, Nat2Z.inj_succ, Z.pow_succ_r by lia.
      rewrite Z.div_div by (try apply Z.pow_pos_nonneg; lia). f_equal. lia.
    + intros k Hk. injection Hk as <-. rewrite H2, IHm. reflexivity.
Qed.

Lemma odd_div_mod (m sh : Z) :
  0 <= m -> 0 < sh -> Z.odd (m / 2 ^ (sh - 1)) = true -> 2 ^ (sh - 1) <= m mod 2 ^ sh.
Proof.
  intros Hm Hsh Hodd.
  assert (HP : 0 < 2 ^ (sh - 1)) by (apply Z.pow_pos_nonneg; lia).
  rewrite (pow2_pred sh Hsh). rewrite (Z.mul_comm 2).
  rewrite Z.rem_mul_r by lia.
  rewrite Zmod_odd, Hodd.
  pose proof (Z.mod_pos_bound m (2 ^ (sh - 1)) HP). lia.
Qed.

Lemma round_nearest_even_cases (mrs : shr_record) :
  round_nearest_even (shr_m mrs) (loc_of_shr_record mrs) = shr_m mrs
  \/ (shr_r mrs = true /\
      round_nearest_even (shr_m mrs) (loc_of_shr_record mrs) = shr_m mrs + 1).
Proof.
  destruct mrs as [m [|] [|]]; cbn [shr_m shr_r loc_of_shr_record round_nearest_even].
  - right. split; reflexivity.
  - destruct (Z.even m); [left | right; split]; reflexivity.
  - left. reflexivity.
  - left. reflexivity.
Qed.

Lemma fexp_normal (d e : Z) : 53 <= d -> -1074 <= e -> fexp 53 1024 (d + e) - e = d - 53.
Proof. intros Hd He. unfold fexp, emin. lia. Qed.

(** The first step of rounding a mantissa of at least 53 digits: it is
    shifted down to 53 digits, and the round bit of the record is set
    only if the part shifted out reaches half a unit. *)
Lemma shr_fexp_spec (m e : Z) (l : location) :
  0 < m -> 53 <= Zdigits2 m -> -1074 <= e ->
  let sh := Zdigits2 m - 53 in
  exists mrs,
    shr_fexp 53 1024 m e l = (mrs, e + sh) /\
    shr_m mrs = m / 2 ^ sh /\
    (0 < sh -> shr_r mrs = true -> 2 ^ (sh - 1) <= m mod 2 ^ sh) /\
    (sh = 0 -> mrs = shr_record_of_loc m l).
Proof.
  intros Hm Hd He sh. unfold shr_fexp. rewrite (fexp_normal _ _ Hd He). fold sh.
  destruct sh as [|p|p] eqn:Hsh; try lia.
  - exists (shr_record_of_loc m l). cbn [shr]. rewrite Z.add_0_r, Z.div_1_r.
    repeat split; try lia. destruct l as [|[| |]]; reflexivity.
  - cbn [shr]. eexists. split; [reflexivity|].
    rewrite iter_pos_nat.
    assert (Hm0 : 0 <= shr_m (shr_record_of_loc m l)).
    { destruct l as [|[| |]]; cbn; lia. }
    assert (Hsm : shr_m (shr_record_of_loc m l) = m).
    { destruct l as [|[| |]]; reflexivity. }
    destruct (iter_shr_1 (Pos.to_nat p) _ Hm0) as [H1 H2].
    rewrite Hsm in H1, H2. rewrite positive_nat_Z in H1.
    split; [exact H1|]. split; [|lia].
    intros _ Hr.
    destruct (Pos.to_nat p) as [|k] eqn:Hk; [lia|].
    rewrite (H2 k eq_refl) in Hr.
    apply odd_div_mod; try lia.
    replace (Z.pos p - 1) with (Z.of_nat k) by lia. exact Hr.
Qed.

Lemma Zdigits2_bounds (m : Z) :
  0 < m -> 2 ^ (Zdigits2 m - 1) <= m < 2 ^ Zdigits2 m.
Proof. destruct m as [|p|p]; try lia. intros _. apply digits2_pos_bounds. Qed.

Lemma mantissa_bounds (m : Z) :
  0 < m -> 53 <= Zdigits2 m ->
  2 ^ 52 <= m / 2 ^ (Zdigits2 m - 53) < 2 ^ 53.
Proof.
  intros Hm Hd. pose proof (Zdigits2_bounds m Hm) as [Hlo Hhi].
  set (sh := Zdigits2 m - 53) in *.
  assert (HP : 0 < 2 ^ sh) by (apply Z.pow_pos_nonneg; lia).
  replace (Zdigits2 m - 1) with (52 + sh) in Hlo by lia.
  replace (Zdigits2 m) with (53 + sh) in Hhi by lia.
  rewrite Z.pow_add_r in Hlo, Hhi by lia.
  split.
  - apply Z.div_le_lower_bound; lia.
  - apply Z.div_lt_upper_bound; lia.
Qed.

(** Rounding a mantissa of at least 53 digits keeps the quotient by the
    shift or takes the next integer, the latter only when the remainder
    reaches half of the shift; when the next integer is [2 ^ 53] the
    result is renormalised one exponent up. *)
Lemma binary_round_aux_spec (s : bool) (m e : Z) (l : location) :
  0 < m -> 53 <= Zdigits2 m -> -1074 <= e -> e + (Zdigits2 m - 53) < 971 ->
  let sh := Zdigits2 m - 53 in
  let a := m / 2 ^ sh in
  exists (m2 : positive) (e2 : Z),
    binary_round_aux 53 1024 s m e l = S754_finite s m2 e2 /\
    2 ^ 52 <= Z.pos m2 < 2 ^ 53 /\
    ((Z.pos m2 = a /\ e2 = e + sh) \/
     ((0 < sh -> 2 ^ (sh - 1) <= m mod 2 ^ sh) /\
      ((Z.pos m2 = a + 1 /\ e2 = e + sh) \/
       (a + 1 = 2 ^ 53 /\ Z.pos m2 = 2 ^ 52 /\ e2 = e + sh + 1)))).
Proof.
  intros Hm Hd He Hmax sh a.
  pose proof (mantissa_bounds m Hm Hd) as Ha. fold sh in Ha. fold a in Ha.
  destruct (shr_fexp_spec m e l Hm Hd He) as (mrs & Heq & Hmrs & Hr & _).
  fold sh in Heq, Hmrs, Hr. fold a in Hmrs.
  unfold binary_round_aux. rewrite Heq.
  set (m1 := round_nearest_even (shr_m mrs) (loc_of_shr_record mrs)).
  assert (Hm1 : m1 = a \/ (shr_r mrs = true /\ m1 = a + 1)).
  { unfold m1. rewrite <- Hmrs. apply round_nearest_even_cases. }
  assert (Hm1pos : 0 < m1) by lia.
  destruct (Z.ltb_spec m1 (2 ^ 53)) as [Hlt|Hge].
  - assert (Hd1 : Zdigits2 m1 = 53) by (apply Zdigits2_unique; lia).
    destruct (shr_fexp_spec m1 (e + sh) loc_Exact Hm1pos ltac:(lia) ltac:(lia))
      as (mrs2 & Heq2 & _ & _ & Hmrs2).
    rewrite Hd1 in Heq2, Hmrs2. change (53 - 53) with 0 in Heq2, Hmrs2.
    rewrite Heq2, (Hmrs2 eq_refl). cbn [shr_record_of_loc shr_m].
    destruct m1 as [|p|p] eqn:Hp; try lia.
    rewrite Z.add_0_r.
    replace (e + sh <=? 1024 - 53) with true by (symmetry; apply Z.leb_le; lia).
    exists p, (e + sh). split; [reflexivity|]. split; [lia|].
    destruct Hm1 as [Hm1|[Hup Hm1]]; [left; lia|].
    right. split; [intros Hsh; apply Hr; assumption|]. left. lia.
  - assert (Hm1eq : m1 = 2 ^ 53) by lia.
    destruct Hm1 as [Hm1|[Hup Hm1]]; [lia|].
    assert (Hd1 : Zdigits2 m1 = 54) by (apply Zdigits2_unique; rewrite Hm1eq; simpl; lia).
    destruct (shr_fexp_spec m1 (e + sh) loc_Exact Hm1pos ltac:(lia) ltac:(lia))
      as (mrs2 & Heq2 & Hmrs2 & _ & _).
    rewrite Hd1 in Heq2, Hmrs2. change (54 - 53) with 1 in Heq2, Hmrs2.
    rewrite Heq2, Hmrs2, Hm1eq. change (2 ^ 53 / 2 ^ 1) with (Z.pos (Z.to_pos (2 ^ 52))).
    cbv iota beta.
    replace (e + sh + 1 <=? 1024 - 53) with true by (symmetry; apply Z.leb_le; lia).
    exists (Z.to_pos (2 ^ 52)), (e + sh + 1). split; [reflexivity|].
    split; [simpl; lia|].
    right. split; [intros Hsh; apply Hr; assumption|]. right.
    split; [lia|]. split; [reflexivity | reflexivity].
Qed.

(** *** Conversion of an integer *)

Lemma binary_round_aux_exact (s : bool) (m : positive) (e : Z) :
  Z.pos (digits2_pos m) = 53 -> -1074 <= e <= 971 ->
  binary_round_aux 53 1024 s (Z.pos m) e loc_Exact = S754_finite s m e.
Proof.
  intros Hd He.
  assert (Hsh : shr_fexp 53 1024 (Z.pos m) e loc_Exact
                = (shr_record_of_loc (Z.pos m) loc_Exact, e)).
  { destruct (shr_fexp_spec (Z.pos m) e loc_Exact ltac:(lia)
                ltac:(cbn [Zdigits2]; lia) ltac:(lia)) as (mrs & Heq & _ & _ & Hmrs).
    cbn [Zdigits2] in Heq, Hmrs. rewrite Hd in Heq, Hmrs.
    change (53 - 53) with 0 in Heq, Hmrs. rewrite Z.add_0_r in Heq.
    rewrite Heq, (Hmrs eq_refl). reflexivity. }
  unfold binary_round_aux. rewrite Hsh.
  cbn [shr_record_of_loc shr_m loc_of_shr_record round_nearest_even].
  rewrite Hsh. cbn [shr_record_of_loc shr_m].
  replace (e <=? 1024 - 53) with true by (symmetry; apply Z.leb_le; lia).
  reflexivity.
Qed.

Lemma normalise_spec (p : positive) :
  Z.pos p < 2 ^ 53 ->
  Z.pos (digits2_pos p) <= 53 /\
  Z.pos (normalise p) = Z.pos p * 2 ^ (53 - Z.pos (digits2_pos p)) /\
  Z.pos (digits2_pos (normalise p)) = 53.
Proof.
  intros Hp. pose proof (digits2_pos_bounds p) as [Hlo Hhi].
  set (j := Z.pos (digits2_pos p)) in *.
  assert (Hj : j <= 53).
  { destruct (Z.leb_spec j 53); [assumption|].
    assert (2 ^ 53 <= 2 ^ (j - 1)) by (apply Z.pow_le_mono_r; lia). lia. }
  assert (HP : 0 < 2 ^ (53 - j)) by (apply Z.pow_pos_nonneg; lia).
  assert (Hn : Z.pos (normalise p) = Z.pos p * 2 ^ (53 - j)).
  { unfold normalise. fold j. rewrite Z2Pos.id by lia. reflexivity. }
  split; [exact Hj|]. split; [exact Hn|].
  apply digits2_pos_unique. rewrite Hn.
  replace (2 ^ (53 - 1)) with (2 ^ (j - 1) * 2 ^ (53 - j))
    by (rewrite <- Z.pow_add_r by lia; f_equal; lia).
  replace (2 ^ 53) with (2 ^ j * 2 ^ (53 - j))
    by (rewrite <- Z.pow_add_r by lia; f_equal; lia).
  split.
  - apply Z.mul_le_mono_nonneg_r; lia.
  - apply Z.mul_lt_mono_pos_r; lia.
Qed.

Lemma binary_round_int (s : bool) (p : positive) :
  Z.pos p < 2 ^ 53 ->
  binary_round 53 1024 s p 0
  = S754_finite s (normalise p) (Z.pos (digits2_pos p) - 53).
Proof.
  intros Hp. destruct (normalise_spec p Hp) as (Hj & Hn & Hd).
  set (j := Z.pos (digits2_pos p)) in *.
  unfold binary_round, shl_align. fold j.
  replace (fexp 53 1024 (j + 0)) with (j - 53) by (unfold fexp, emin; lia).
  destruct (j - 53 - 0) as [|d|d] eqn:Hsub; try lia.
  - assert (Hnp : normalise p = p).
    { apply Pos2Z.inj. rewrite Hn. replace (53 - j) with 0 by lia. lia. }
    rewrite <- Hnp at 1. replace 0 with (j - 53) at 1 by lia.
    apply binary_round_aux_exact; [exact Hd | lia].
  - assert (Hnp : Pos.iter xO p d = normalise p).
    { apply Pos2Z.inj. rewrite iter_xO, Hn. f_equal. f_equal. lia. }
    rewrite Hnp. apply binary_round_aux_exact; [exact Hd | lia].
Qed.

(** *** The fraction of a second *)

Lemma float64OfInt_billion : float64OfInt 1000000000 = billion.
Proof. reflexivity. Qed.

(** The quotient by [1e9] of a nonzero integer below [10 ^ 9] in
    absolute value is a normal number below [1 - 2 ^ -30]. *)
Lemma SFdiv_fraction (s : bool) (p : positive) :
  Z.pos p < 1000000000 ->
  exists (m : positive) (e : Z),
    SFdiv 53 1024 (binary_round 53 1024 s p 0) billion = S754_finite s m e /\
    2 ^ 52 <= Z.pos m < 2 ^ 53 /\
    -83 <= e <= -53 /\
    Z.pos m * 2 ^ 30 < (2 ^ 30 - 1) * 2 ^ (- e).
Proof.
  intros Hp.
  assert (Hp53 : Z.pos p < 2 ^ 53) by (simpl; lia).
  destruct (normalise_spec p Hp53) as (Hj & Hn & Hd).
  pose proof (digits2_pos_bounds p) as [Hlo Hhi].
  rewrite (binary_round_int s p Hp53).
  set (j := Z.pos (digits2_pos p)) in *.
  assert (Hj30 : j <= 30).
  { destruct (Z.leb_spec j 30); [assumption|].
    assert (2 ^ 30 <= 2 ^ (j - 1)) by (apply Z.pow_le_mono_r; lia). simpl in *. lia. }
  assert (Hj1 : 1 <= j) by (unfold j; lia).
  unfold billion, SFdiv, SFdiv_core_binary.
  cbn [Zdigits2]. rewrite Hd.
  change (Z.pos (digits2_pos 8388608000000000)) with 53.
  replace (Z.min (fexp 53 1024 (53 + (j - 53) - (53 + -23))) (j - 53 - -23))
    with (j - 83) by (unfold fexp, emin; lia).
  replace (j - 53 - -23 - (j - 83)) with 53 by lia.
  rewrite Z.shiftl_mul_pow2 by lia.
  set (X := 2 ^ (83 - j)).
  assert (HX : 2 ^ 53 <= X) by (apply Z.pow_le_mono_r; lia).
  assert (Hm' : Z.pos (normalise p) * 2 ^ 53 = Z.pos p * X * 2 ^ 23).
  { rewrite Hn. unfold X. rewrite <- !Z.mul_assoc, <- !Z.pow_add_r by lia.
    f_equal. f_equal. lia. }
  pose proof (Z_div_mod (Z.pos (normalise p) * 2 ^ 53) 8388608000000000 ltac:(lia))
    as Hdm.
  destruct (Z.div_eucl (Z.pos (normalise p) * 2 ^ 53) 8388608000000000) as [q r].
  destruct Hdm as [Hq Hr]. rewrite Hm' in Hq.
  assert (HpX : Z.pos p * X <= 999999999 * X)
    by (apply Z.mul_le_mono_nonneg_r; lia).
  assert (Hmlo : 2 ^ 52 * 2 ^ 53 <= Z.pos p * X * 2 ^ 23).
  { rewrite <- Hm'. apply Z.mul_le_mono_nonneg_r; [lia|].
    pose proof (digits2_pos_bounds (normalise p)) as [H1 _]. rewrite Hd in H1. exact H1. }
  assert (Hmhi : Z.pos p * X * 2 ^ 23 < 2 ^ 53 * 2 ^ 53).
  { rewrite <- Hm'. apply Z.mul_lt_mono_pos_r; [lia|].
    pose proof (digits2_pos_bounds (normalise p)) as [_ H1]. rewrite Hd in H1. exact H1. }
  change (2 ^ 23) with 8388608 in *. change (2 ^ 52) with 4503599627370496 in *.
  change (2 ^ 53) with 9007199254740992 in *. change (2 ^ 30) with 1073741824 in *.
  assert (Hq52 : 4503599627370496 <= q) by lia.
  assert (Hq54 : q < 2 * 9007199254740992) by lia.
  assert (Hqn : q * 1000000000 <= 999999999 * X) by lia.
  assert (Hdq : Zdigits2 q = 53 \/ Zdigits2 q = 54).
  { destruct (Z.ltb_spec q 9007199254740992).
    - left. apply Zdigits2_unique; simpl; lia.
    - right. apply Zdigits2_unique; simpl; lia. }
  destruct (binary_round_aux_spec (xorb s false) q (j - 83)
              (new_location 8388608000000000 r) ltac:(lia) ltac:(lia) ltac:(lia)
              ltac:(lia))
    as (m2 & e2 & Hres & Hm2 & Hcases).
  rewrite xorb_false_r in Hres.
  exists m2, e2. split; [cbv beta iota zeta; rewrite xorb_false_r; exact Hres|].
  change (2 ^ 52) with 4503599627370496 in *.
  change (2 ^ 53) with 9007199254740992 in *.
  split; [exact Hm2|].
  assert (HXe : forall k, 0 <= k <= 2 -> X = 2 ^ k * 2 ^ (83 - j - k)).
  { intros k Hk. unfold X. rewrite <- Z.pow_add_r by lia. f_equal. lia. }
  pose proof (HXe 0 ltac:(lia)) as HX0. change (2 ^ 0) with 1 in HX0.
  pose proof (HXe 1 ltac:(lia)) as HX1. change (2 ^ 1) with 2 in HX1.
  pose proof (HXe 2 ltac:(lia)) as HX2. change (2 ^ 2) with 4 in HX2.
  assert (Hmain : exists k, 0 <= k <= 2 /\ e2 = j - 83 + k /\
            Z.pos m2 * 1073741824 < (1073741824 - 1) * 2 ^ (83 - j - k)).
  { destruct Hdq as [Hdq|Hdq]; rewrite Hdq in Hcases;
      [change (53 - 53) with 0 in Hcases | change (54 - 53) with 1 in Hcases].
    - rewrite Z.div_1_r in Hcases.
      destruct Hcases as [[Hm He]|[_ [[Hm He]|[Ha [Hm He]]]]].
      + exists 0. split; [lia|]. split; [lia|]. lia.
      + exists 0. split; [lia|]. split; [lia|]. lia.
      + exists 1. split; [lia|]. split; [lia|]. lia.
    - change (2 ^ 1) with 2 in Hcases.
      pose proof (Z.mul_div_le q 2 ltac:(lia)) as Hq2.
      destruct Hcases as [[Hm He]|[_ [[Hm He]|[Ha [Hm He]]]]].
      + exists 1. split; [lia|]. split; [lia|]. lia.
      + exists 1. split; [lia|]. split; [lia|]. lia.
      + exists 2. split; [lia|]. split; [lia|]. lia. }
  destruct Hmain as (k & Hk & He2 & Hlt).
  assert (Hexp : 52 < 83 - j - k).
  { apply (Z.pow_lt_mono_r_iff 2); [lia | lia |].
    change (2 ^ 52) with 4503599627370496. lia. }
  split; [lia|].
  replace (- e2) with (83 - j - k) by lia. exact Hlt.
Qed.

(** *** The sum of the whole seconds and the fraction *)

Lemma truncate_finite_neg (s : bool) (m : positive) (e : Z) :
  e < 0 -> truncate (S754_finite s m e) = Some (cond_Zopp s (Z.pos m / 2 ^ (- e))).
Proof. intros He. destruct e as [|k|k]; try lia. reflexivity. Qed.

Lemma cond_Zopp_add (s : bool) (a b : Z) :
  cond_Zopp s a + cond_Zopp s b = cond_Zopp s (a + b).
Proof. destruct s; simpl; lia. Qed.

Lemma binary_normalize_signed (s : bool) (m : positive) (e : Z) :
  binary_normalize 53 1024 (cond_Zopp s (Z.pos m)) e false = binary_round 53 1024 s m e.
Proof. destruct s; reflexivity. Qed.

Lemma shl_align_noop (mx : positive) (ex ex' : Z) :
  ex <= ex' -> shl_align mx ex ex' = (mx, ex).
Proof.
  intros Hle. unfold shl_align. destruct (ex' - ex) as [|d|d] eqn:Hsub; try lia; reflexivity.
Qed.

(** Less than [2 ^ 24] whole seconds plus a fraction below
    [1 - 2 ^ -30] of the same sign: the integer part of the rounded sum
    is the whole seconds. *)
Lemma SFadd_whole_fraction (s : bool) (ps mq : positive) (eq : Z) :
  Z.pos ps < 2 ^ 24 ->
  2 ^ 52 <= Z.pos mq < 2 ^ 53 ->
  -83 <= eq <= -53 ->
  Z.pos mq * 2 ^ 30 < (2 ^ 30 - 1) * 2 ^ (- eq) ->
  truncate (SFadd 53 1024 (binary_round 53 1024 s ps 0) (S754_finite s mq eq))
  = Some (cond_Zopp s (Z.pos ps)).
Proof.
  intros Hps Hmq Heq Hfrac.
  assert (Hp53 : Z.pos ps < 2 ^ 53) by (simpl in *; lia).
  destruct (normalise_spec ps Hp53) as (_ & Hn & Hd).
  pose proof (digits2_pos_bounds ps) as [Hlo Hhi].
  rewrite (binary_round_int s ps Hp53).
  set (j := Z.pos (digits2_pos ps)) in *.
  assert (Hj1 : 1 <= j) by (unfold j; lia).
  assert (Hj24 : j <= 24).
  { destruct (Z.leb_spec j 24); [assumption|].
    assert (2 ^ 24 <= 2 ^ (j - 1)) by (apply Z.pow_le_mono_r; lia). lia. }
  set (sh := j - 53 - eq).
  assert (Hsh : 1 <= sh) by (unfold sh; lia).
  set (Z0 := 2 ^ (53 - j)).
  set (P := 2 ^ sh).
  assert (HZ0 : 2 ^ 29 <= Z0) by (apply Z.pow_le_mono_r; lia).
  assert (HP : 0 < P) by (apply Z.pow_pos_nonneg; lia).
  assert (HY : 2 ^ (- eq) = Z0 * P).
  { unfold Z0, P. rewrite <- Z.pow_add_r by lia. f_equal. unfold sh. lia. }
  assert (HjZ : 2 ^ j * Z0 = 2 ^ 53).
  { unfold Z0. rewrite <- Z.pow_add_r by lia. f_equal. lia. }
  assert (HjZ' : 2 ^ (j - 1) * Z0 = 2 ^ 52).
  { unfold Z0. rewrite <- Z.pow_add_r by lia. f_equal. lia. }
  fold Z0 in Hn.
  (* the sum before rounding *)
  unfold SFadd.
  replace (Z.min (j - 53) eq) with eq by lia.
  assert (Hal1 : fst (shl_align (normalise ps) (j - 53) eq) = Z.to_pos (Z.pos ps * Z0 * P)).
  { unfold shl_align. destruct (eq - (j - 53)) as [|d|d] eqn:Hsub; try lia.
    cbn [fst]. apply Pos2Z.inj. rewrite iter_xO, Hn, Z2Pos.id by lia.
    f_equal. unfold P. f_equal. unfold sh. lia. }
  assert (Hal2 : fst (shl_align mq eq eq) = mq).
  { unfold shl_align. rewrite Z.sub_diag. reflexivity. }
  rewrite Hal1, Hal2, cond_Zopp_add.
  set (M := Z.pos ps * Z0 * P + Z.pos mq).
  assert (HMpos : 0 < Z.pos ps * Z0 * P) by lia.
  rewrite Z2Pos.id by lia. fold M.
  assert (HM0 : 0 < M) by (unfold M; lia).
  replace M with (Z.pos (Z.to_pos M)) by (apply Z2Pos.id; lia).
  rewrite binary_normalize_signed.
  (* its number of digits *)
  assert (HmqY : Z.pos mq < Z0 * P).
  { rewrite <- HY. change (2 ^ 30) with 1073741824 in Hfrac.
    assert (0 < 2 ^ (- eq)) by (apply Z.pow_pos_nonneg; lia). lia. }
  assert (HMlo : 2 ^ (j - 1) * (Z0 * P) <= M).
  { unfold M. assert (2 ^ (j - 1) * (Z0 * P) <= Z.pos ps * (Z0 * P))
      by (apply Z.mul_le_mono_nonneg_r; lia). lia. }
  assert (HMhi : M < 2 ^ j * (Z0 * P)).
  { unfold M. assert ((Z.pos ps + 1) * (Z0 * P) <= 2 ^ j * (Z0 * P))
      by (apply Z.mul_le_mono_nonneg_r; lia). lia. }
  assert (HD : Zdigits2 M = 53 + sh).
  { apply Zdigits2_unique; [|exact HM0].
    replace (53 + sh - 1) with (52 + sh) by lia.
    rewrite !Z.pow_add_r by lia. fold P. rewrite <- HjZ, <- HjZ'. lia. }
  unfold binary_round.
  change (Z.pos (digits2_pos (Z.to_pos M))) with (Zdigits2 (Z.pos (Z.to_pos M))).
  rewrite Z2Pos.id by lia. rewrite HD.
  rewrite shl_align_noop by (unfold fexp, emin, sh; lia).
  destruct (binary_round_aux_spec s M eq loc_Exact HM0 ltac:(lia) ltac:(lia) ltac:(lia))
    as (m2 & e2 & Hres & Hm2 & Hcases).
  rewrite (Z2Pos.id M) by lia. rewrite Hres. rewrite HD in Hcases. replace (53 + sh - 53) with sh in Hcases by lia.
  fold P in Hcases.
  (* quotient and remainder of the sum by the shift *)
  set (b := Z.pos mq / P).
  assert (Hb : Z.pos mq = P * b + Z.pos mq mod P) by (apply Z.div_mod; lia).
  pose proof (Z.mod_pos_bound (Z.pos mq) P HP) as Hrem.
  assert (Ha : M / P = Z.pos ps * Z0 + b).
  { unfold M, b. rewrite Z.add_comm, Z.div_add by lia. lia. }
  assert (Hmod : M mod P = Z.pos mq mod P).
  { unfold M. rewrite Z.add_comm, Z.mod_add by lia. reflexivity. }
  rewrite Ha, Hmod in Hcases.
  assert (Hb0 : 0 <= b) by (apply Z.div_pos; lia).
  assert (HbZ : b < Z0).
  { apply Z.div_lt_upper_bound; lia. }
  (* rounding up leaves room below the next whole second *)
  assert (Hup : 2 ^ (sh - 1) <= Z.pos mq mod P -> b + 1 < Z0).
  { intros Hhalf. set (H := 2 ^ (sh - 1)) in *.
    assert (HPH : P = 2 * H) by (unfold P, H; apply pow2_pred; lia).
    assert (HH : 0 < H) by (unfold H; apply Z.pow_pos_nonneg; lia).
    rewrite HY in Hfrac. change (2 ^ 30) with 1073741824 in Hfrac.
    change (2 ^ 29) with 536870912 in HZ0.
    assert (Hx : (2 * b + 1) * 536870912 * (2 * H) < (1073741824 - 1) * Z0 * (2 * H)).
    { set (R := Z.pos mq mod P) in *. rewrite HPH in Hb, Hfrac.
      assert ((2 * H * b + H) * 1073741824 <= Z.pos mq * 1073741824) by lia.
      lia. }
    apply Z.mul_lt_mono_pos_r in Hx; lia. }
  assert (He2 : e2 = j - 53 /\ Z.pos ps * Z0 <= Z.pos m2 < (Z.pos ps + 1) * Z0).
  { destruct Hcases as [[Hm He]|[Hhalf [[Hm He]|[Hov [Hm He]]]]].
    - split; [unfold sh in *; lia | lia].
    - specialize (Hup (Hhalf ltac:(lia))). split; [unfold sh in *; lia | lia].
    - specialize (Hup (Hhalf ltac:(lia))). exfalso.
      assert ((Z.pos ps + 1) * Z0 <= 2 ^ j * Z0)
        by (apply Z.mul_le_mono_nonneg_r; lia).
      lia. }
  destruct He2 as [-> Hbounds].
  rewrite truncate_finite_neg by lia.
  replace (- (j - 53)) with (53 - j) by lia. fold Z0.
  f_equal. f_equal.
  symmetry. apply Z.div_unique with (Z.pos m2 - Z.pos ps * Z0); lia.
Qed.

Lemma float64OfInt_signed (s : bool) (p : positive) :
  float64OfInt (cond_Zopp s (Z.pos p)) = binary_round 53 1024 s p 0.
Proof. destruct s; reflexivity. Qed.

Lemma quot_rem_signed (s : bool) (p : positive) :
  Z.quot (cond_Zopp s (Z.pos p)) Second = cond_Zopp s (Z.pos p / Second)
  /\ Z.rem (cond_Zopp s (Z.pos p)) Second = cond_Zopp s (Z.pos p mod Second).
Proof.
  unfold Second. destruct s; cbn [cond_Zopp].
  - rewrite Z.quot_opp_l, Z.rem_opp_l by lia.
    rewrite Z.quot_div_nonneg, Z.rem_mod_nonneg by lia. split; reflexivity.
  - rewrite Z.quot_div_nonneg, Z.rem_mod_nonneg by lia. split; reflexivity.
Qed.

Lemma truncate_whole (s : bool) (p : positive) :
  Z.pos p < 2 ^ 24 ->
  truncate (binary_round 53 1024 s p 0) = Some (cond_Zopp s (Z.pos p)).
Proof.
  intros Hp.
  assert (Hp53 : Z.pos p < 2 ^ 53) by (simpl in *; lia).
  destruct (normalise_spec p Hp53) as (_ & Hn & _).
  pose proof (digits2_pos_bounds p) as [Hlo _].
  rewrite (binary_round_int s p Hp53).
  set (j := Z.pos (digits2_pos p)) in *.
  assert (Hj24 : j <= 24).
  { destruct (Z.leb_spec j 24); [assumption|].
    assert (2 ^ 24 <= 2 ^ (j - 1)) by (apply Z.pow_le_mono_r; lia). lia. }
  rewrite truncate_finite_neg by lia.
  replace (- (j - 53)) with (53 - j) by lia. rewrite Hn.
  rewrite Z.div_mul by (apply Z.pow_nonzero; lia). reflexivity.
Qed.

Lemma truncate_fraction (s : bool) (m : positive) (e : Z) :
  -83 <= e <= -53 -> Z.pos m * 2 ^ 30 < (2 ^ 30 - 1) * 2 ^ (- e) ->
  truncate (S754_finite s m e) = Some 0.
Proof.
  intros He Hfrac. rewrite truncate_finite_neg by lia.
  assert (0 < 2 ^ (- e)) by (apply Z.pow_pos_nonneg; lia).
  change (2 ^ 30) with 1073741824 in Hfrac.
  rewrite Z.div_small by lia. destruct s; reflexivity.
Qed.

(** The integer part of [d.Seconds()], for a duration of less than
    [2 ^ 24] seconds in absolute value, is its whole number of seconds,
    toward zero. *)
Theorem truncate_Seconds (d : Duration) :
  - (2 ^ 24 * Second) < d < 2 ^ 24 * Second ->
  truncate (Seconds d) = Some (Z.quot d Second).
Proof.
  intros Hd. unfold Seconds.
  assert (Hsigned : d = 0 \/ exists s p, d = cond_Zopp s (Z.pos p)).
  { destruct d as [|p|p]; [left; reflexivity| |].
    - right. exists false, p. reflexivity.
    - right. exists true, p. reflexivity. }
  destruct Hsigned as [->|(s & p & ->)]; [reflexivity|].
  assert (Hp : Z.pos p < 2 ^ 24 * Second) by (destruct s; cbn [cond_Zopp] in Hd; lia).
  destruct (quot_rem_signed s p) as [-> ->].
  rewrite float64OfInt_billion.
  pose proof (Z.mod_pos_bound (Z.pos p) Second ltac:(unfold Second; lia)) as Hrem.
  assert (Hquot : 0 <= Z.pos p / Second < 2 ^ 24).
  { split; [apply Z.div_pos; unfold Second; lia|].
    apply Z.div_lt_upper_bound; unfold Second in *; lia. }
  destruct (Z.pos p / Second) as [|ps|ps] eqn:Hsec; try lia;
    destruct (Z.pos p mod Second) as [|pn|pn] eqn:Hnsec; try lia.
  - (* neither: impossible for a nonzero duration *)
    exfalso. pose proof (Z.div_mod (Z.pos p) Second ltac:(unfold Second; lia)). lia.
  - (* a fraction of a second *)
    replace (cond_Zopp s 0) with 0 by (destruct s; reflexivity).
    rewrite float64OfInt_signed.
    destruct (SFdiv_fraction s pn ltac:(unfold Second in *; lia))
      as (m & e & -> & _ & He & Hfrac).
    change (float64OfInt 0) with (S754_zero false). cbn [SFadd].
    apply truncate_fraction; assumption.
  - (* whole seconds *)
    replace (cond_Zopp s 0) with 0 by (destruct s; reflexivity).
    rewrite float64OfInt_signed.
    assert (Hp53 : Z.pos ps < 2 ^ 53) by (simpl in *; lia).
    rewrite (binary_round_int s ps Hp53).
    change (SFdiv 53 1024 (float64OfInt 0) billion) with (S754_zero false).
    cbn [SFadd]. rewrite <- (binary_round_int s ps Hp53).
    apply truncate_whole. lia.
  - (* whole seconds and a fraction *)
    rewrite !float64OfInt_signed.
    destruct (SFdiv_fraction s pn ltac:(unfold Second in *; lia))
      as (m & e & -> & Hm & He & Hfrac).
    apply SFadd_whole_fraction; [lia | assumption..].
Qed.

End FloatRounding.

(** ** The timeout setters *)

Section TimeoutProperties.

Context `{Machine}.

Lemma int32OfFloat64_Seconds (d : Duration) :
  - (2 ^ 24 * Second) < d < 2 ^ 24 * Second ->
  int32OfFloat64 (Seconds d) = Z.quot d Second.
Proof.
  intros Hd. unfold int32OfFloat64. rewrite (truncate_Seconds d Hd).
  assert (Hq : - 2 ^ 24 < Z.quot d Second < 2 ^ 24).
  { unfold Second in *. change (2 ^ 24) with 16777216 in *.
    pose proof (Z.quot_rem d 1000000000 ltac:(lia)) as Hqr.
    pose proof (Z.rem_bound_abs d 1000000000 ltac:(lia)) as Hb.
    destruct (Z.le_gt_cases 0 d) as [Hpos|Hneg].
    - pose proof (Z.rem_nonneg d 1000000000 ltac:(lia) Hpos). lia.
    - pose proof (Z.rem_nonpos d 1000000000 ltac:(lia) ltac:(lia)). lia. }
  change (2 ^ 24) with 16777216 in Hq. change (2 ^ 31) with 2147483648.
  replace (- (2147483648) <=? Z.quot d Second) with true
    by (symmetry; apply Z.leb_le; lia).
  replace (Z.quot d Second <? 2147483648) with true
    by (symmetry; apply Z.ltb_lt; lia).
  reflexivity.
Qed.

Lemma withField_spec (upd : executeActivityParameters -> executeActivityParameters)
    (ctx : Context) (h : store) :
  optionsWellFormed ctx h ->
  exists (ctx1 : Context) (h1 : store) (before : executeActivityParameters),
    withField upd ctx h = Done ctx1 h1 /\
    (resolve ctx h = Done before h \/
     getActivityOptions ctx = Val None /\ before = zeroParameters) /\
    resolve ctx1 h1 = Done (upd before) h1.
Proof.
  unfold optionsWellFormed. intros Hwf.
  destruct (ctxLookup ctx activityOptionsContextKey) as [[l|env|v]|] eqn:Hctx;
    try contradiction.
  - destruct Hwf as [p Hl].
    assert (Hopt : getActivityOptions ctx = Val (Some l))
      by (apply getActivityOptions_Some; exact Hctx).
    exists ctx, (<[l := upd p]> h), p. split.
    { unfold withField, setActivityParametersIfNotExist, bind, lift, ret.
      rewrite Hopt. cbv beta iota. rewrite Hopt.
      rewrite (assign_bound _ _ _ _ Hl). reflexivity. }
    split; [left; apply (resolve_bound _ _ _ _ Hopt Hl)|].
    apply (resolve_bound _ _ _ _ Hopt). eapply lookup_after_insert. exact Hl.
  - assert (Hopt : getActivityOptions ctx = Val None)
      by (apply getActivityOptions_absent; exact Hctx).
    exists (WithValue ctx activityOptionsContextKey (VParams (length h))),
           (h ++ [upd zeroParameters]), zeroParameters. split.
    { unfold withField, setActivityParametersIfNotExist, bind, lift, ret, new.
      rewrite Hopt. cbv beta iota. rewrite getActivityOptions_bound.
      rewrite (assign_bound _ _ _ _ (store_snoc_lookup h zeroParameters)).
      rewrite store_snoc_insert. reflexivity. }
    split; [right; split; [exact Hopt | reflexivity]|].
    apply (resolve_bound _ _ _ _ (getActivityOptions_bound _ _)).
    apply store_snoc_lookup.
Qed.

Lemma resolve_inv (ctx : Context) (h h' : store) (p : executeActivityParameters) :
  resolve ctx h = Done p h' ->
  exists l : loc, getActivityOptions ctx = Val (Some l) /\ h !! l = Some p.
Proof.
  unfold resolve, bind, lift, deref.
  destruct (getActivityOptions ctx) as [[l|]|v]; try discriminate.
  destruct (h !! l) as [q|] eqn:Hl; try discriminate.
  intros Heq. injection Heq as <- _. exists l. split; [reflexivity | exact Hl].
Qed.

(** A configuration in which a mandatory timeout is not positive is
    refused before scheduling. *)
Lemma validation_rejects_nonpositive (ctx : Context) (h : store)
    (p : executeActivityParameters) :
  resolve ctx h = Done p h ->
  ScheduleToCloseTimeoutSeconds p <= 0 \/
  ScheduleToStartTimeoutSeconds p <= 0 \/
  StartToCloseTimeoutSeconds p <= 0 ->
  exists e : error, getValidatedActivityOptions ctx h = Done (None, Some e) h.
Proof.
  intros Hres Hbad. destruct (resolve_inv _ _ _ _ Hres) as (l & Hopt & Hl).
  rewrite (getValidatedActivityOptions_bound _ _ _ _ Hopt Hl). unfold timeoutVerdict.
  destruct (Z.leb_spec (ScheduleToStartTimeoutSeconds p) 0); [eexists; reflexivity|].
  destruct (Z.leb_spec (ScheduleToCloseTimeoutSeconds p) 0); [eexists; reflexivity|].
  destruct (Z.leb_spec (StartToCloseTimeoutSeconds p) 0); [eexists; reflexivity|].
  lia.
Qed.

(** C9, as amended. Every timeout setter stores [int32(d.Seconds())]; for
    a duration of less than [2 ^ 24] seconds in absolute value that is the
    duration truncated toward zero to whole seconds, in the four
    context-based setters (in the configuration the resulting context
    resolves to) and in the four builder setters; a duration of less than
    one second is therefore stored as 0; and a configuration in which one
    of the three mandatory timeouts is 0 is refused by the validation. *)
Theorem timeout_setters_store_whole_seconds (d : Duration) :
  - (2 ^ 24 * Second) < d < 2 ^ 24 * Second ->
  let secs := Z.quot d Second in
  (forall (ctx : Context) (h : store),
     optionsWellFormed ctx h ->
     (exists ctx1 h1 p,
        WithScheduleToCloseTimeout ctx d h = Done ctx1 h1 /\
        resolve ctx1 h1 = Done p h1 /\ ScheduleToCloseTimeoutSeconds p = secs) /\
     (exists ctx1 h1 p,
        WithScheduleToStartTimeout ctx d h = Done ctx1 h1 /\
        resolve ctx1 h1 = Done p h1 /\ ScheduleToStartTimeoutSeconds p = secs) /\
     (exists ctx1 h1 p,
        WithStartToCloseTimeout ctx d h = Done ctx1 h1 /\
        resolve ctx1 h1 = Done p h1 /\ StartToCloseTimeoutSeconds p = secs) /\
     (exists ctx1 h1 p,
        WithHeartbeatTimeout ctx d h = Done ctx1 h1 /\
        resolve ctx1 h1 = Done p h1 /\ HeartbeatTimeoutSeconds p = secs))
  /\ (forall ab : activityOptions,
        scheduleToCloseTimeoutSeconds (ab_WithScheduleToCloseTimeout ab d) = Some secs /\
        scheduleToStartTimeoutSeconds (ab_WithScheduleToStartTimeout ab d) = Some secs /\
        startToCloseTimeoutSeconds (ab_WithStartToCloseTimeout ab d) = Some secs /\
        heartbeatTimeoutSeconds (ab_WithHeartbeatTimeout ab d) = Some secs)
  /\ (- Second < d < Second -> secs = 0)
  /\ (forall (ctx : Context) (h : store) (p : executeActivityParameters),
        resolve ctx h = Done p h ->
        ScheduleToCloseTimeoutSeconds p = 0 \/
        ScheduleToStartTimeoutSeconds p = 0 \/
        StartToCloseTimeoutSeconds p = 0 ->
        exists e : error, getValidatedActivityOptions ctx h = Done (None, Some e) h).
Proof.
  intros Hd secs. pose proof (int32OfFloat64_Seconds d Hd) as Hstored. fold secs in Hstored.
  split; [|split; [|split]].
  - intros ctx h Hwf. repeat split.
    + destruct (withField_spec
                  (setScheduleToCloseTimeoutSeconds (int32OfFloat64 (Seconds d)))
                  ctx h Hwf) as (ctx1 & h1 & before & Hrun & _ & Hres).
      exists ctx1, h1, (setScheduleToCloseTimeoutSeconds (int32OfFloat64 (Seconds d)) before).
      split; [exact Hrun|]. split; [exact Hres | exact Hstored].
    + destruct (withField_spec
                  (setScheduleToStartTimeoutSeconds (int32OfFloat64 (Seconds d)))
                  ctx h Hwf) as (ctx1 & h1 & before & Hrun & _ & Hres).
      exists ctx1, h1, (setScheduleToStartTimeoutSeconds (int32OfFloat64 (Seconds d)) before).
      split; [exact Hrun|]. split; [exact Hres | exact Hstored].
    + destruct (withField_spec
                  (setStartToCloseTimeoutSeconds (int32OfFloat64 (Seconds d)))
                  ctx h Hwf) as (ctx1 & h1 & before & Hrun & _ & Hres).
      exists ctx1, h1, (setStartToCloseTimeoutSeconds (int32OfFloat64 (Seconds d)) before).
      split; [exact Hrun|]. split; [exact Hres | exact Hstored].
    + destruct (withField_spec
                  (setHeartbeatTimeoutSeconds (int32OfFloat64 (Seconds d)))
                  ctx h Hwf) as (ctx1 & h1 & before & Hrun & _ & Hres).
      exists ctx1, h1, (setHeartbeatTimeoutSeconds (int32OfFloat64 (Seconds d)) before).
      split; [exact Hrun|]. split; [exact Hres | exact Hstored].
  - intros ab. cbn. rewrite Hstored. repeat split.
  - intros Hsub. unfold secs, Second in *. apply Z.quot_small_iff; lia.
  - intros ctx h p Hres Hzero. apply (validation_rejects_nonpositive ctx h p Hres). lia.
Qed.

End TimeoutProperties.

Lemma timeout_setters_store_whole_seconds_witness :
  (* five seconds, and half a second, through the builder *)
  scheduleToCloseTimeoutSeconds
    (@ab_WithScheduleToCloseTimeout Fixtures.amd64 NewActivityOptions 5000000000) = Some 5
  /\ scheduleToCloseTimeoutSeconds
       (@ab_WithScheduleToCloseTimeout Fixtures.amd64 NewActivityOptions 500000000) = Some 0
  (* half a second through the context: stored as 0 *)
  /\ (exists ctx1 h1 p,
        @WithScheduleToStartTimeout Fixtures.amd64 Background 500000000 [] = Done ctx1 h1 /\
        resolve ctx1 h1 = Done p h1 /\
        ScheduleToStartTimeoutSeconds p = 0).
Proof.
  split; [|split].
  - exact (proj1 (proj1 (proj2 (@timeout_setters_store_whole_seconds Fixtures.amd64
             5000000000 ltac:(vm_compute; split; reflexivity))) NewActivityOptions)).
  - exact (proj1 (proj1 (proj2 (@timeout_setters_store_whole_seconds Fixtures.amd64
             500000000 ltac:(vm_compute; split; reflexivity))) NewActivityOptions)).
  - exact (proj1 (proj2 (proj1 (@timeout_setters_store_whole_seconds Fixtures.amd64
             500000000 ltac:(vm_compute; split; reflexivity)) Background [] I))).
Defined.

(** What the setters store on some durations: 5s, 999999999ns, -0.5s,
    8388607.999999999s, and a duration just above [2 ^ 24] seconds on
    which the rounding of the sum shows. *)
Example stored_seconds_samples :
  @int32OfFloat64 Fixtures.amd64 (Seconds 5000000000) = 5
  /\ @int32OfFloat64 Fixtures.amd64 (Seconds 999999999) = 0
  /\ @int32OfFloat64 Fixtures.amd64 (Seconds (-500000000)) = 0
  /\ @int32OfFloat64 Fixtures.amd64 (Seconds 8388607999999999) = 8388607
  /\ @int32OfFloat64 Fixtures.amd64 (Seconds 16777216999999999) = 16777217.
Proof. vm_compute. repeat split. Qed.

(** C9, as stated, fails on a duration of 16777216.999999999 seconds:
    its float64 number of seconds rounds to 16777217, and that is what the
    setter stores, not the 16777216 whole seconds of the duration. *)
Lemma timeout_not_truncated_beyond_2_24_seconds :
  ~ (forall (machine : Machine) (d : Duration) (ab : activityOptions),
       0 <= d < 2 ^ 31 * Second ->
       scheduleToCloseTimeoutSeconds (@ab_WithScheduleToCloseTimeout machine ab d)
       = Some (Z.quot d Second)).
Proof.
  intros Hall.
  specialize (Hall Fixtures.amd64 16777216999999999 NewActivityOptions
                ltac:(vm_compute; split; [discriminate | reflexivity])).
  vm_compute in Hall. discriminate Hall.
Qed.

(** * Further properties *)

(** ** The validator on nil and on typed arguments *)

Section ValidatorEdges.

Context `{Reflection} `{Package}.

Lemma checkArgs_typed (params : list rtype) :
  forall (args : list iface) (position : nat),
    Forall (fun arg : iface => arg <> None) args ->
    exists r, checkArgs params args position = Val r.
Proof.
  induction params as [|t ps IH]; intros [|a rest] k Htyped;
    try (eexists; reflexivity).
  inversion Htyped as [|? ? Ha Hrest]; subst. simpl.
  destruct a as [gv|]; [|congruence]. simpl.
  destruct (AssignableTo (dynType gv) t); simpl; [|eexists; reflexivity].
  apply IH. exact Hrest.
Qed.

(** X1. On a non-nil [f] and arguments none of which is the nil
    interface, [validateFunctionArgs] returns (nil or an error): it never
    panics. *)
Theorem validateFunctionArgs_typed_returns
    (gv : GoValue) (args : list iface) (isWorkflow : bool) :
  Forall (fun arg : iface => arg <> None) args ->
  exists r, validateFunctionArgs (Some gv) args isWorkflow = Val r.
Proof.
  intros Htyped.
  destruct (reflect.Kind_eqb (typeKind (dynType gv)) reflect.Func) eqn:Hk.
  - apply Kind_eqb_eq in Hk. rewrite (validateFunctionArgs_func _ _ _ Hk).
    destruct (length (nonContextParams (dynType gv) isWorkflow) =? length args)%nat.
    + apply checkArgs_typed. exact Htyped.
    + eexists. reflexivity.
  - unfold validateFunctionArgs. simpl. rewrite Hk. eexists. reflexivity.
Qed.

(** X2. When the count of arguments is right and the arguments before
    position [i] are assignable, an argument at [i] that is the nil
    interface makes [validateFunctionArgs] panic with a nil dereference
    instead of returning an error; a nil [f] panics in the same way. *)
Theorem validateFunctionArgs_nil_panics
    (gv : GoValue) (args : list iface) (isWorkflow : bool) (i : nat) :
  typeKind (dynType gv) = reflect.Func ->
  length (nonContextParams (dynType gv) isWorkflow) = length args ->
  Forall2 assignableArg (take i args) (take i (nonContextParams (dynType gv) isWorkflow)) ->
  args !! i = Some None ->
  validateFunctionArgs (Some gv) args isWorkflow = Pan nilDeref
  /\ validateFunctionArgs None args isWorkflow = Pan nilDeref.
Proof.
  intros Hk Hlen Hpre Hnil. split; [|reflexivity].
  rewrite (validateFunctionArgs_func _ _ _ Hk).
  apply Nat.eqb_eq in Hlen. rewrite Hlen. apply Nat.eqb_eq in Hlen.
  assert (Hlt : (i < length (nonContextParams (dynType gv) isWorkflow))%nat).
  { rewrite Hlen. apply lookup_lt_Some in Hnil. exact Hnil. }
  apply lookup_lt_is_Some in Hlt. destruct Hlt as [t Ht].
  exact (checkArgs_untyped_nil _ _ _ i t Hpre Hnil Ht).
Qed.

End ValidatorEdges.

Lemma validateFunctionArgs_typed_returns_witness :
  exists r,
    @validateFunctionArgs Fixtures.sampleReflection Fixtures.samplePackage
      Fixtures.sampleActivity [Fixtures.strQ; Fixtures.aChannel; Fixtures.int42] false
    = Val r.
Proof.
  apply (@validateFunctionArgs_typed_returns Fixtures.sampleReflection
           Fixtures.samplePackage).
  repeat constructor; discriminate.
Defined.

Lemma validateFunctionArgs_nil_panics_witness :
  @validateFunctionArgs Fixtures.sampleReflection Fixtures.samplePackage
    Fixtures.sampleActivity [Fixtures.int42; None] false
  = Pan nilDeref.
Proof.
  refine (proj1 (@validateFunctionArgs_nil_panics Fixtures.sampleReflection
                   Fixtures.samplePackage
                   {| dynType := MkType "func(context.Context, int, string) (string, error)"
                        reflect.Func [contextElem; Fixtures.tInt; Fixtures.tString]
                        [Fixtures.tString; errorElem];
                      repr := "sampleActivity" |}
                   [Fixtures.int42; None] false 1%nat eq_refl eq_refl _ eq_refl)).
  repeat constructor. eexists. split; reflexivity.
Defined.

(** ** An activity given by function or by name *)

Section ActivityByNameOrFunction.

Context `{Reflection} `{Package} `{Host}.

Lemma validateFunctionArgs_ok_iff (gv : GoValue) (args : list iface) (isWorkflow : bool) :
  typeKind (dynType gv) = reflect.Func ->
  (validateFunctionArgs (Some gv) args isWorkflow = Val None <->
   length (nonContextParams (dynType gv) isWorkflow) = length args /\
   Forall2 assignableArg args (nonContextParams (dynType gv) isWorkflow)).
Proof.
  intros Hk. rewrite (validateFunctionArgs_func _ _ _ Hk).
  destruct (length (nonContextParams (dynType gv) isWorkflow) =? length args)%nat eqn:Hlen.
  - apply Nat.eqb_eq in Hlen. rewrite (checkArgs_ok_iff _ _ _ Hlen). tauto.
  - apply Nat.eqb_neq in Hlen. split; [discriminate | tauto].
Qed.

(** X3. For a function value, [getValidatedActivityFunction] succeeds
    exactly when the arguments are as many as the declared non-context
    parameters of an activity, each is assignable to its parameter, and
    the argument list encodes; the activity type then carries the
    function's name and the input is the encoding of the arguments. *)
Theorem getValidatedActivityFunction_function
    (gv : GoValue) (args : list iface) (at_ : ActivityType) (input : bytes) :
  typeKind (dynType gv) = reflect.Func ->
  (getValidatedActivityFunction (Some gv) args = Val (Some at_, input, None) <->
   length (nonContextParams (dynType gv) false) = length args /\
   Forall2 assignableArg args (nonContextParams (dynType gv) false) /\
   encodeArgs args = inl input /\
   at_ = {| Name := getFunctionName (Some gv) |}).
Proof.
  intros Hk. pose proof (validateFunctionArgs_ok_iff gv args false Hk) as Hiff.
  unfold getValidatedActivityFunction. simpl. rewrite Hk.
  destruct (validateFunctionArgs (Some gv) args false) as [[e|]|pv]; simpl.
  - split; [discriminate|]. intros (Hlen & Hall & _).
    assert (Habs : Val (Some e) = Val None) by (apply Hiff; split; assumption).
    discriminate Habs.
  - destruct (proj1 Hiff eq_refl) as [Hlen Hall].
    destruct (encodeArgs args) as [data|e].
    + split.
      * intros Heq. injection Heq as <- <-. repeat split; assumption.
      * intros (_ & _ & Henc & ->). injection Henc as ->. reflexivity.
    + split; [discriminate | intros (_ & _ & Habs & _); discriminate].
  - split; [discriminate|]. intros (Hlen & Hall & _).
    assert (Habs : Pan pv = Val None) by (apply Hiff; split; assumption).
    discriminate Habs.
Qed.

(** X4. For an activity given by its name, the arguments are not checked
    against any signature: [getValidatedActivityFunction] never panics,
    and it succeeds exactly when the argument list encodes, with the
    string as the activity type's name. *)
Theorem getValidatedActivityFunction_name
    (gv : GoValue) (args : list iface) :
  typeKind (dynType gv) = reflect.String ->
  (exists r, getValidatedActivityFunction (Some gv) args = Val r) /\
  (forall (at_ : ActivityType) (input : bytes),
     getValidatedActivityFunction (Some gv) args = Val (Some at_, input, None) <->
     encodeArgs args = inl input /\ at_ = {| Name := repr gv |}).
Proof.
  intros Hk. unfold getValidatedActivityFunction. simpl. rewrite Hk. simpl.
  destruct (encodeArgs args) as [data|e].
  - split; [eexists; reflexivity|]. intros at_ input. split.
    + intros Heq. injection Heq as <- <-. split; reflexivity.
    + intros [Henc ->]. injection Henc as ->. reflexivity.
  - split; [eexists; reflexivity|]. intros at_ input.
    split; [discriminate | intros [Habs _]; discriminate].
Qed.

(** X5. [getValidatedActivityFunction] refuses a value that is neither a
    string nor a function whatever the arguments, and refuses a function
    called with a wrong number of arguments with the validator's arity
    error, also when the arguments would not encode: the signature is
    checked before anything is encoded. *)
Theorem getValidatedActivityFunction_rejections (gv : GoValue) (args : list iface) :
  (typeKind (dynType gv) <> reflect.String ->
   typeKind (dynType gv) <> reflect.Func ->
   getValidatedActivityFunction (Some gv) args
   = Val (None, [], Some (invalidActivityError (Some gv))))
  /\ (typeKind (dynType gv) = reflect.Func ->
      length (nonContextParams (dynType gv) false) <> length args ->
      getValidatedActivityFunction (Some gv) args
      = Val (None, [],
             Some (arityError (length (nonContextParams (dynType gv) false))
                     (Some gv) args))).
Proof.
  split.
  - intros Hs Hf. unfold getValidatedActivityFunction. simpl.
    destruct (typeKind (dynType gv)); try reflexivity; congruence.
  - intros Hk Hlen. unfold getValidatedActivityFunction. simpl.
    rewrite Hk, (validateFunctionArgs_func _ _ _ Hk).
    apply Nat.eqb_neq in Hlen. rewrite Hlen. reflexivity.
Qed.

(** X6. [validateFunctionResults] returns a payload without an error
    exactly when [f] is a string, or a function whose declared shape the
    format check accepts, and the result is nil, with the empty payload,
    or encodes, with its encoding; a nil result is never handed to the
    encoder. *)
Theorem validateFunctionResults_accepts
    (gv : GoValue) (result : iface) (data : bytes) :
  validateFunctionResults (Some gv) result = Val (data, None) <->
  (typeKind (dynType gv) = reflect.String \/
   typeKind (dynType gv) = reflect.Func /\ validateFnFormat (dynType gv) false = None) /\
  (result = None /\ data = [] \/
   result <> None /\ encodeArg result = inl data).
Proof.
  unfold validateFunctionResults. simpl.
  destruct (typeKind (dynType gv)) eqn:Hk;
    try (split; [discriminate
                | intros [[Habs|[Habs _]] _]; discriminate]).
  - destruct (validateFnFormat (dynType gv) false) as [e|] eqn:Hfmt.
    + split; [discriminate|]. intros [[Habs|[_ Habs]] _]; discriminate.
    + destruct result as [rv|].
      * destruct (encodeArg (Some rv)) as [d|e] eqn:Henc.
        -- split.
           ++ intros Heq. injection Heq as <-. split; [right; split; reflexivity|].
              right. split; [discriminate | reflexivity].
           ++ intros [_ [[Habs _]|[_ Heq]]]; [discriminate|]. congruence.
        -- split; [discriminate|].
           intros [_ [[Habs _]|[_ Heq]]]; discriminate.
      * split.
        -- intros Heq. injection Heq as <-. split; [right; split; reflexivity|].
           left. split; reflexivity.
        -- intros [_ [[_ ->]|[Habs _]]]; [reflexivity | congruence].
  - destruct result as [rv|].
    + destruct (encodeArg (Some rv)) as [d|e] eqn:Henc.
      * split.
        -- intros Heq. injection Heq as <-. split; [left; reflexivity|].
           right. split; [discriminate | reflexivity].
        -- intros [_ [[Habs _]|[_ Heq]]]; [discriminate|]. congruence.
      * split; [discriminate|].
        intros [_ [[Habs _]|[_ Heq]]]; discriminate.
    + split.
      * intros Heq. injection Heq as <-. split; [left; reflexivity|].
        left. split; reflexivity.
      * intros [_ [[_ ->]|[Habs _]]]; [reflexivity | congruence].
Qed.

End ActivityByNameOrFunction.

Lemma getValidatedActivityFunction_function_witness :
  @getValidatedActivityFunction Fixtures.sampleReflection Fixtures.samplePackage
    Fixtures.sampleActivity [Fixtures.int42; Fixtures.strQ]
  = Val (Some {| Name := "sampleActivity" |}, list_byte_of_string "42q", None).
Proof.
  apply (proj2 (@getValidatedActivityFunction_function Fixtures.sampleReflection
                  Fixtures.samplePackage
                  {| dynType := MkType "func(context.Context, int, string) (string, error)"
                       reflect.Func [contextElem; Fixtures.tInt; Fixtures.tString]
                       [Fixtures.tString; errorElem];
                     repr := "sampleActivity" |}
                  [Fixtures.int42; Fixtures.strQ]
                  {| Name := "sampleActivity" |} (list_byte_of_string "42q") eq_refl)).
  split; [reflexivity|]. split; [|split; reflexivity].
  repeat constructor; eexists; split; reflexivity.
Defined.

Lemma getValidatedActivityFunction_name_witness :
  (* by name, three arguments pass where the function takes two *)
  @getValidatedActivityFunction Fixtures.sampleReflection Fixtures.samplePackage
    Fixtures.sampleName [Fixtures.strQ; Fixtures.strQ; Fixtures.strQ]
  = Val (Some {| Name := "sampleActivity" |}, list_byte_of_string "qqq", None).
Proof.
  apply (proj2 (proj2 (@getValidatedActivityFunction_name Fixtures.sampleReflection
                         Fixtures.samplePackage
                         {| dynType := Fixtures.tString; repr := "sampleActivity" |}
                         [Fixtures.strQ; Fixtures.strQ; Fixtures.strQ] eq_refl)
                  {| Name := "sampleActivity" |} (list_byte_of_string "qqq"))).
  split; reflexivity.
Defined.

Lemma getValidatedActivityFunction_rejections_witness :
  (* a number is not an activity *)
  (exists e, @getValidatedActivityFunction Fixtures.sampleReflection Fixtures.samplePackage
               Fixtures.int42 [] = Val (None, [], Some e))
  (* one argument too few, and a channel that would not encode *)
  /\ (exists name,
        @getValidatedActivityFunction Fixtures.sampleReflection Fixtures.samplePackage
          Fixtures.sampleActivity [Fixtures.aChannel]
        = Val (None, [],
               Some (fmtErrorf "expected %d args for function: %v but found %v"
                       [ArgInt 2; ArgString name; ArgInt 1]))).
Proof.
  split.
  - eexists.
    apply (proj1 (@getValidatedActivityFunction_rejections Fixtures.sampleReflection
                    Fixtures.samplePackage
                    {| dynType := Fixtures.tInt; repr := "42" |} []));
      discriminate.
  - eexists.
    apply (proj2 (@getValidatedActivityFunction_rejections Fixtures.sampleReflection
                    Fixtures.samplePackage
                    {| dynType := MkType "func(context.Context, int, string) (string, error)"
                         reflect.Func [contextElem; Fixtures.tInt; Fixtures.tString]
                         [Fixtures.tString; errorElem];
                       repr := "sampleActivity" |}
                    [Fixtures.aChannel]) eq_refl).
    simpl. lia.
Defined.

(** ** Decoding a result *)

Section Decoding.

Context `{Host}.

(** X7. For a function type, the decoder is consulted exactly when the
    function declares two results and the payload is not nil, and its
    outcome is then the outcome of the call; in every other case (a single
    result, three results or more, a nil payload) the call returns nil and
    leaves the target as it is. *)
Theorem deSerializeFnResultFromFnType_decodes_when_due
    (t : rtype) (result : option bytes) (to : nat) (cells : list iface) :
  typeKind t = reflect.Func ->
  (length (typeOuts t) = 2%nat -> result <> None ->
   deSerializeFnResultFromFnType (Some t) result to cells = decodeArg result to cells)
  /\ (length (typeOuts t) <> 2%nat \/ result = None ->
      deSerializeFnResultFromFnType (Some t) result to cells = Done None cells).
Proof.
  intros Hk. unfold deSerializeFnResultFromFnType, NumOut. rewrite Hk.
  cbn [reflect.Kind_eqb negb]. unfold bind, lift, ret.
  split.
  - intros Hlen Hres. rewrite Hlen. cbn [Nat.leb Nat.eqb].
    destruct result as [b|]; [|congruence].
    destruct (decodeArg (Some b) to cells) as [[e|] c|pv c]; reflexivity.
  - intros Hcase.
    destruct (length (typeOuts t) <=? 1)%nat eqn:Hle; [reflexivity|].
    destruct (length (typeOuts t) =? 2)%nat eqn:Heq; [|reflexivity].
    apply Nat.eqb_eq in Heq. destruct Hcase as [Hne| ->]; [congruence | reflexivity].
Qed.

(** X8. An activity result requested by the name of a registered function
    is decoded as it is for the function itself; for a name that is not
    registered the payload goes to the decoder as it is, nil or not. *)
Theorem deSerializeFunctionResult_by_name
    (name : GoValue) (result : option bytes) (to : nat) (cells : list iface) :
  typeKind (dynType name) = reflect.String ->
  (forall fn : GoValue,
     getActivityFn (repr name) = Some (Some fn) ->
     typeKind (dynType fn) = reflect.Func ->
     deSerializeFunctionResult (Some name) result to cells
     = deSerializeFunctionResult (Some fn) result to cells)
  /\ (getActivityFn (repr name) = None ->
      deSerializeFunctionResult (Some name) result to cells = decodeArg result to cells).
Proof.
  intros Hs. unfold deSerializeFunctionResult.
  change (TypeOf (Some name)) with (Some (dynType name)).
  change (TypeOf (Some name)) with (Some (dynType name)). cbv beta iota.
  change (stringOf (Some name)) with (repr name). rewrite Hs. split.
  - intros fn Hreg Hk. rewrite Hreg.
    change (TypeOf (Some fn)) with (Some (dynType fn)). cbv beta iota.
    destruct (typeKind (dynType fn)); try discriminate Hk. reflexivity.
  - intros Hreg. rewrite Hreg. reflexivity.
Qed.

End Decoding.

Lemma deSerializeFnResultFromFnType_decodes_when_due_witness :
  (* func(int) error: the payload is ignored *)
  @deSerializeFnResultFromFnType Fixtures.sampleHost
    (TypeOf Fixtures.plainActivity) (Some (list_byte_of_string "ok")) 0 [None]
  = Done None [None]
  (* func(context.Context, int, string) (string, error): it is decoded *)
  /\ @deSerializeFnResultFromFnType Fixtures.sampleHost
       (TypeOf Fixtures.sampleActivity) (Some (list_byte_of_string "ok")) 0 [None]
     = Done None [Some {| dynType := Fixtures.tString; repr := "ok" |}].
Proof.
  split.
  - apply (proj2 (@deSerializeFnResultFromFnType_decodes_when_due Fixtures.sampleHost
                    (MkType "func(int) error" reflect.Func [Fixtures.tInt] [errorElem])
                    (Some (list_byte_of_string "ok")) 0 [None] eq_refl)).
    left. simpl. lia.
  - refine (eq_trans
              (proj1 (@deSerializeFnResultFromFnType_decodes_when_due Fixtures.sampleHost
                        (MkType "func(context.Context, int, string) (string, error)"
                           reflect.Func [contextElem; Fixtures.tInt; Fixtures.tString]
                           [Fixtures.tString; errorElem])
                        (Some (list_byte_of_string "ok")) 0 [None] eq_refl)
                 eq_refl _) _).
    + discriminate.
    + reflexivity.
Defined.

Lemma deSerializeFunctionResult_by_name_witness :
  @deSerializeFunctionResult Fixtures.sampleHost
    Fixtures.sampleName (Some (list_byte_of_string "ok")) 0 [None]
  = @deSerializeFunctionResult Fixtures.sampleHost
      Fixtures.sampleActivity (Some (list_byte_of_string "ok")) 0 [None].
Proof.
  exact (proj1 (@deSerializeFunctionResult_by_name Fixtures.sampleHost
                  {| dynType := Fixtures.tString; repr := "sampleActivity" |}
                  (Some (list_byte_of_string "ok")) 0 [None] eq_refl)
           {| dynType := MkType "func(context.Context, int, string) (string, error)"
                reflect.Func [contextElem; Fixtures.tInt; Fixtures.tString]
                [Fixtures.tString; errorElem];
              repr := "sampleActivity" |}
           eq_refl eq_refl).
Defined.

(** ** Binding the environment, and the heartbeat's trace *)

Section EnvironmentBinding.

(** X9. [WithActivityTask] followed by the accessors is a round trip: the
    information read back is the task's token, activity ID, activity type
    name and workflow execution, and the logger is the one passed,
    whatever the context bound before, also another environment; and
    every other key of the context is bound as before. *)
Theorem WithActivityTask_round_trip
    (ctx : Context) (t : PollForActivityTaskResponse) (invoker : ServiceInvoker)
    (log : Logger) (aid name wid rid : string) :
  respActivityId t = Some aid ->
  respActivityTypeName t = Some (Some name) ->
  respWorkflowExecution t = Some (Some wid, Some rid) ->
  exists ctx1 : Context,
    WithActivityTask ctx (Some t) invoker log = Val ctx1 /\
    GetActivityInfo ctx1
    = Val {| TaskToken := respTaskToken t;
             InfoWorkflowExecution := {| ID := wid; RunID := rid |};
             InfoActivityID := aid;
             InfoActivityType := {| Name := name |} |} /\
    GetActivityLogger ctx1 = Val log /\
    (forall key : string,
       key <> activityEnvContextKey -> ctxLookup ctx1 key = ctxLookup ctx key).
Proof.
  intros Haid Hname Hwe. unfold WithActivityTask. simpl.
  rewrite Hname, Haid, Hwe. simpl. eexists. split; [reflexivity|].
  split; [reflexivity|]. split; [reflexivity|].
  intros key Hkey. cbn [ctxLookup]. unfold activityEnvContextKey in *.
  destruct (String.eqb_spec "activityEnv" key) as [Heq|_]; [congruence | reflexivity].
Qed.

(** X10. [WithActivityTask] returns a context exactly when the task and
    the five pointers it reads through are not nil; otherwise it panics
    with a nil dereference. *)
Theorem WithActivityTask_nil_pointers
    (ctx : Context) (task : option PollForActivityTaskResponse)
    (invoker : ServiceInvoker) (log : Logger) :
  let complete :=
    exists t aid name wid rid,
      task = Some t /\ respActivityId t = Some aid /\
      respActivityTypeName t = Some (Some name) /\
      respWorkflowExecution t = Some (Some wid, Some rid) in
  ((exists ctx1, WithActivityTask ctx task invoker log = Val ctx1) <-> complete)
  /\ (~ complete -> WithActivityTask ctx task invoker log = Pan nilDeref).
Proof.
  intros complete. unfold complete, WithActivityTask.
  destruct task as [t|]; simpl.
  - destruct (respActivityTypeName t) as [[name|]|] eqn:Hname; simpl;
      [destruct (respActivityId t) as [aid|] eqn:Haid; simpl;
       [destruct (respWorkflowExecution t) as [[[wid|] [rid|]]|] eqn:Hwe; simpl|]| |].
    1: { split.
         - split; [intros _; exists t, aid, name, wid, rid; repeat split; assumption|].
           intros _. eexists. reflexivity.
         - intros Hno. exfalso. apply Hno.
           exists t, aid, name, wid, rid. repeat split; assumption. }
    all: split; [split; [intros [c Hc]; discriminate Hc|] | intros _; reflexivity].
    all: intros (t' & aid' & name' & wid' & rid' & Ht & Ha & Hn & Hw);
      injection Ht as <-; congruence.
  - split; [split; [intros [c Hc]; discriminate Hc|] | intros _; reflexivity].
    intros (t' & _ & _ & _ & _ & Ht & _). discriminate Ht.
Qed.

End EnvironmentBinding.

Section HeartbeatTrace.

Context `{Package}.

(** X11. Whatever the context and the details, what a heartbeat adds to
    the world is settled by the details and the environment bound in the
    context. It adds nothing, and panics, when the details do not encode or
    no environment is bound. Otherwise it returns, having called the
    invoker of that environment once with the encoded details; it adds
    nothing more when the invoker answers nil, and one debug line, on the
    logger of that environment and carrying the error answered, when the
    invoker answers an error. *)
Theorem heartbeat_trace_shape (ctx : Context) (details : list iface) (w : world) :
  ((forall (data : bytes) (env : activityEnvironment),
      encodeArgs details = inl data ->
      ctxLookup ctx activityEnvContextKey = Some (VEnv env) -> False) /\
   exists pv : panicValue, RecordActivityHeartbeat ctx details w = Panicked pv w)
  \/ exists (data : bytes) (env : activityEnvironment),
       encodeArgs details = inl data /\
       ctxLookup ctx activityEnvContextKey = Some (VEnv env) /\
       ((Heartbeat (serviceInvoker env) data = None /\
         RecordActivityHeartbeat ctx details w = Done tt (w ++ [InvokerHeartbeat data]))
        \/ exists e : error,
             Heartbeat (serviceInvoker env) data = Some e /\
             RecordActivityHeartbeat ctx details w
             = Done tt (w ++ [InvokerHeartbeat data;
                              LogDebug (logger env)
                                "RecordActivityHeartbeat With Error:" e])).
Proof.
  unfold RecordActivityHeartbeat.
  destruct (encodeArgs details) as [data|err] eqn:Henc.
  - unfold bind, lift, callHeartbeat, logDebug, GetActivityLogger, getActivityEnv.
    destruct (ctxLookup ctx activityEnvContextKey) as [[l|env|v]|] eqn:Hctx.
    + left. split; [intros d env _ Habs; discriminate Habs|].
      eexists. reflexivity.
    + right. exists data, env. split; [reflexivity|]. split; [reflexivity|].
      destruct (Heartbeat (serviceInvoker env) data) as [e|] eqn:Hhb; cbn [res_bind].
      * right. exists e. split; [reflexivity|].
        rewrite <- app_assoc. reflexivity.
      * left. split; reflexivity.
    + left. split; [intros d env _ Habs; discriminate Habs|].
      eexists. reflexivity.
    + left. split; [intros d env _ Habs; discriminate Habs|].
      eexists. reflexivity.
  - left. split; [intros d env Habs _; discriminate Habs|].
    eexists. reflexivity.
Qed.

(** X12. When the details encode and the invoker accepts the heartbeat,
    [RecordActivityHeartbeat] returns after that single call, without a
    log line; when the details encode but the context carries no activity
    environment, it panics before any call of the invoker. *)
Theorem heartbeat_success_and_missing_environment
    (ctx : Context) (details : list iface) (data : bytes) (w : world) :
  encodeArgs details = inl data ->
  (forall env : activityEnvironment,
     ctxLookup ctx activityEnvContextKey = Some (VEnv env) ->
     Heartbeat (serviceInvoker env) data = None ->
     RecordActivityHeartbeat ctx details w = Done tt (w ++ [InvokerHeartbeat data]))
  /\ (ctxLookup ctx activityEnvContextKey = None ->
      RecordActivityHeartbeat ctx details w
      = Panicked (PanicString "getActivityEnv: Not an activity context") w).
Proof.
  intros Henc. unfold RecordActivityHeartbeat. rewrite Henc.
  unfold bind, lift, callHeartbeat, getActivityEnv. split.
  - intros env Henv Hhb. rewrite Henv, Hhb. reflexivity.
  - intros Hno. rewrite Hno. reflexivity.
Qed.

End HeartbeatTrace.

Lemma WithActivityTask_round_trip_witness :
  exists ctx1 : Context,
    (* over a context that already carries an environment *)
    WithActivityTask Fixtures.activityCtx
      (Some {| respTaskToken := list_byte_of_string "t2";
               respActivityId := Some "8";
               respActivityTypeName := Some (Some "other");
               respWorkflowExecution := Some (Some "wf2", Some "run2") |})
      Fixtures.failingInvoker Fixtures.sampleLogger = Val ctx1 /\
    GetActivityInfo ctx1
    = Val {| TaskToken := list_byte_of_string "t2";
             InfoWorkflowExecution := {| ID := "wf2"; RunID := "run2" |};
             InfoActivityID := "8";
             InfoActivityType := {| Name := "other" |} |}.
Proof.
  destruct (WithActivityTask_round_trip Fixtures.activityCtx
              {| respTaskToken := list_byte_of_string "t2";
                 respActivityId := Some "8";
                 respActivityTypeName := Some (Some "other");
                 respWorkflowExecution := Some (Some "wf2", Some "run2") |}
              Fixtures.failingInvoker Fixtures.sampleLogger "8" "other" "wf2" "run2"
              eq_refl eq_refl eq_refl) as (ctx1 & Hrun & Hinfo & _).
  exists ctx1. split; [exact Hrun | exact Hinfo].
Defined.

Lemma WithActivityTask_nil_pointers_witness :
  WithActivityTask Background
    (Some {| respTaskToken := []; respActivityId := Some "8";
             respActivityTypeName := Some None;
             respWorkflowExecution := Some (Some "wf2", Some "run2") |})
    Fixtures.failingInvoker Fixtures.sampleLogger
  = Pan nilDeref.
Proof.
  apply (proj2 (WithActivityTask_nil_pointers Background
                  (Some {| respTaskToken := []; respActivityId := Some "8";
                           respActivityTypeName := Some None;
                           respWorkflowExecution := Some (Some "wf2", Some "run2") |})
                  Fixtures.failingInvoker Fixtures.sampleLogger)).
  intros (t & aid & name & wid & rid & Ht & _ & Hn & _).
  injection Ht as <-. discriminate Hn.
Defined.

Lemma heartbeat_success_and_missing_environment_witness :
  @RecordActivityHeartbeat Fixtures.samplePackage Background [Fixtures.int42] []
  = Panicked (PanicString "getActivityEnv: Not an activity context") []
  /\ @RecordActivityHeartbeat Fixtures.samplePackage
       (WithValue Background activityEnvContextKey
          (VEnv {| taskToken := []; workflowExecution := {| ID := "wf"; RunID := "run" |};
                   activityID := "7"; activityType := {| Name := "a" |};
                   serviceInvoker := {| Heartbeat := fun _ => None |};
                   logger := Fixtures.sampleLogger |}))
       [Fixtures.int42] []
     = Done tt [InvokerHeartbeat (list_byte_of_string "42")].
Proof.
  split.
  - exact (proj2 (@heartbeat_success_and_missing_environment Fixtures.samplePackage
                    Background [Fixtures.int42] (list_byte_of_string "42") [] eq_refl)
             eq_refl).
  - set (env := {| taskToken := []; workflowExecution := {| ID := "wf"; RunID := "run" |};
                   activityID := "7"; activityType := {| Name := "a" |};
                   serviceInvoker := {| Heartbeat := fun _ => None |};
                   logger := Fixtures.sampleLogger |}).
    exact (proj1 (@heartbeat_success_and_missing_environment Fixtures.samplePackage
                    (WithValue Background activityEnvContextKey (VEnv env))
                    [Fixtures.int42] (list_byte_of_string "42") [] eq_refl)
             env eq_refl eq_refl).
Defined.

(** ** The option chain as a whole *)

Section ChainProperties.

Context `{Machine}.

Lemma withField_bound (upd : executeActivityParameters -> executeActivityParameters)
    (ctx : Context) (h : store) (l : loc) (p : executeActivityParameters) :
  getActivityOptions ctx = Val (Some l) -> h !! l = Some p ->
  withField upd ctx h = Done ctx (<[l := upd p]> h).
Proof.
  intros Hopt Hl. unfold withField, setActivityParametersIfNotExist, bind, lift, ret.
  rewrite Hopt. cbv beta iota. rewrite Hopt.
  rewrite (assign_bound _ _ _ _ Hl). reflexivity.
Qed.

Lemma withField_absent (upd : executeActivityParameters -> executeActivityParameters)
    (ctx : Context) (h : store) :
  getActivityOptions ctx = Val None ->
  withField upd ctx h
  = Done (WithValue ctx activityOptionsContextKey (VParams (length h)))
         (h ++ [upd zeroParameters]).
Proof.
  intros Hopt. unfold withField, setActivityParametersIfNotExist, bind, lift, ret, new.
  rewrite Hopt. cbv beta iota. rewrite getActivityOptions_bound.
  rewrite (assign_bound _ _ _ _ (store_snoc_lookup h zeroParameters)).
  rewrite store_snoc_insert. reflexivity.
Qed.

Lemma chainStep_bound (ctx : Context) (h : store) (l : loc)
    (p q : executeActivityParameters) :
  getActivityOptions ctx = Val (Some l) -> h !! l = Some p ->
  chainStep ctx h (Done ctx (<[l := q]> h)).
Proof.
  intros Hopt Hl. exists ctx, (<[l := q]> h). split; [reflexivity|].
  split.
  { unfold optionsWellFormed. apply getActivityOptions_Some in Hopt. rewrite Hopt.
    exists q. eapply lookup_after_insert. exact Hl. }
  split; [reflexivity|].
  split; [intros _; split; [reflexivity | apply length_insert]|].
  split; [intros Habs; congruence|].
  intros l' Hl'. apply list_lookup_insert_ne. congruence.
Qed.

Lemma chainStep_absent (ctx : Context) (h : store) (q : executeActivityParameters) :
  getActivityOptions ctx = Val None ->
  chainStep ctx h
    (Done (WithValue ctx activityOptionsContextKey (VParams (length h))) (h ++ [q])).
Proof.
  intros Hopt. eexists; eexists. split; [reflexivity|].
  split.
  { unfold optionsWellFormed. rewrite ctxLookup_WithValue. exists q.
    apply store_snoc_lookup. }
  split.
  { intros key Hkey. cbn [ctxLookup]. unfold activityOptionsContextKey in *.
    destruct (String.eqb_spec "activityOptions" key) as [Heq|_];
      [congruence | reflexivity]. }
  split; [intros Habs; congruence|].
  split; [intros _; split; [reflexivity|]; rewrite length_app; simpl; lia|].
  intros l Hl. rewrite getActivityOptions_bound in Hl.
  destruct (Nat.lt_ge_cases l (length h)) as [Hlt|Hge].
  - apply lookup_app_l. exact Hlt.
  - assert (l <> length h) by congruence.
    transitivity (@None executeActivityParameters).
    + apply lookup_ge_None_2. rewrite length_app. simpl. lia.
    + symmetry. apply lookup_ge_None_2. lia.
Qed.

Lemma withField_chainStep (upd : executeActivityParameters -> executeActivityParameters)
    (ctx : Context) (h : store) :
  optionsWellFormed ctx h -> chainStep ctx h (withField upd ctx h).
Proof.
  unfold optionsWellFormed. intros Hwf.
  destruct (ctxLookup ctx activityOptionsContextKey) as [[l|env|v]|] eqn:Hctx;
    try contradiction.
  - destruct Hwf as [p Hl].
    assert (Hopt : getActivityOptions ctx = Val (Some l))
      by (apply getActivityOptions_Some; exact Hctx).
    rewrite (withField_bound _ _ _ _ _ Hopt Hl). eapply chainStep_bound; eassumption.
  - assert (Hopt : getActivityOptions ctx = Val None)
      by (apply getActivityOptions_absent; exact Hctx).
    rewrite (withField_absent _ _ _ Hopt). apply chainStep_absent. exact Hopt.
Qed.

(** X13. On a context whose options binding is well formed, each of the
    seven public setters returns, without panicking, a context whose
    binding is well formed again; it leaves the other keys of the context
    alone; it returns the same context when an object was bound, and
    adds one node and one object otherwise; and it changes no object of
    the store but the one the result points to. *)
Theorem setters_extend_the_chain
    (ctx : Context) (h : store) (name : string) (wait : bool) (d : Duration)
    (ao : activityOptions) :
  optionsWellFormed ctx h ->
  chainStep ctx h (WithTaskList ctx name h) /\
  chainStep ctx h (WithWaitForCancellation ctx wait h) /\
  chainStep ctx h (WithScheduleToCloseTimeout ctx d h) /\
  chainStep ctx h (WithScheduleToStartTimeout ctx d h) /\
  chainStep ctx h (WithStartToCloseTimeout ctx d h) /\
  chainStep ctx h (WithHeartbeatTimeout ctx d h) /\
  chainStep ctx h (WithActivityOptions ctx ao h).
Proof.
  intros Hwf.
  repeat (split; [exact (withField_chainStep _ ctx h Hwf)|]).
  unfold optionsWellFormed in Hwf.
  destruct (ctxLookup ctx activityOptionsContextKey) as [[l|env|v]|] eqn:Hctx;
    try contradiction.
  - destruct Hwf as [p Hl].
    assert (Hopt : getActivityOptions ctx = Val (Some l))
      by (apply getActivityOptions_Some; exact Hctx).
    rewrite (WithActivityOptions_bound _ _ _ _ _ Hopt Hl).
    eapply chainStep_bound; eassumption.
  - assert (Hopt : getActivityOptions ctx = Val None)
      by (apply getActivityOptions_absent; exact Hctx).
    rewrite (WithActivityOptions_absent _ _ _ Hopt). apply chainStep_absent. exact Hopt.
Qed.

End ChainProperties.

Lemma setters_extend_the_chain_witness :
  @chainStep Background [] (WithTaskList Background "q" [])
  /\ chainStep Background []
       (@WithStartToCloseTimeout Fixtures.amd64 Background 5000000000 []).
Proof.
  destruct (@setters_extend_the_chain Fixtures.amd64 Background [] "q" true 5000000000
              NewActivityOptions I) as (Htl & _ & _ & _ & Hstc & _).
  split; [exact Htl | exact Hstc].
Defined.

Section BuilderAndSetters.

Context `{Machine}.

Lemma WithWaitForCancellation_bound (ctx : Context) (wait : bool) (h : store)
    (l : loc) (p : executeActivityParameters) :
  getActivityOptions ctx = Val (Some l) -> h !! l = Some p ->
  WithWaitForCancellation ctx wait h = Done ctx (<[l := setWaitForCancellation wait p]> h).
Proof. apply withField_bound. Qed.

Lemma WithScheduleToCloseTimeout_bound (ctx : Context) (d : Duration) (h : store)
    (l : loc) (p : executeActivityParameters) :
  getActivityOptions ctx = Val (Some l) -> h !! l = Some p ->
  WithScheduleToCloseTimeout ctx d h
  = Done ctx (<[l := setScheduleToCloseTimeoutSeconds (int32OfFloat64 (Seconds d)) p]> h).
Proof. apply withField_bound. Qed.

Lemma WithScheduleToStartTimeout_bound (ctx : Context) (d : Duration) (h : store)
    (l : loc) (p : executeActivityParameters) :
  getActivityOptions ctx = Val (Some l) -> h !! l = Some p ->
  WithScheduleToStartTimeout ctx d h
  = Done ctx (<[l := setScheduleToStartTimeoutSeconds (int32OfFloat64 (Seconds d)) p]> h).
Proof. apply withField_bound. Qed.

Lemma WithStartToCloseTimeout_bound (ctx : Context) (d : Duration) (h : store)
    (l : loc) (p : executeActivityParameters) :
  getActivityOptions ctx = Val (Some l) -> h !! l = Some p ->
  WithStartToCloseTimeout ctx d h
  = Done ctx (<[l := setStartToCloseTimeoutSeconds (int32OfFloat64 (Seconds d)) p]> h).
Proof. apply withField_bound. Qed.

Lemma WithHeartbeatTimeout_bound (ctx : Context) (d : Duration) (h : store)
    (l : loc) (p : executeActivityParameters) :
  getActivityOptions ctx = Val (Some l) -> h !! l = Some p ->
  WithHeartbeatTimeout ctx d h
  = Done ctx (<[l := setHeartbeatTimeoutSeconds (int32OfFloat64 (Seconds d)) p]> h).
Proof. apply withField_bound. Qed.

(** The six context setters in the order of the builder's fields, on a
    context that holds a pointer to [p]. *)
Lemma setters_in_sequence_bound (ctx : Context) (h : store) (l : loc)
    (p : executeActivityParameters) (name : string) (d1 d2 d3 d4 : Duration)
    (wait : bool) :
  getActivityOptions ctx = Val (Some l) -> h !! l = Some p ->
  (let* c1 := WithTaskList ctx name in
   let* c2 := WithScheduleToCloseTimeout c1 d1 in
   let* c3 := WithScheduleToStartTimeout c2 d2 in
   let* c4 := WithStartToCloseTimeout c3 d3 in
   let* c5 := WithHeartbeatTimeout c4 d4 in
   WithWaitForCancellation c5 wait) h
  = Done ctx
      (<[l := setWaitForCancellation wait
                (setHeartbeatTimeoutSeconds (int32OfFloat64 (Seconds d4))
                   (setStartToCloseTimeoutSeconds (int32OfFloat64 (Seconds d3))
                      (setScheduleToStartTimeoutSeconds (int32OfFloat64 (Seconds d2))
                         (setScheduleToCloseTimeoutSeconds (int32OfFloat64 (Seconds d1))
                            (setTaskListName name p)))))]> h).
Proof.
  intros Hopt Hl. unfold bind.
  rewrite (WithTaskList_bound _ _ _ _ _ Hopt Hl).
  rewrite (WithScheduleToCloseTimeout_bound _ _ _ _ _ Hopt (lookup_after_insert _ _ _ _ Hl)).
  rewrite list_insert_insert_eq.
  rewrite (WithScheduleToStartTimeout_bound _ _ _ _ _ Hopt (lookup_after_insert _ _ _ _ Hl)).
  rewrite list_insert_insert_eq.
  rewrite (WithStartToCloseTimeout_bound _ _ _ _ _ Hopt (lookup_after_insert _ _ _ _ Hl)).
  rewrite list_insert_insert_eq.
  rewrite (WithHeartbeatTimeout_bound _ _ _ _ _ Hopt (lookup_after_insert _ _ _ _ Hl)).
  rewrite list_insert_insert_eq.
  rewrite (WithWaitForCancellation_bound _ _ _ _ _ Hopt (lookup_after_insert _ _ _ _ Hl)).
  rewrite list_insert_insert_eq. reflexivity.
Qed.

(** X14. Passing to [WithActivityOptions] a builder on which the six
    public methods were called does to any context and store exactly what
    the six context setters do in sequence with the same arguments: the
    same context and the same store, or the same panic. *)
Theorem WithActivityOptions_as_setters
    (ctx : Context) (h : store) (name : string) (d1 d2 d3 d4 : Duration) (wait : bool) :
  WithActivityOptions ctx
    (ab_WithWaitForCancellation
       (ab_WithHeartbeatTimeout
          (ab_WithStartToCloseTimeout
             (ab_WithScheduleToStartTimeout
                (ab_WithScheduleToCloseTimeout
                   (ab_WithTaskList NewActivityOptions name) d1) d2) d3) d4) wait) h
  = (let* c1 := WithTaskList ctx name in
     let* c2 := WithScheduleToCloseTimeout c1 d1 in
     let* c3 := WithScheduleToStartTimeout c2 d2 in
     let* c4 := WithStartToCloseTimeout c3 d3 in
     let* c5 := WithHeartbeatTimeout c4 d4 in
     WithWaitForCancellation c5 wait) h.
Proof.
  set (ao := ab_WithWaitForCancellation _ wait).
  destruct (ctxLookup ctx activityOptionsContextKey) as [[l|env|v]|] eqn:Hctx.
  - assert (Hopt : getActivityOptions ctx = Val (Some l))
      by (apply getActivityOptions_Some; exact Hctx).
    destruct (h !! l) as [p|] eqn:Hl.
    + rewrite (setters_in_sequence_bound _ _ _ _ _ _ _ _ _ _ Hopt Hl).
      rewrite (WithActivityOptions_bound _ _ _ _ _ Hopt Hl).
      destruct p. reflexivity.
    + unfold WithActivityOptions, WithTaskList, setActivityParametersIfNotExist,
        bind, lift, ret, assignIfSet, assign.
      rewrite Hopt. cbn. rewrite Hopt, Hl. reflexivity.
  - unfold WithActivityOptions, WithTaskList, setActivityParametersIfNotExist,
      bind, lift, getActivityOptions.
    rewrite Hctx. reflexivity.
  - unfold WithActivityOptions, WithTaskList, setActivityParametersIfNotExist,
      bind, lift, getActivityOptions.
    rewrite Hctx. reflexivity.
  - assert (Hopt : getActivityOptions ctx = Val None)
      by (apply getActivityOptions_absent; exact Hctx).
    rewrite (WithActivityOptions_absent _ _ _ Hopt).
    unfold bind at 1. unfold bind at 1. unfold bind at 1. unfold bind at 1.
    unfold bind at 1.
    rewrite (WithTaskList_absent _ _ _ Hopt).
    pose proof (setters_in_sequence_bound
                  (WithValue ctx activityOptionsContextKey (VParams (length h)))
                  (h ++ [zeroParameters]) (length h) zeroParameters name d1 d2 d3 d4 wait
                  (getActivityOptions_bound _ _) (store_snoc_lookup _ _)) as Hseq.
    unfold bind in Hseq.
    rewrite (WithTaskList_bound _ _ _ _ _ (getActivityOptions_bound _ _)
               (store_snoc_lookup h zeroParameters)) in Hseq.
    rewrite !store_snoc_insert in Hseq. rewrite Hseq. reflexivity.
Qed.

(** X15. [WithActivityOptions] is idempotent, and an empty builder changes
    nothing: on the context and store a first call returned, a second
    call with the same builder returns them unchanged; and on a context
    that holds an object, the builder [NewActivityOptions] returns the
    context and the store as they are. *)
Theorem WithActivityOptions_idempotent
    (ctx : Context) (ao : activityOptions) (h : store) :
  optionsWellFormed ctx h ->
  (exists (ctx1 : Context) (h1 : store),
     WithActivityOptions ctx ao h = Done ctx1 h1 /\
     WithActivityOptions ctx1 ao h1 = Done ctx1 h1)
  /\ (getActivityOptions ctx <> Val None ->
      WithActivityOptions ctx NewActivityOptions h = Done ctx h).
Proof.
  unfold optionsWellFormed. intros Hwf.
  assert (Hidem : forall p, overlay ao (overlay ao p) = overlay ao p).
  { intros p. destruct ao as [[?|] [?|] [?|] [?|] [?|] [?|] [?|]], p; reflexivity. }
  destruct (ctxLookup ctx activityOptionsContextKey) as [[l|env|v]|] eqn:Hctx;
    try contradiction.
  - destruct Hwf as [p Hl].
    assert (Hopt : getActivityOptions ctx = Val (Some l))
      by (apply getActivityOptions_Some; exact Hctx).
    split.
    + exists ctx, (<[l := overlay ao p]> h).
      split; [apply WithActivityOptions_bound; assumption|].
      rewrite (WithActivityOptions_bound _ _ _ _ _ Hopt (lookup_after_insert _ _ _ _ Hl)).
      rewrite list_insert_insert_eq, Hidem. reflexivity.
    + intros _. rewrite (WithActivityOptions_bound _ _ _ _ _ Hopt Hl).
      replace (overlay NewActivityOptions p) with p by (destruct p; reflexivity).
      rewrite list_insert_id by exact Hl. reflexivity.
  - assert (Hopt : getActivityOptions ctx = Val None)
      by (apply getActivityOptions_absent; exact Hctx).
    split; [|congruence].
    eexists; eexists. split; [apply WithActivityOptions_absent; exact Hopt|].
    rewrite (WithActivityOptions_bound _ _ _ _ _ (getActivityOptions_bound _ _)
               (store_snoc_lookup _ _)).
    rewrite store_snoc_insert, Hidem. reflexivity.
Qed.

End BuilderAndSetters.

Section ConfigureThenValidate.

Context `{Machine}.

Lemma whole_seconds_positive (d : Duration) :
  Second <= d < 2 ^ 24 * Second -> 0 < int32OfFloat64 (Seconds d).
Proof.
  intros Hd. rewrite int32OfFloat64_Seconds by (unfold Second in *; lia).
  unfold Second in *.
  pose proof (Z.quot_rem d 1000000000 ltac:(lia)) as Hqr.
  pose proof (Z.rem_bound_abs d 1000000000 ltac:(lia)) as Hb.
  pose proof (Z.rem_nonneg d 1000000000 ltac:(lia) ltac:(lia)). lia.
Qed.

(** X16. A builder on which the three mandatory timeouts were set to
    durations of at least one second (and less than [2 ^ 24] seconds),
    whatever else was set on it, makes any well-formed context pass the
    validation: after [WithActivityOptions], [getValidatedActivityOptions]
    returns the pointer the context holds and no error, and the store is
    the one [WithActivityOptions] left. *)
Theorem configured_options_validate
    (ctx : Context) (h : store) (ab : activityOptions) (d1 d2 d3 : Duration) :
  optionsWellFormed ctx h ->
  Second <= d1 < 2 ^ 24 * Second ->
  Second <= d2 < 2 ^ 24 * Second ->
  Second <= d3 < 2 ^ 24 * Second ->
  let ao := ab_WithStartToCloseTimeout
              (ab_WithScheduleToStartTimeout
                 (ab_WithScheduleToCloseTimeout ab d1) d2) d3 in
  exists (ctx1 : Context) (h1 : store) (l : loc),
    WithActivityOptions ctx ao h = Done ctx1 h1 /\
    getActivityOptions ctx1 = Val (Some l) /\
    getValidatedActivityOptions ctx1 h1 = Done (Some l, None) h1.
Proof.
  intros Hwf Hd1 Hd2 Hd3 ao.
  pose proof (whole_seconds_positive d1 Hd1) as H1.
  pose proof (whole_seconds_positive d2 Hd2) as H2.
  pose proof (whole_seconds_positive d3 Hd3) as H3.
  assert (Hverdict : forall l p, timeoutVerdict l (overlay ao p) = (Some l, None)).
  { intros l p. unfold timeoutVerdict. cbn.
    apply Z.leb_gt in H1, H2, H3. rewrite H2, H1, H3. reflexivity. }
  unfold optionsWellFormed in Hwf.
  destruct (ctxLookup ctx activityOptionsContextKey) as [[l|env|v]|] eqn:Hctx;
    try contradiction.
  - destruct Hwf as [p Hl].
    assert (Hopt : getActivityOptions ctx = Val (Some l))
      by (apply getActivityOptions_Some; exact Hctx).
    exists ctx, (<[l := overlay ao p]> h), l.
    split; [apply WithActivityOptions_bound; assumption|]. split; [exact Hopt|].
    rewrite (getValidatedActivityOptions_bound _ _ _ _ Hopt (lookup_after_insert _ _ _ _ Hl)).
    rewrite Hverdict. reflexivity.
  - assert (Hopt : getActivityOptions ctx = Val None)
      by (apply getActivityOptions_absent; exact Hctx).
    exists (WithValue ctx activityOptionsContextKey (VParams (length h))),
           (h ++ [overlay ao zeroParameters]), (length h).
    split; [apply WithActivityOptions_absent; exact Hopt|].
    split; [reflexivity|].
    rewrite (getValidatedActivityOptions_bound _ _ _ _ (getActivityOptions_bound _ _)
               (store_snoc_lookup _ _)).
    rewrite Hverdict. reflexivity.
Qed.

End ConfigureThenValidate.

Section ChainEdges.

(** X17. On a context with no options bound, [WithTaskList] and
    [WithWaitForCancellation] bind a new object in which only the field
    they set differs from the zero value: the four timeouts are zero, and
    the validation refuses the context returned with the error that names
    the schedule-to-start timeout. *)
Theorem unconfigured_timeouts_rejected
    (ctx : Context) (h : store) (name : string) (wait : bool) :
  ctxLookup ctx activityOptionsContextKey = None ->
  (exists (ctx1 : Context) (h1 : store) (l : loc) (p : executeActivityParameters),
     WithTaskList ctx name h = Done ctx1 h1 /\
     ctxLookup ctx1 activityOptionsContextKey = Some (VParams l) /\
     h1 !! l = Some p /\
     p = setTaskListName name zeroParameters /\
     TaskListName p = name /\
     ScheduleToStartTimeoutSeconds p = 0 /\
     ScheduleToCloseTimeoutSeconds p = 0 /\
     StartToCloseTimeoutSeconds p = 0 /\
     HeartbeatTimeoutSeconds p = 0 /\
     getValidatedActivityOptions ctx1 h1
     = Done (None, Some (errorsNew "missing or negative ScheduleToStartTimeoutSeconds")) h1)
  /\ (exists (ctx1 : Context) (h1 : store) (l : loc) (p : executeActivityParameters),
        WithWaitForCancellation ctx wait h = Done ctx1 h1 /\
        ctxLookup ctx1 activityOptionsContextKey = Some (VParams l) /\
        h1 !! l = Some p /\
        p = setWaitForCancellation wait zeroParameters /\
        WaitForCancellation p = wait /\
        ScheduleToStartTimeoutSeconds p = 0 /\
        ScheduleToCloseTimeoutSeconds p = 0 /\
        StartToCloseTimeoutSeconds p = 0 /\
        HeartbeatTimeoutSeconds p = 0 /\
        getValidatedActivityOptions ctx1 h1
        = Done (None, Some (errorsNew "missing or negative ScheduleToStartTimeoutSeconds")) h1).
Proof.
  intros Hctx. pose proof (getActivityOptions_absent _ Hctx) as Hopt. split.
  - exists (WithValue ctx activityOptionsContextKey (VParams (length h))),
           (h ++ [setTaskListName name zeroParameters]),
           (length h), (setTaskListName name zeroParameters).
    split; [apply WithTaskList_absent; exact Hopt|].
    split; [apply ctxLookup_WithValue|].
    split; [apply store_snoc_lookup|].
    repeat (split; [reflexivity|]).
    rewrite (getValidatedActivityOptions_bound _ _ _ _ (getActivityOptions_bound _ _)
               (store_snoc_lookup _ _)).
    reflexivity.
  - exists (WithValue ctx activityOptionsContextKey (VParams (length h))),
           (h ++ [setWaitForCancellation wait zeroParameters]),
           (length h), (setWaitForCancellation wait zeroParameters).
    split; [apply (withField_absent _ _ _ Hopt)|].
    split; [apply ctxLookup_WithValue|].
    split; [apply store_snoc_lookup|].
    repeat (split; [reflexivity|]).
    rewrite (getValidatedActivityOptions_bound _ _ _ _ (getActivityOptions_bound _ _)
               (store_snoc_lookup _ _)).
    reflexivity.
Qed.

(** X18. When the options key of a context is bound to a value that is
    not a parameters pointer, the type assertion of [getActivityOptions]
    panics: the validation, [WithTaskList], [WithWaitForCancellation] and
    [WithActivityOptions] all panic with it and leave the store as it
    is; no object is allocated. *)
Theorem foreign_options_binding_panics
    (ctx : Context) (h : store) (name : string) (wait : bool) (ao : activityOptions) :
  (exists v, ctxLookup ctx activityOptionsContextKey = Some v /\
             forall l, v <> VParams l) ->
  getValidatedActivityOptions ctx h = Panicked typeAssertion h /\
  WithTaskList ctx name h = Panicked typeAssertion h /\
  WithWaitForCancellation ctx wait h = Panicked typeAssertion h /\
  WithActivityOptions ctx ao h = Panicked typeAssertion h.
Proof.
  intros (v & Hctx & Hv).
  assert (Hopt : getActivityOptions ctx = Pan typeAssertion).
  { unfold getActivityOptions. rewrite Hctx. destruct v as [l| |]; [|reflexivity..].
    exfalso. exact (Hv l eq_refl). }
  unfold getValidatedActivityOptions, WithTaskList, WithWaitForCancellation,
    WithActivityOptions, setActivityParametersIfNotExist, bind, lift.
  rewrite Hopt. repeat split.
Qed.

End ChainEdges.

Lemma WithActivityOptions_idempotent_witness :
  let ao := ab_WithTaskList NewActivityOptions "q" in
  exists (ctx1 : Context) (h1 : store),
    WithActivityOptions Background ao [] = Done ctx1 h1 /\
    WithActivityOptions ctx1 ao h1 = Done ctx1 h1.
Proof.
  exact (proj1 (WithActivityOptions_idempotent Background
                  (ab_WithTaskList NewActivityOptions "q") [] I)).
Defined.

Lemma configured_options_validate_witness :
  let ao := @ab_WithStartToCloseTimeout Fixtures.amd64
              (@ab_WithScheduleToStartTimeout Fixtures.amd64
                 (@ab_WithScheduleToCloseTimeout Fixtures.amd64
                    (ab_WithTaskList NewActivityOptions "q") 5000000000)
                 5000000000) 5000000000 in
  exists (ctx1 : Context) (h1 : store) (l : loc),
    WithActivityOptions Background ao [] = Done ctx1 h1 /\
    getActivityOptions ctx1 = Val (Some l) /\
    getValidatedActivityOptions ctx1 h1 = Done (Some l, None) h1.
Proof.
  exact (@configured_options_validate Fixtures.amd64 Background []
           (ab_WithTaskList NewActivityOptions "q") 5000000000 5000000000 5000000000 I
           ltac:(vm_compute; split; [discriminate | reflexivity])
           ltac:(vm_compute; split; [discriminate | reflexivity])
           ltac:(vm_compute; split; [discriminate | reflexivity])).
Defined.

Lemma unconfigured_timeouts_rejected_witness :
  exists (ctx1 : Context) (h1 : store) (l : loc) (p : executeActivityParameters),
    WithTaskList Background "q" [] = Done ctx1 h1 /\
    ctxLookup ctx1 activityOptionsContextKey = Some (VParams l) /\
    h1 !! l = Some p /\
    p = setTaskListName "q" zeroParameters /\
    TaskListName p = "q" /\
    ScheduleToStartTimeoutSeconds p = 0 /\
    ScheduleToCloseTimeoutSeconds p = 0 /\
    StartToCloseTimeoutSeconds p = 0 /\
    HeartbeatTimeoutSeconds p = 0 /\
    getValidatedActivityOptions ctx1 h1
    = Done (None, Some (errorsNew "missing or negative ScheduleToStartTimeoutSeconds")) h1.
Proof.
  exact (proj1 (unconfigured_timeouts_rejected Background [] "q" true eq_refl)).
Defined.

Lemma foreign_options_binding_panics_witness :
  let ctx := WithValue Background activityOptionsContextKey
               (VOther {| dynType := Fixtures.tInt; repr := "42" |}) in
  getValidatedActivityOptions ctx [] = Panicked typeAssertion []
  /\ WithTaskList ctx "q" [] = Panicked typeAssertion [].
Proof.
  intros ctx.
  destruct (foreign_options_binding_panics ctx [] "q" true NewActivityOptions)
    as (Hv & Ht & _).
  - eexists. split; [reflexivity | discriminate].
  - split; [exact Hv | exact Ht].
Defined.

Section Siblings.

(** X19. Two contexts derived by [WithTaskList] from one ancestor that has
    no options are independent: each gets an object of its own, and
    deriving the second does not change what the first resolves to. *)
Theorem siblings_of_unconfigured_ancestor_independent
    (C0 : Context) (h0 : store) (a b : string) :
  getActivityOptions C0 = Val None ->
  exists (C1 C2 : Context) (h1 h2 : store),
    WithTaskList C0 a h0 = Done C1 h1 /\
    WithTaskList C0 b h1 = Done C2 h2 /\
    getActivityOptions C1 <> getActivityOptions C2 /\
    resolvedTaskList C1 h2 = Some a /\
    resolvedTaskList C2 h2 = Some b.
Proof.
  intros Hopt.
  exists (WithValue C0 activityOptionsContextKey (VParams (length h0))),
         (WithValue C0 activityOptionsContextKey
            (VParams (length (h0 ++ [setTaskListName a zeroParameters])))),
         (h0 ++ [setTaskListName a zeroParameters]),
         ((h0 ++ [setTaskListName a zeroParameters]) ++ [setTaskListName b zeroParameters]).
  split; [apply WithTaskList_absent; exact Hopt|].
  split; [apply WithTaskList_absent; exact Hopt|].
  split.
  { rewrite !getActivityOptions_bound, length_app. simpl. intros Heq.
    injection Heq as Heq. lia. }
  split.
  - rewrite (resolvedTaskList_bound _ _ (length h0) (setTaskListName a zeroParameters)
               (getActivityOptions_bound _ _)); [reflexivity|].
    rewrite lookup_app_l by (rewrite length_app; simpl; lia).
    apply store_snoc_lookup.
  - rewrite (resolvedTaskList_bound _ _ _ (setTaskListName b zeroParameters)
               (getActivityOptions_bound _ _)); [reflexivity|].
    apply store_snoc_lookup.
Qed.

End Siblings.

Lemma siblings_of_unconfigured_ancestor_independent_witness :
  exists (C1 C2 : Context) (h1 h2 : store),
    WithTaskList Background "A" [] = Done C1 h1 /\
    WithTaskList Background "B" h1 = Done C2 h2 /\
    getActivityOptions C1 <> getActivityOptions C2 /\
    resolvedTaskList C1 h2 = Some "A" /\
    resolvedTaskList C2 h2 = Some "B".
Proof.
  exact (siblings_of_unconfigured_ancestor_independent Background [] "A" "B" eq_refl).
Defined.

Lemma validateFunctionResults_accepts_witness :
  (* a nil result: the empty payload *)
  @validateFunctionResults Fixtures.samplePackage Fixtures.sampleHost
    Fixtures.sampleActivity None = Val ([], None)
  (* a string, for an activity given by name *)
  /\ @validateFunctionResults Fixtures.samplePackage Fixtures.sampleHost
       Fixtures.sampleName Fixtures.strQ = Val (list_byte_of_string "q", None).
Proof.
  split.
  - apply (proj2 (@validateFunctionResults_accepts Fixtures.samplePackage Fixtures.sampleHost
                    {| dynType := MkType "func(context.Context, int, string) (string, error)"
                         reflect.Func [contextElem; Fixtures.tInt; Fixtures.tString]
                         [Fixtures.tString; errorElem];
                       repr := "sampleActivity" |}
                    None [])).
    split; [right; split; reflexivity | left; split; reflexivity].
  - apply (proj2 (@validateFunctionResults_accepts Fixtures.samplePackage Fixtures.sampleHost
                    {| dynType := Fixtures.tString; repr := "sampleActivity" |}
                    Fixtures.strQ (list_byte_of_string "q"))).
    split; [left; reflexivity | right; split; [discriminate | reflexivity]].
Defined.
